(** * ccpromo-scraper: a shallow embedding of the bank-promo scrapers

    The development follows the Python sources:
    - [utilities/classes.py]    the pydantic model [BankPromo];
    - [utilities/core_utils.py] [get_sitemap_urls], [get_html_content],
                                [html_to_text];
    - [scraper_bdo.py]          the token-authenticated, paginated adapter;
    - [scraper_bpi.py], [scraper_ew.py]  the sitemap-driven adapters;
    - [scraper_chinabank.py]    the category-crawl adapter.

    Python values are an inductive type, exceptions are values of [exn],
    and the effects of the code (HTTP requests sent, error and warning
    log lines written) are threaded through an explicit [world].
    Informational log lines and the random [time.sleep] throttle change
    neither the returned value nor the requests sent and are left out.
    A string holds its text in UTF-8, as the string literals of this
    file do; JSON numbers are integers. *)

From Stdlib Require Import List String Ascii ZArith Bool Arith Lia.
From Stdlib Require Import DecimalString DecimalNat FinFun.
Import ListNotations.
Local Open Scope string_scope.

Set Implicit Arguments.
Set Warnings "-register-all".

(** ** Python strings *)

Module PyStr.

Definition nl : string := String (ascii_of_nat 10) EmptyString.

(** The separator of ["\n\n".join(...)]. *)
Definition blank_line : string := nl ++ nl.

Definition byte (c : ascii) : nat := nat_of_ascii c.

(** The characters [str.isspace] holds of, which are those that
    [str.strip] removes:
    - U+0009..U+000D, U+001C..U+001F and U+0020, one byte each;
    - U+0085 and U+00A0, the bytes C2 85 and C2 A0;
    - U+1680 (E1 9A 80), U+2000..U+200A (E2 80 80 .. E2 80 8A),
      U+2028, U+2029 and U+202F (E2 80 A8, E2 80 A9, E2 80 AF),
      U+205F (E2 81 9F) and U+3000 (E3 80 80). *)
Definition is_space (c : ascii) : bool :=
  (Nat.leb 9 (byte c) && Nat.leb (byte c) 13)
  || (Nat.leb 28 (byte c) && Nat.leb (byte c) 32).

Definition is_space2 (c d : ascii) : bool :=
  Nat.eqb (byte c) 194 && (Nat.eqb (byte d) 133 || Nat.eqb (byte d) 160).

Definition is_space3 (c d e : ascii) : bool :=
  (Nat.eqb (byte c) 225 && Nat.eqb (byte d) 154 && Nat.eqb (byte e) 128)
  || (Nat.eqb (byte c) 226 && Nat.eqb (byte d) 128
      && ((Nat.leb 128 (byte e) && Nat.leb (byte e) 138)
          || Nat.eqb (byte e) 168 || Nat.eqb (byte e) 169 || Nat.eqb (byte e) 175))
  || (Nat.eqb (byte c) 226 && Nat.eqb (byte d) 129 && Nat.eqb (byte e) 159)
  || (Nat.eqb (byte c) 227 && Nat.eqb (byte d) 128 && Nat.eqb (byte e) 128).

(** [s.lstrip()] *)
Fixpoint lstrip (s : string) : string :=
  match s with
  | EmptyString => EmptyString
  | String c s1 =>
      if is_space c then lstrip s1
      else
        match s1 with
        | EmptyString => s
        | String d s2 =>
            if is_space2 c d then lstrip s2
            else
              match s2 with
              | EmptyString => s
              | String e s3 => if is_space3 c d e then lstrip s3 else s
              end
        end
  end.

(** A string of white space only. *)
Definition blank (s : string) : bool :=
  match lstrip s with EmptyString => true | String _ _ => false end.

(** [s.rstrip()]: the string up to the white space it ends with. *)
Fixpoint rstrip (s : string) : string :=
  match s with
  | EmptyString => EmptyString
  | String c s' => if blank s then EmptyString else String c (rstrip s')
  end.

(** [s.strip()] *)
Definition strip (s : string) : string := rstrip (lstrip s).

(** The no-break space U+00A0 and the ideographic space U+3000. *)
Definition nbsp : string :=
  String (ascii_of_nat 194) (String (ascii_of_nat 160) EmptyString).

Definition ideographic_space : string :=
  String (ascii_of_nat 227)
    (String (ascii_of_nat 128) (String (ascii_of_nat 128) EmptyString)).

(** [s.startswith(p)] *)
Definition startswith (s p : string) : bool := String.prefix p s.

(** [sub in s] for two strings. *)
Fixpoint contains (sub s : string) : bool :=
  String.prefix sub s ||
  match s with
  | EmptyString => false
  | String _ s' => contains sub s'
  end.

(** [sep.join(parts)] *)
Definition join (sep : string) (parts : list string) : string :=
  String.concat sep parts.

(** [str(n)] for a natural number and for an integer. *)
Definition of_nat (n : nat) : string := NilEmpty.string_of_uint (Nat.to_uint n).
Definition of_Z (z : Z) : string := NilZero.string_of_int (Z.to_int z).

(** A byte that continues the encoding of a character. *)
Definition is_continuation (c : ascii) : bool :=
  Nat.leb 128 (byte c) && Nat.leb (byte c) 191.

(** The continuation bytes a string begins with, and the characters
    after them. *)
Fixpoint split_chars (s : string) : string * list string :=
  match s with
  | EmptyString => (EmptyString, [])
  | String c s' =>
      let (k, cs) := split_chars s' in
      if is_continuation c then (String c k, cs) else (EmptyString, String c k :: cs)
  end.

(** The characters of a string, as one-character strings. *)
Definition chars (s : string) : list string := snd (split_chars s).

(** [c.lower()] for an ASCII letter. *)
Definition lower (c : ascii) : ascii :=
  if Nat.leb 65 (byte c) && Nat.leb (byte c) 90
  then ascii_of_nat (byte c + 32)
  else c.

(** What follows the prefix [p] in [s], letter case apart ([p] is in
    lower case). *)
Fixpoint after_nocase (p s : string) : option string :=
  match p, s with
  | EmptyString, _ => Some s
  | String _ _, EmptyString => None
  | String a p', String b s' =>
      if Ascii.eqb a (lower b) then after_nocase p' s' else None
  end.

End PyStr.

(** ** Python values (the image of [json.loads], plus the values the
    scrapers build themselves) *)

Inductive pyval : Type :=
| PNone
| PBool (b : bool)
| PInt (z : Z)
| PStr (s : string)
| PList (items : list pyval)
| PDict (fields : list (string * pyval)).

(** A dict is an association list; the first binding of a key is the
    live one. *)
Definition dict := list (string * pyval).

Module Dict.

Fixpoint lookup (k : string) (d : dict) : option pyval :=
  match d with
  | [] => None
  | (k', v) :: d' => if String.eqb k k' then Some v else lookup k d'
  end.

(** [k in d] *)
Definition mem (k : string) (d : dict) : bool :=
  match lookup k d with Some _ => true | None => false end.

(** [d.get(k, default)] *)
Definition get (k : string) (default : pyval) (d : dict) : pyval :=
  match lookup k d with Some v => v | None => default end.

(** [del d[k]] (all bindings of [k]). *)
Fixpoint remove (k : string) (d : dict) : dict :=
  match d with
  | [] => []
  | (k', v) :: d' =>
      if String.eqb k k' then remove k d' else (k', v) :: remove k d'
  end.

(** [d[k] = v]: overwrite in place, or append a new key. *)
Fixpoint set (k : string) (v : pyval) (d : dict) : dict :=
  match d with
  | [] => [(k, v)]
  | (k', v') :: d' =>
      if String.eqb k k' then (k, v) :: remove k d' else (k', v') :: set k v d'
  end.

Definition keys (d : dict) : list string := map fst d.

End Dict.

(** ** Exceptions and results *)

(** What [requests] raises: [NotSent] stands for [MissingSchema],
    [InvalidSchema] and [InvalidURL], raised before anything is sent;
    then the transport failures, and [HTTPError] from
    [raise_for_status]. *)
Inductive request_exception : Type :=
| NotSent
| ConnectionError
| Timeout
| HTTPError (status : Z).

Inductive exn : Type :=
| RequestException (e : request_exception)
| RuntimeError (cause : request_exception)   (* raise RuntimeError(...) from e *)
| JSONDecodeError                            (* a ValueError *)
| ValueError (msg : string)
| ValidationError                            (* pydantic; a ValueError *)
| AttributeError
| TypeError
| KeyError
| UnboundLocalError (name : string).         (* a NameError *)

Inductive result (A : Type) : Type :=
| Ok (a : A)
| Raise (e : exn).
Arguments Ok {A} a.
Arguments Raise {A} e.

(** [except (KeyError, TypeError, ValueError)] *)
Definition is_Key_Type_Value_error (e : exn) : bool :=
  match e with
  | KeyError | TypeError | ValueError _ | ValidationError | JSONDecodeError => true
  | _ => false
  end.

(** ** Operations on Python values *)

Module Py.

(** [bool(v)] *)
Definition truthy (v : pyval) : bool :=
  match v with
  | PNone => false
  | PBool b => b
  | PInt z => negb (Z.eqb z 0)
  | PStr s => negb (String.eqb s "")
  | PList l => match l with [] => false | _ => true end
  | PDict d => match d with [] => false | _ => true end
  end.

(** [a or b] *)
Definition or_ (a b : pyval) : pyval := if truthy a then a else b.

(** [repr(v)]; escapes inside quoted strings are not rendered. *)
Fixpoint repr (v : pyval) : string :=
  match v with
  | PNone => "None"
  | PBool true => "True"
  | PBool false => "False"
  | PInt z => PyStr.of_Z z
  | PStr s => "'" ++ s ++ "'"
  | PList l => "[" ++ PyStr.join ", " (map repr l) ++ "]"
  | PDict d =>
      "{" ++ PyStr.join ", "
               (map (fun kv => "'" ++ fst kv ++ "': " ++ repr (snd kv)) d) ++ "}"
  end.

(** [str(v)], the rendering an f-string and [str.format] use. *)
Definition str (v : pyval) : string :=
  match v with
  | PStr s => s
  | _ => repr v
  end.

(** [v.get(k, default)]: only a dict has [get]. *)
Definition get (v : pyval) (k : string) (default : pyval) : result pyval :=
  match v with
  | PDict d => Ok (Dict.get k default d)
  | _ => Raise AttributeError
  end.

(** [for x in v]: the items of a list, the keys of a dict, the
    characters of a string. *)
Definition iter (v : pyval) : result (list pyval) :=
  match v with
  | PList l => Ok l
  | PDict d => Ok (map PStr (Dict.keys d))
  | PStr s => Ok (map PStr (PyStr.chars s))
  | _ => Raise TypeError
  end.

(** [v == s] for a string literal [s]. *)
Definition eq_str (v : pyval) (s : string) : bool :=
  match v with
  | PStr s' => String.eqb s' s
  | _ => false
  end.

(** [k in v] for a string literal [k]. *)
Definition contains (k : string) (v : pyval) : result bool :=
  match v with
  | PDict d => Ok (Dict.mem k d)
  | PStr s => Ok (PyStr.contains k s)
  | PList l => Ok (existsb (fun x => eq_str x k) l)
  | _ => Raise TypeError
  end.

(** [v[k]] for a string literal [k]. *)
Definition getitem (v : pyval) (k : string) : result pyval :=
  match v with
  | PDict d => match Dict.lookup k d with Some x => Ok x | None => Raise KeyError end
  | _ => Raise TypeError
  end.

(** [isinstance(v, dict)] *)
Definition is_dict (v : pyval) : bool :=
  match v with PDict _ => true | _ => false end.

(** [v.strip()]: only a string has [strip]. *)
Definition strip (v : pyval) : result string :=
  match v with
  | PStr s => Ok (PyStr.strip s)
  | _ => Raise AttributeError
  end.

(** [v.startswith(p)] *)
Definition startswith (v : pyval) (p : string) : result bool :=
  match v with
  | PStr s => Ok (PyStr.startswith s p)
  | _ => Raise AttributeError
  end.

(** [range(1, v + 1)]: [v] must be an integer ([bool] is one). *)
Definition range_from_1 (v : pyval) : result (list nat) :=
  match v with
  | PInt z => Ok (seq 1 (Z.to_nat z))
  | PBool b => Ok (seq 1 (if b then 1 else 0))
  | _ => Raise TypeError
  end.

End Py.

(** ** BeautifulSoup documents

    [html.parser] itself is outside the model: a parser is a function
    from markup to the top-level nodes of the tree.  Searching the tree
    and flattening it to text are modelled on the tree. *)

Inductive attr_value : Type :=
| AttrStr (s : string)
| AttrList (l : list string).      (* multi-valued attributes: [class] *)

Inductive node : Type :=
| Text (s : string)
| Tag (name : string) (attrs : list (string * attr_value)) (children : list node).

Module Soup.

(** The tree below a node, in document order. *)
Fixpoint descendants (n : node) : list node :=
  match n with
  | Text _ => []
  | Tag _ _ cs => flat_map (fun c => c :: descendants c) cs
  end.

Fixpoint attr (k : string) (attrs : list (string * attr_value)) : option attr_value :=
  match attrs with
  | [] => None
  | (k', v) :: rest => if String.eqb k k' then Some v else attr k rest
  end.

(** A string matches a multi-valued attribute when it is one of the
    values or the values joined by a space. *)
Definition value_matches (want : string) (v : attr_value) : bool :=
  match v with
  | AttrStr s => String.eqb s want
  | AttrList l => existsb (String.eqb want) l || String.eqb (PyStr.join " " l) want
  end.

(** The arguments of [find] / [find_all] the scrapers use:
    a tag name, [class_=], [id=] and [href=True]. *)
Record locator : Type := {
  loc_name  : option string;
  loc_class : option string;
  loc_id    : option string;
  loc_href  : bool
}.

Definition attr_is (k : string) (want : option string)
           (attrs : list (string * attr_value)) : bool :=
  match want with
  | None => true
  | Some w => match attr k attrs with
              | Some v => value_matches w v
              | None => false
              end
  end.

Definition matches (L : locator) (n : node) : bool :=
  match n with
  | Text _ => false
  | Tag nm attrs _ =>
      match loc_name L with None => true | Some w => String.eqb nm w end
      && attr_is "class" (loc_class L) attrs
      && attr_is "id" (loc_id L) attrs
      && (if loc_href L
          then match attr "href" attrs with Some _ => true | None => false end
          else true)
  end.

Definition find_all (L : locator) (n : node) : list node :=
  filter (matches L) (descendants n).

(** [find] is the first result of [find_all], or [None]. *)
Definition find (L : locator) (n : node) : option node :=
  hd_error (find_all L n).

Definition strings (n : node) : list string :=
  flat_map (fun d => match d with Text s => [s] | Tag _ _ _ => [] end)
           (descendants n).

(** [n.get_text(separator=sep, strip=True)] *)
Definition get_text (sep : string) (n : node) : string :=
  PyStr.join sep
    (filter (fun s => negb (String.eqb s "")) (map PyStr.strip (strings n))).

(** [a['href']] *)
Definition href (n : node) : result pyval :=
  match n with
  | Tag _ attrs _ =>
      match attr "href" attrs with
      | Some (AttrStr s) => Ok (PStr s)
      | Some (AttrList l) => Ok (PList (map PStr l))
      | None => Raise KeyError
      end
  | Text _ => Raise TypeError
  end.

End Soup.

(** ** The world: HTTP and the log *)

Inductive http_method : Type := GET | POST.

Record request : Type := {
  method  : http_method;
  url     : string;
  headers : list (string * string);
  payload : option pyval            (* [json=] of a POST *)
}.

(** [ET.fromstring(response.content)] and the texts of the [<loc>]
    elements found in the tree (an element without text gives
    [PNone]), or the text of the [ET.ParseError]. *)
Inductive xml_view : Type :=
| Locs (texts : list pyval)
| ParseError (msg : string).

(** A response, with the views the code takes of its body:
    [response.text], [response.json()] ([None]: not JSON) and, for a
    sitemap, [xml_locs]. *)
Record response : Type := {
  status_code : Z;
  text        : string;
  json        : option pyval;
  xml_locs    : xml_view
}.

Inductive outcome : Type :=
| Failed (e : request_exception)
| Replied (r : response).

Inductive log_level : Type := ERROR | WARNING.

Record log_entry : Type := {
  level   : log_level;
  message : string                  (* without the text of the exception *)
}.

Record world : Type := {
  sent   : list request;            (* oldest first; see [send] *)
  logged : list log_entry           (* oldest first *)
}.

Definition empty_world : world := {| sent := []; logged := [] |}.

(** What lies outside the program: the servers (a reply may depend on
    the requests seen so far), [html.parser], pydantic's [HttpUrl]
    (whether it accepts a string, and the URL it stores for one it
    accepts, as [str] renders it: the type normalises what it is given)
    and [date.today()]. *)
Record externals : Type := {
  server       : list request -> request -> outcome;
  html_parser  : string -> list node;
  http_url_ok  : string -> bool;
  http_url_str : string -> string;
  today        : string
}.

(** ** State and exceptions *)

Definition M (A : Type) : Type := world -> result A * world.

Definition ret {A} (a : A) : M A := fun w => (Ok a, w).

Definition raise {A} (e : exn) : M A := fun w => (Raise e, w).

Definition bind {A B} (m : M A) (k : A -> M B) : M B :=
  fun w => match m w with
           | (Ok a, w') => k a w'
           | (Raise e, w') => (Raise e, w')
           end.

(** [try: m  except ... as e: handler e] *)
Definition try_except {A} (m : M A) (handler : exn -> M A) : M A :=
  fun w => match m w with
           | (Ok a, w') => (Ok a, w')
           | (Raise e, w') => handler e w'
           end.

Definition lift {A} (r : result A) : M A := fun w => (r, w).

Definition log (lvl : log_level) (msg : string) : M unit :=
  fun w => (Ok tt, {| sent := sent w;
                      logged := logged w ++ [{| level := lvl; message := msg |}] |}).

Declare Scope py_scope.
Delimit Scope py_scope with py.
Notation "x <- m ;; k" := (bind m (fun x => k))
  (at level 61, m at next level, right associativity) : py_scope.
Notation "m ;; k" := (bind m (fun _ => k))
  (at level 61, right associativity) : py_scope.
Local Open Scope py_scope.

(** [for x in xs: acc = body x acc] *)
Fixpoint for_each {A S} (xs : list A) (body : A -> S -> M S) (acc : S) : M S :=
  match xs with
  | [] => ret acc
  | x :: rest => acc' <- body x acc ;; for_each rest body acc'
  end.

(** ** utilities/classes.py *)

Record BankPromo : Type := {
  scrape_id     : string;
  bank_name     : string;
  promo_url     : string;
  promo_content : string;
  scrape_date   : string
}.

(** Exceptions in pure code. *)
Definition rbind {A B} (r : result A) (k : A -> result B) : result B :=
  match r with
  | Ok a => k a
  | Raise e => Raise e
  end.

Notation "x <~ r ;; k" := (rbind r (fun x => k))
  (at level 61, r at next level, right associativity) : py_scope.

(** [[g x for x in xs if ...]]: [f x] is [Some (g x)] for an element
    that is kept and [None] for one that is filtered out. *)
Fixpoint comprehension {A B} (f : A -> result (option B)) (xs : list A)
  : result (list B) :=
  match xs with
  | [] => Ok []
  | x :: rest =>
      o <~ f x ;;
      ys <~ comprehension f rest ;;
      Ok (match o with Some y => y :: ys | None => ys end)
  end.

Section Program.

Variable X : externals.

(** The pydantic constructor [BankPromo(...)]: [promo_content] must be
    a string and [promo_url] a string that [HttpUrl] accepts; the
    record holds the URL as [HttpUrl] stores it. *)
Definition BankPromo_init (scrape_id bank_name : string)
           (promo_url promo_content : pyval) (scrape_date : string)
  : result BankPromo :=
  match promo_url, promo_content with
  | PStr u, PStr c =>
      if http_url_ok X u
      then Ok {| scrape_id := scrape_id; bank_name := bank_name;
                 promo_url := http_url_str X u; promo_content := c;
                 scrape_date := scrape_date |}
      else Raise ValidationError
  | _, _ => Raise ValidationError
  end.

(** *** The [requests] calls *)

(** A request leaves the machine only for a URL that [requests] takes:
    leading white space apart, it begins with [http://] or [https://],
    letter case apart, and names a host.  For any other URL, a relative
    one for instance, [requests] raises [MissingSchema], [InvalidSchema]
    or [InvalidURL] before anything is sent.  A URL that passes this
    test and that [requests] still cannot prepare (a malformed port,
    say) is covered by the outcome [Failed]: the caller sees a
    [RequestException] either way. *)
Definition names_host (rest : string) : bool :=
  match rest with
  | EmptyString => false
  | String c _ => negb (Ascii.eqb c "/"%char || Ascii.eqb c "?"%char || Ascii.eqb c "#"%char)
  end.

Definition sendable (u : string) : bool :=
  match PyStr.after_nocase "http://" (PyStr.lstrip u) with
  | Some rest => names_host rest
  | None =>
      match PyStr.after_nocase "https://" (PyStr.lstrip u) with
      | Some rest => names_host rest
      | None => false
      end
  end.

Definition send (r : request) : M response :=
  fun w =>
    if sendable (url r)
    then
      let w' := {| sent := sent w ++ [r]; logged := logged w |} in
      match server X (sent w) r with
      | Failed e => (Raise (RequestException e), w')
      | Replied resp => (Ok resp, w')
      end
    else (Raise (RequestException NotSent), w).

Definition requests_get (u : string) (hdrs : list (string * string)) : M response :=
  send {| method := GET; url := u; headers := hdrs; payload := None |}.

Definition requests_post (u : string) (hdrs : list (string * string))
           (body : pyval) : M response :=
  send {| method := POST; url := u; headers := hdrs; payload := Some body |}.

(** [response.raise_for_status()]: an [HTTPError] for 4xx and 5xx. *)
Definition raise_for_status (r : response) : M unit :=
  if (400 <=? status_code r)%Z && (status_code r <? 600)%Z
  then raise (RequestException (HTTPError (status_code r)))
  else ret tt.

(** [BeautifulSoup(markup, "html.parser")] *)
Definition BeautifulSoup (markup : pyval) : result node :=
  match markup with
  | PStr s => Ok (Tag "[document]" [] (html_parser X s))
  | _ => Raise TypeError
  end.

(** *** utilities/core_utils.py *)

Definition browser_headers : list (string * string) :=
  [("User-Agent",
    "Mozilla/5.0 (Windows NT 10.0; Win64; x64) AppleWebKit/537.36 (KHTML, like Gecko) Chrome/114.0.0.0 Safari/537.36")].

Definition get_sitemap_urls (sitemap_url unique_id : string) : M (list pyval) :=
  response <-
    try_except
      (response <- requests_get sitemap_url browser_headers ;;
       raise_for_status response ;;
       ret response)
      (fun e =>
         match e with
         | RequestException re =>
             log ERROR ("Request ID " ++ unique_id ++ ": HTTP request failed") ;;
             raise (RuntimeError re)
         | _ => raise e
         end) ;;
  match xml_locs response with
  | Locs urls => ret urls
  | ParseError e =>
      log ERROR ("Request ID " ++ unique_id ++ ": Failed to parse XML") ;;
      raise (ValueError ("XML parsing failed: " ++ e))
  end.

Definition get_html_content (u unique_id : string) : M pyval :=
  try_except
    (response <- requests_get u browser_headers ;;
     raise_for_status response ;;
     ret (PStr (text response)))
    (fun e =>
       match e with
       | RequestException _ =>
           log ERROR ("Request ID " ++ unique_id ++ ": Failed to fetch HTML") ;;
           ret PNone
       | _ => raise e
       end).

Definition html_to_text (html : pyval) : result string :=
  soup <~ BeautifulSoup (Py.or_ html (PStr "")) ;;
  Ok (Soup.get_text PyStr.nl soup).

(** *** scraper_bdo.py *)

Definition fetch_json_post (u : string) (hdrs : list (string * string))
           (body : pyval) (unique_id : string) : M pyval :=
  response <-
    try_except
      (response <- requests_post u hdrs body ;;
       raise_for_status response ;;
       ret response)
      (fun e =>
         match e with
         | RequestException re =>
             log ERROR ("Request ID " ++ unique_id ++ ": HTTP request failed") ;;
             raise (RuntimeError re)
         | _ => raise e
         end) ;;
  match json response with
  | Some data => ret data
  | None =>
      log ERROR ("Request ID " ++ unique_id ++ ": Failed to decode JSON from response") ;;
      raise (ValueError "Response content is not valid JSON")
  end.

Definition fetch_json_get (u : string) (hdrs : list (string * string))
           (unique_id : string) : M pyval :=
  response <-
    try_except
      (response <- requests_get u hdrs ;;
       raise_for_status response ;;
       ret response)
      (fun e =>
         match e with
         | RequestException re =>
             log ERROR ("Request ID " ++ unique_id ++ ": HTTP request failed") ;;
             raise (RuntimeError re)
         | _ => raise e
         end) ;;
  match json response with
  | Some data => ret data
  | None =>
      log ERROR ("Request ID " ++ unique_id ++ ": Failed to decode JSON from response") ;;
      raise (ValueError "Response content is not valid JSON")
  end.

Definition user_agent : string :=
  "Mozilla/5.0 (Macintosh; Intel Mac OS X 10_15_7) AppleWebKit/537.36 (KHTML, like Gecko) Chrome/136.0.0.0 Safari/537.36".

Definition token_url : string := "https://www.deals.bdo.com.ph/v4/oauth/token".

Definition token_headers : list (string * string) :=
  [("Accept", "application/json, text/plain, */*");
   ("Content-Type", "application/json");
   ("Origin", "https://www.deals.bdo.com.ph");
   ("Referer", "https://www.deals.bdo.com.ph");
   ("User-Agent", user_agent)].

Definition token_payload : pyval :=
  PDict [("url", PStr "www.deals.bdo.com.ph");
         ("identifier", PStr "ac5d0ec8cf6a28ae2b72411d5c95307f")].

(** The headers built around the value found under ['bearer_token']. *)
Definition bearer_headers (token : pyval) : list (string * string) :=
  [("Accept", "application/json, text/plain, */*");
   ("Content-Type", "application/json");
   ("Authorization", "Bearer " ++ Py.str token);
   ("Origin", "https://www.deals.bdo.com.ph");
   ("Referer", "https://www.deals.bdo.com.ph");
   ("User-Agent", user_agent)].

Definition get_bdo_bearer_header (unique_id : string) : M (list (string * string)) :=
  bearer_token <- fetch_json_post token_url token_headers token_payload unique_id ;;
  token <- lift (Py.get bearer_token "bearer_token" PNone) ;;
  ret (bearer_headers token).

Definition categories_url : string := "https://api.perxtech.net/v4/categories".

Definition get_bdo_promo_categories (unique_id : string)
           (hdrs : list (string * string)) : M pyval :=
  data <- fetch_json_get categories_url hdrs unique_id ;;
  ids <- lift (listed <~ Py.get data "data" (PList []) ;;
               items <~ Py.iter listed ;;
               comprehension
                 (fun item =>
                    has_id <~ Py.contains "id" item ;;
                    if has_id : bool
                    then (v <~ Py.getitem item "id" ;; Ok (Some v))
                    else Ok None)
                 items) ;;
  match ids with
  | [] =>
      log ERROR ("Request ID " ++ unique_id ++ ": IDs not found in response JSON: []") ;;
      raise (ValueError "IDs not found in response JSON: []")
  | _ => ret (PDict [("uuid", PStr unique_id); ("categories", PList ids)])
  end.

Definition page_size : nat := 50.

(** [url_template.format(page, page_size, category_id)] *)
Definition items_url (page : nat) (category_id : pyval) : string :=
  "https://api.perxtech.net/v4/catalogs/1/items?page=" ++ PyStr.of_nat page
    ++ "&size=" ++ PyStr.of_nat page_size
    ++ "&category_ids=" ++ Py.str category_id.

(** [data.get("meta", {}).get("total_pages", 0)] *)
Definition total_pages (data : pyval) : result pyval :=
  meta <~ Py.get data "meta" (PDict []) ;;
  Py.get meta "total_pages" (PInt 0).

(** The [(item_type, item_id)] pairs of one page, both fields truthy. *)
Definition page_items (data : pyval) : result (list (pyval * pyval)) :=
  listed <~ Py.get data "data" (PList []) ;;
  items <~ Py.iter listed ;;
  comprehension
    (fun item =>
       ty <~ Py.get item "item_type" PNone ;;
       if Py.truthy ty
       then (id <~ Py.get item "item_id" PNone ;;
             if Py.truthy id then Ok (Some (ty, id)) else Ok None)
       else Ok None)
    items.

(** One turn of the page loop. *)
Definition fetch_items_page (unique_id : string) (hdrs : list (string * string))
           (category_id : pyval) (page_num : nat)
           (all_items : list (pyval * pyval)) : M (list (pyval * pyval)) :=
  data <- fetch_json_get (items_url page_num category_id) hdrs unique_id ;;
  items <- lift (page_items data) ;;
  ret (all_items ++ items)%list.

(** One turn of the category loop: the first request learns the number
    of pages, then every page is requested. *)
Definition fetch_category_items (unique_id : string) (hdrs : list (string * string))
           (category_id : pyval) (all_items : list (pyval * pyval))
  : M (list (pyval * pyval)) :=
  data <- fetch_json_get (items_url 1 category_id) hdrs unique_id ;;
  match total_pages data with
  | Raise e =>
      if is_Key_Type_Value_error e
      then log ERROR ("Request ID " ++ unique_id ++ ": Failed to extract total_pages") ;;
           ret all_items                                     (* continue *)
      else raise e
  | Ok pages =>
      page_nums <- lift (Py.range_from_1 pages) ;;
      for_each page_nums (fetch_items_page unique_id hdrs category_id) all_items
  end.

Definition get_bdo_promo_items (unique_id : string) (hdrs : list (string * string))
  : M (list (pyval * pyval) * list (pyval * pyval)) :=
  categories <- get_bdo_promo_categories unique_id hdrs ;;
  category_ids <- lift (cs <~ Py.get categories "categories" PNone ;; Py.iter cs) ;;
  all_items <- for_each category_ids (fetch_category_items unique_id hdrs) [] ;;
  let campaign_list := filter (fun item => Py.eq_str (fst item) "Campaign") all_items in
  let reward_list := filter (fun item => Py.eq_str (fst item) "Reward::Campaign") all_items in
  ret (campaign_list, reward_list).

Definition campaign_url (campaign_id : pyval) : string :=
  "https://api.perxtech.net/v4/campaigns/" ++ Py.str campaign_id.

(** [json_data.get("display_properties", {}).get(page, {}).get(field, default)] *)
Definition display_field (json_data : pyval) (page field : string)
           (default : pyval) : result pyval :=
  props <~ Py.get json_data "display_properties" (PDict []) ;;
  section <~ Py.get props page (PDict []) ;;
  Py.get section field default.

(** The [output] dict built from one campaign response. *)
Definition campaign_output (campaign_id data : pyval) : result dict :=
  json_data <~ Py.get data "data" (PDict []) ;;
  id <~ Py.get json_data "id" PNone ;;
  name <~ Py.get json_data "name" PNone ;;
  headline <~ display_field json_data "landing_page" "headline" PNone ;;
  sub_headline <~ display_field json_data "landing_page" "sub_headline" PNone ;;
  body_text <~ display_field json_data "landing_page" "body_text" PNone ;;
  enrolment <~ display_field json_data "enrolment_page" "body_text" PNone ;;
  sections <~ display_field json_data "landing_page" "additional_sections" (PList []) ;;
  Ok [("id", id);
      ("name", name);
      ("headline", headline);
      ("sub_headline", sub_headline);
      ("body_text", body_text);
      ("enrolment_page_body_text", enrolment);
      ("additional_sections", sections);
      ("link", PStr ("https://www.deals.bdo.com.ph/treat-welcome/" ++ Py.str campaign_id))].

(** One turn of the loop of [get_bdo_campaign_details]. *)
Definition fetch_campaign (unique_id : string) (hdrs : list (string * string))
           (item : pyval * pyval) (data_set : list dict) : M (list dict) :=
  let campaign_id := snd item in
  fetched <-
    try_except
      (data <- fetch_json_get (campaign_url campaign_id) hdrs unique_id ;;
       ret (Some data))
      (fun _ =>
         log ERROR ("Request ID " ++ unique_id ++ ": Failed to fetch campaign "
                      ++ Py.str campaign_id ++ " details") ;;
         ret None) ;;
  match fetched with
  | None => ret data_set                                     (* continue *)
  | Some data =>
      output <- lift (campaign_output campaign_id data) ;;
      ret (data_set ++ [output])%list
  end.

Definition get_bdo_campaign_details (unique_id : string)
           (hdrs : list (string * string)) (campaign_list : list (pyval * pyval))
  : M (list dict) :=
  for_each campaign_list (fetch_campaign unique_id hdrs) [].

Definition reward_url (reward_id : pyval) : string :=
  "https://api.perxtech.net/v4/rewards/" ++ Py.str reward_id.

Definition accordion_title_key (idx : nat) : string :=
  "accordion_" ++ PyStr.of_nat idx ++ "_title".

Definition accordion_body_key (idx : nat) : string :=
  "accordion_" ++ PyStr.of_nat idx ++ "_body".

(** The body of the accordion loop: the two keys of index [idx] are
    set from the accordion, or to [""] when the accordion has no
    [get]. *)
Definition flatten_accordion (idx : nat) (accordion : pyval) (res : dict)
  : result dict :=
  match (title <~ Py.get accordion "title" (PStr "") ;;
         body <~ Py.get accordion "body" (PStr "") ;;
         Ok (Dict.set (accordion_body_key idx) body
               (Dict.set (accordion_title_key idx) title res)))
  with
  | Ok res' => Ok res'
  | Raise AttributeError =>
      Ok (Dict.set (accordion_body_key idx) (PStr "")
            (Dict.set (accordion_title_key idx) (PStr "") res))
  | Raise e => Raise e
  end.

(** [for idx, accordion in enumerate(accordions, start=idx)] *)
Fixpoint flatten_accordions (idx : nat) (accordions : list pyval) (res : dict)
  : result dict :=
  match accordions with
  | [] => Ok res
  | accordion :: rest =>
      res' <~ flatten_accordion idx accordion res ;;
      flatten_accordions (S idx) rest res'
  end.

(** The [result] dict built from one reward response. *)
Definition reward_output (data : pyval) : result dict :=
  json_data <~ Py.get data "data" (PDict []) ;;
  id <~ Py.get json_data "id" PNone ;;
  name <~ Py.get json_data "name" PNone ;;
  description <~ Py.get json_data "description" PNone ;;
  listed <~ Py.get (Py.or_ json_data (PDict [])) "accordions" PNone ;;
  accordions <~ Py.iter (Py.or_ listed (PList [])) ;;
  flatten_accordions 1 accordions
    [("id", id); ("name", name); ("description", description)].

(** One turn of the loop of [get_bdo_reward_details]. *)
Definition fetch_reward (unique_id : string) (hdrs : list (string * string))
           (item : pyval * pyval) (data_set : list dict) : M (list dict) :=
  let reward_id := snd item in
  fetched <-
    try_except
      (data <- fetch_json_get (reward_url reward_id) hdrs unique_id ;;
       ret (Some data))
      (fun _ =>
         log ERROR ("Request ID " ++ unique_id ++ ": Failed to fetch reward "
                      ++ Py.str reward_id ++ " details") ;;
         ret None) ;;
  match fetched with
  | None => ret data_set                                     (* continue *)
  | Some data =>
      output <- lift (reward_output data) ;;
      ret (data_set ++ [output])%list
  end.

Definition get_bdo_reward_details (unique_id : string)
           (hdrs : list (string * string)) (reward_list : list (pyval * pyval))
  : M (list dict) :=
  for_each reward_list (fetch_reward unique_id hdrs) [].

(** [[part for part in fields if part.strip()]] *)
Definition nonblank_parts (fields : list pyval) : result (list pyval) :=
  comprehension
    (fun part =>
       stripped <~ Py.strip part ;;
       if String.eqb stripped "" then Ok None else Ok (Some part))
    fields.

(** [sep.join(parts)]: every part must be a string. *)
Fixpoint py_join_parts (parts : list pyval) : result (list string) :=
  match parts with
  | [] => Ok []
  | PStr s :: rest => ss <~ py_join_parts rest ;; Ok (s :: ss)
  | _ :: _ => Raise TypeError
  end.

Definition py_join (sep : string) (parts : list pyval) : result string :=
  ss <~ py_join_parts parts ;; Ok (PyStr.join sep ss).

Definition rewards_page (id : pyval) : string :=
  "https://www.deals.bdo.com.ph/rewards/" ++ Py.str id.

(** The text fields of a campaign record, in the order of the source. *)
Definition campaign_fields (entry : dict) : result (list pyval) :=
  body <~ html_to_text (Dict.get "body_text" (PStr "") entry) ;;
  enrolment <~ html_to_text (Dict.get "enrolment_page_body_text" (PStr "") entry) ;;
  sections <~ Py.iter (Dict.get "additional_sections" (PList []) entry) ;;
  extra <~ comprehension
             (fun sec =>
                if Py.is_dict sec
                then (markup <~ Py.get sec "body_text" (PStr "") ;;
                      txt <~ html_to_text markup ;;
                      Ok (Some (PStr txt)))
                else Ok None)
             sections ;;
  Ok ([Dict.get "name" (PStr "") entry;
       Dict.get "headline" (PStr "") entry;
       Dict.get "sub_headline" (PStr "") entry;
       PStr body;
       PStr enrolment] ++ extra)%list.

(** The body of the loop of [parse_bdo_campaign_output]. *)
Definition parse_bdo_campaign_entry (unique_id : string) (entry : dict)
  : result BankPromo :=
  fields <~ campaign_fields entry ;;
  parts <~ nonblank_parts fields ;;
  content <~ py_join PyStr.blank_line parts ;;
  BankPromo_init unique_id "bdo"
    (PStr (rewards_page (Dict.get "id" PNone entry)))
    (PStr content) (today X).

Definition parse_bdo_campaign_output (raw_data : list dict) (unique_id : string)
  : result (list BankPromo) :=
  comprehension
    (fun entry => promo <~ parse_bdo_campaign_entry unique_id entry ;; Ok (Some promo))
    raw_data.

(** [while f"accordion_{idx}_body" in entry: ...].  [None] is a loop
    still running when the fuel is spent. *)
Fixpoint read_accordions (fuel : nat) (entry : dict) (idx : nat)
         (fields : list pyval) : option (result (list pyval)) :=
  match fuel with
  | O => None
  | S fuel' =>
      if Dict.mem (accordion_body_key idx) entry
      then
        let title := Dict.get (accordion_title_key idx) (PStr "") entry in
        match html_to_text (Dict.get (accordion_body_key idx) (PStr "") entry) with
        | Raise e => Some (Raise e)
        | Ok body =>
            let fields' :=
              if Py.truthy title || Py.truthy (PStr body)
              then (fields ++ [PStr (PyStr.strip (Py.str title ++ PyStr.nl ++ body))])%list
              else fields in
            read_accordions fuel' entry (S idx) fields'
        end
      else Some (Ok fields)
  end.

(** Every turn of the loop finds one more key of [entry], so one more
    turn than [entry] has keys is enough ([read_accordions_fuel]). *)
Definition accordion_fields (entry : dict) (fields : list pyval)
  : result (list pyval) :=
  match read_accordions (S (List.length entry)) entry 1 fields with
  | Some r => r
  | None => Ok fields
  end.

(** The text fields of a reward record, in the order of the source. *)
Definition reward_fields (entry : dict) : result (list pyval) :=
  description <~ html_to_text (Dict.get "description" (PStr "") entry) ;;
  accordion_fields entry [Dict.get "name" (PStr "") entry; PStr description].

(** The body of the loop of [parse_bdo_reward_output]. *)
Definition parse_bdo_reward_entry (unique_id : string) (entry : dict)
  : result BankPromo :=
  fields <~ reward_fields entry ;;
  parts <~ nonblank_parts fields ;;
  content <~ py_join PyStr.blank_line parts ;;
  BankPromo_init unique_id "bdo"
    (PStr (rewards_page (Dict.get "id" PNone entry)))
    (PStr content) (today X).

Definition parse_bdo_reward_output (raw_data : list dict) (unique_id : string)
  : result (list BankPromo) :=
  comprehension
    (fun entry => promo <~ parse_bdo_reward_entry unique_id entry ;; Ok (Some promo))
    raw_data.

(** [scrape_id] is the value of [str(uuid.uuid4())]. *)
Definition scrape_bdo (scrape_id : string) : M (list BankPromo) :=
  bearer_token <- get_bdo_bearer_header scrape_id ;;
  items <- get_bdo_promo_items scrape_id bearer_token ;;
  let (campaigns, rewards) := items in
  campaign_data <- get_bdo_campaign_details scrape_id bearer_token campaigns ;;
  reward_data <- get_bdo_reward_details scrape_id bearer_token rewards ;;
  campaign_promos <- lift (parse_bdo_campaign_output campaign_data scrape_id) ;;
  reward_promos <- lift (parse_bdo_reward_output reward_data scrape_id) ;;
  ret (campaign_promos ++ reward_promos)%list.

(** *** scraper_bpi.py *)

(** [tag.get_text(...)] on the result of [find]: [None] has no
    [get_text]. *)
Definition found_text (found : option node) : result pyval :=
  match found with
  | Some tag => Ok (PStr (Soup.get_text PyStr.nl tag))
  | None => Raise AttributeError
  end.

Definition bpi_main : Soup.locator :=
  {| Soup.loc_name := Some "main";
     Soup.loc_class :=
       Some "container responsivegrid aem-GridColumn aem-GridColumn--default--12";
     Soup.loc_id := None;
     Soup.loc_href := false |}.

Definition get_bpi_content (html_str : pyval) (unique_id : string) : M pyval :=
  try_except
    (lift (soup <~ BeautifulSoup html_str ;;
           found_text (Soup.find bpi_main soup)))
    (fun _ =>
       log ERROR ("Request ID " ++ unique_id ++ ": Error extracting text") ;;
       ret (PList [])).

(** [[url for url in urls if url.startswith(prefix)]] *)
Definition urls_with_prefix (prefix : string) (urls : list pyval)
  : result (list pyval) :=
  comprehension
    (fun u => keep <~ Py.startswith u prefix ;;
              if keep : bool then Ok (Some u) else Ok None)
    urls.

Definition bpi_prefix : string :=
  "https://www.bpi.com.ph/personal/rewards-and-promotions/".

(** The [try] block of the loop of [scrape_bpi]: on success [promo] is
    bound and appended. *)
Definition bpi_try (scrape_id : string) (u : pyval)
           (promos : list BankPromo) : M (list BankPromo * option BankPromo) :=
  html_content <- get_html_content (Py.str u) scrape_id ;;
  html_txt <- get_bpi_content html_content scrape_id ;;
  promo <- lift (BankPromo_init scrape_id "bpi" u html_txt (today X)) ;;
  ret ((promos ++ [promo])%list, Some promo).

(** One turn of the loop.  The local variable [promo] is [None] while
    it is unbound; the append after the [try] statement reads it. *)
Definition bpi_turn (scrape_id : string) (u : pyval)
           (vars : list BankPromo * option BankPromo)
  : M (list BankPromo * option BankPromo) :=
  let (promos, promo) := vars in
  vars' <-
    try_except
      (bpi_try scrape_id u promos)
      (fun _ =>
         log WARNING ("[BPI] Failed to scrape " ++ Py.str u) ;;
         ret (promos, promo)) ;;
  let (promos', promo') := vars' in
  match promo' with
  | Some p => ret ((promos' ++ [p])%list, promo')
  | None => raise (UnboundLocalError "promo")
  end.

Definition scrape_bpi (scrape_id : string) : M (list BankPromo) :=
  urls <- get_sitemap_urls "https://www.bpi.com.ph/sitemap.xml" scrape_id ;;
  promo_urls <- lift (urls_with_prefix bpi_prefix urls) ;;
  vars <- for_each promo_urls (bpi_turn scrape_id) ([], None) ;;
  ret (fst vars).

(** *** scraper_ew.py *)

Definition ew_main : Soup.locator :=
  {| Soup.loc_name := None;
     Soup.loc_class :=
       Some "block block-system block-system-main-block block--ewb-theme-content block--system-main";
     Soup.loc_id := None;
     Soup.loc_href := false |}.

Definition get_ew_content (html_str : pyval) (unique_id : string) : M pyval :=
  try_except
    (lift (soup <~ BeautifulSoup html_str ;;
           found_text (Soup.find ew_main soup)))
    (fun _ =>
       log ERROR ("Request ID " ++ unique_id ++ ": Error extracting text") ;;
       ret (PList [])).

Definition ew_prefix : string := "https://www.eastwestbanker.com/promos/".

(** One turn of the loop of [scrape_ew]. *)
Definition ew_turn (scrape_id : string) (u : pyval) (promos : list BankPromo)
  : M (list BankPromo) :=
  try_except
    (html_content <- get_html_content (Py.str u) scrape_id ;;
     html_txt <- get_ew_content html_content scrape_id ;;
     promo <- lift (BankPromo_init scrape_id "eastwest" u html_txt (today X)) ;;
     ret (promos ++ [promo])%list)
    (fun _ =>
       log WARNING ("[EastWest] Failed to scrape " ++ Py.str u) ;;
       ret promos).

Definition scrape_ew (scrape_id : string) : M (list BankPromo) :=
  urls <- get_sitemap_urls "https://www.eastwestbanker.com/sitemap.xml" scrape_id ;;
  filtered <- lift (urls_with_prefix ew_prefix urls) ;;
  let promo_urls := firstn 3 filtered in
  for_each promo_urls (ew_turn scrape_id) [].

(** *** scraper_chinabank.py *)

Definition gallery_list : Soup.locator :=
  {| Soup.loc_name := Some "div"; Soup.loc_class := None;
     Soup.loc_id := Some "gallery-list"; Soup.loc_href := false |}.

Definition anchors_with_href : Soup.locator :=
  {| Soup.loc_name := Some "a"; Soup.loc_class := None;
     Soup.loc_id := None; Soup.loc_href := true |}.

Definition article_detail : Soup.locator :=
  {| Soup.loc_name := Some "div"; Soup.loc_class := None;
     Soup.loc_id := Some "article-detail"; Soup.loc_href := false |}.

Definition extract_cbank_href (html_str : pyval) (unique_id : string)
  : M (list pyval) :=
  try_except
    (lift (soup <~ BeautifulSoup html_str ;;
           match Soup.find gallery_list soup with
           | None => Raise AttributeError
           | Some results =>
               comprehension (fun a => h <~ Soup.href a ;; Ok (Some h))
                             (Soup.find_all anchors_with_href results)
           end))
    (fun _ =>
       log ERROR ("Request ID " ++ unique_id ++ ": Error extracting hrefs from link") ;;
       ret []).

Definition extract_cbank_content (html_str : pyval) (unique_id : string) : M pyval :=
  try_except
    (lift (soup <~ BeautifulSoup html_str ;;
           found_text (Soup.find article_detail soup)))
    (fun _ =>
       log ERROR ("Request ID " ++ unique_id ++ ": Error extracting hrefs from link") ;;
       ret (PList [])).

Definition chinabank_promo_urls : list string :=
  ["https://www.chinabank.ph/credit-card-promos-more";
   "https://www.chinabank.ph/credit-card-promos-beauty-wellness";
   "https://www.chinabank.ph/credit-cards-promos-travel";
   "https://www.chinabank.ph/credit-cards-promos-stay";
   "https://www.chinabank.ph/credit-cards-promos-installment";
   "https://www.chinabank.ph/credit-cards-promos-ecom";
   "https://www.chinabank.ph/credit-cards-promos-shop";
   "https://www.chinabank.ph/credit-cards-promos-dine";
   "https://www.chinabank.ph/credit-cards-promos-premium";
   "https://www.chinabank.ph/credit-cards-promos-member-get-member"].

(** One turn of the inner loop, over the links of a category. *)
Definition chinabank_link (scrape_id : string) (promo_link : pyval)
           (promos : list BankPromo) : M (list BankPromo) :=
  try_except
    (promo_html <- get_html_content (Py.str promo_link) scrape_id ;;
     promo_txt <- extract_cbank_content promo_html scrape_id ;;
     promo <- lift (BankPromo_init scrape_id "chinabank" promo_link promo_txt (today X)) ;;
     ret (promos ++ [promo])%list)
    (fun _ =>
       log WARNING ("[ChinaBank] Failed to extract promo content from "
                      ++ Py.str promo_link) ;;
       ret promos).

(** One turn of the outer loop.  The handler keeps the list as it was
    when the turn began; the inner loop does not raise
    ([chinabank_link_returns]), so nothing appended is ever lost. *)
Definition chinabank_category (scrape_id : string) (category_url : string)
           (promos : list BankPromo) : M (list BankPromo) :=
  try_except
    (promo_url_content <- get_html_content category_url scrape_id ;;
     promo_hrefs <- extract_cbank_href promo_url_content scrape_id ;;
     for_each promo_hrefs (chinabank_link scrape_id) promos)
    (fun _ =>
       log WARNING ("[ChinaBank] Failed to load category page " ++ category_url) ;;
       ret promos).

Definition scrape_chinabank (scrape_id : string) : M (list BankPromo) :=
  for_each chinabank_promo_urls (chinabank_category scrape_id) [].

End Program.

(** ** Reading the world *)

(** The world after one more request, and after one more log line. *)
Definition with_request (w : world) (r : request) : world :=
  {| sent := sent w ++ [r]; logged := logged w |}.

Definition with_log (w : world) (lvl : log_level) (msg : string) : world :=
  {| sent := sent w; logged := logged w ++ [{| level := lvl; message := msg |}] |}.

Definition get_request (u : string) (hdrs : list (string * string)) : request :=
  {| method := GET; url := u; headers := hdrs; payload := None |}.

Definition post_request (u : string) (hdrs : list (string * string))
           (body : pyval) : request :=
  {| method := POST; url := u; headers := hdrs; payload := Some body |}.

(** The request exception the [try] block of a fetch primitive sees, if
    any: a transport failure, or the [HTTPError] of [raise_for_status]. *)
Definition transport_failure (o : outcome) : option request_exception :=
  match o with
  | Failed e => Some e
  | Replied resp =>
      if (400 <=? status_code resp)%Z && (status_code resp <? 600)%Z
      then Some (HTTPError (status_code resp))
      else None
  end.

(** The JSON value a fetch yields: the reply arrived, its status is not
    4xx or 5xx, and its body is JSON. *)
Definition fetched_json (o : outcome) : option pyval :=
  match o with
  | Failed _ => None
  | Replied resp =>
      if (400 <=? status_code resp)%Z && (status_code resp <? 600)%Z
      then None
      else json resp
  end.

(** The three text extractors and the element each one looks for. *)
Inductive extractor : Type := BpiContent | EwContent | CbankContent.

Definition extractor_locator (ex : extractor) : Soup.locator :=
  match ex with
  | BpiContent => bpi_main
  | EwContent => ew_main
  | CbankContent => article_detail
  end.

Definition extract (X : externals) (ex : extractor) : pyval -> string -> M pyval :=
  match ex with
  | BpiContent => get_bpi_content X
  | EwContent => get_ew_content X
  | CbankContent => extract_cbank_content X
  end.

(** The [<loc>] texts a sitemap fetch yields. *)
Definition sitemap_locs (o : outcome) : option (list pyval) :=
  match transport_failure o, o with
  | None, Replied resp =>
      match xml_locs resp with
      | Locs texts => Some texts
      | ParseError _ => None
      end
  | _, _ => None
  end.

(** The text found on a page: the page arrives with a status that is
    not 4xx or 5xx and the parsed document holds the located element. *)
Definition page_text (X : externals) (L : Soup.locator) (o : outcome)
  : option string :=
  match o with
  | Failed _ => None
  | Replied resp =>
      if (400 <=? status_code resp)%Z && (status_code resp <? 600)%Z
      then None
      else match Soup.find L (Tag "[document]" [] (html_parser X (text resp))) with
           | Some tag => Some (Soup.get_text PyStr.nl tag)
           | None => None
           end
  end.

(** The text of the [ET.ParseError] for a reply that is not XML. *)
Definition parse_error (o : outcome) : string :=
  match o with
  | Replied {| xml_locs := ParseError msg |} => msg
  | _ => ""
  end.

Definition ew_sitemap : string := "https://www.eastwestbanker.com/sitemap.xml".

(** The record of the EastWest page [u] with the text [txt]: its URL is
    [u] as [HttpUrl] stores it. *)
Definition ew_record (X : externals) (id u txt : string) : BankPromo :=
  {| scrape_id := id; bank_name := "eastwest"; promo_url := http_url_str X u;
     promo_content := txt; scrape_date := today X |}.


Definition bpi_sitemap : string := "https://www.bpi.com.ph/sitemap.xml".

Definition bpi_record (X : externals) (id u txt : string) : BankPromo :=
  {| scrape_id := id; bank_name := "bpi"; promo_url := http_url_str X u;
     promo_content := txt; scrape_date := today X |}.

(** The record the [try] block of the BPI loop builds for the page [u],
    [h] being the requests already sent: none when the page does not
    arrive, lacks the [<main>] element, or has a URL that fails
    validation. *)
Definition bpi_built (X : externals) (id : string) (h : list request) (u : string)
  : option BankPromo :=
  match page_text X bpi_main (server X h (get_request u browser_headers)) with
  | Some txt => if http_url_ok X u then Some (bpi_record X id u txt) else None
  | None => None
  end.

(** The BPI loop, turn by turn: a page whose record is built leaves that
    record twice and binds [promo] to it; a page that fails leaves the
    record [promo] is bound to, or ends the run when [promo] is
    unbound. *)
Fixpoint bpi_expected (X : externals) (id : string) (h : list request)
         (urls : list string) (promo : option BankPromo) (promos : list BankPromo)
  : result (list BankPromo) :=
  match urls with
  | [] => Ok promos
  | u :: rest =>
      let h' := (h ++ [get_request u browser_headers])%list in
      match bpi_built X id h u, promo with
      | Some p, _ => bpi_expected X id h' rest (Some p) (promos ++ [p; p])%list
      | None, Some q => bpi_expected X id h' rest promo (promos ++ [q])%list
      | None, None => Raise (UnboundLocalError "promo")
      end
  end.

(** The number of pages whose record is built. *)
Fixpoint bpi_successes (X : externals) (id : string) (h : list request)
         (urls : list string) : nat :=
  match urls with
  | [] => 0
  | u :: rest =>
      (match bpi_built X id h u with Some _ => 1 | None => 0 end)
      + bpi_successes X id (h ++ [get_request u browser_headers])%list rest
  end.

(** [w'] is [w] after more requests and more log lines. *)
Definition extends (w w' : world) : Prop :=
  exists s l, sent w' = (sent w ++ s)%list /\ logged w' = (logged w ++ l)%list.

(** A computation that only adds to the world. *)
Definition grows {A} (m : M A) : Prop := forall w, extends w (snd (m w)).

(** A computation whose first effect is the request [r]. *)
Definition starts_with {A} (r : request) (m : M A) : Prop :=
  forall w, extends (with_request w r) (snd (m w)).

(** The log line written when the details of an item cannot be fetched. *)
Definition campaign_failure_log (uid : string) (item : pyval * pyval) : log_entry :=
  {| level := ERROR;
     message := "Request ID " ++ uid ++ ": Failed to fetch campaign "
                  ++ Py.str (snd item) ++ " details" |}.

Definition reward_failure_log (uid : string) (item : pyval * pyval) : log_entry :=
  {| level := ERROR;
     message := "Request ID " ++ uid ++ ": Failed to fetch reward "
                  ++ Py.str (snd item) ++ " details" |}.

(** Whenever it is asked, the server delivers the details of [item] as
    JSON from which the record can be built ([true]), or the fetch of
    these details fails ([false]). *)
Definition campaign_fetch (X : externals) (hdrs : list (string * string))
           (item : pyval * pyval) (ok : bool) : Prop :=
  forall h,
    let o := server X h (get_request (campaign_url (snd item)) hdrs) in
    if ok
    then exists data d, fetched_json o = Some data
                        /\ campaign_output (snd item) data = Ok d
    else fetched_json o = None.

Definition reward_fetch (X : externals) (hdrs : list (string * string))
           (item : pyval * pyval) (ok : bool) : Prop :=
  forall h,
    let o := server X h (get_request (reward_url (snd item)) hdrs) in
    if ok
    then exists data d, fetched_json o = Some data /\ reward_output data = Ok d
    else fetched_json o = None.

(** A catalog page read in the course of a run: the requests sent
    before it, the request, and the references kept of the reply. *)
Definition page_read : Type := (list request * request * list (pyval * pyval))%type.

Definition read_refs (pr : page_read) : list (pyval * pyval) := snd pr.

(** The request asks for a catalog page with the headers [hdrs], the
    reply to it arrives as JSON, and [page_items] keeps the references
    of the reply. *)
Definition reads_page (X : externals) (hdrs : list (string * string))
           (pr : page_read) : Prop :=
  let '(h, r, refs) := pr in
  (exists page category_id, r = get_request (items_url page category_id) hdrs)
  /\ exists data, fetched_json (server X h r) = Some data /\ page_items data = Ok refs.

(** Between the histories [h] and [h'] the pages are read one after the
    other, in the order of the list, each one at a later point of the
    run than the one before it. *)
Inductive read_in_order : list request -> list page_read -> list request -> Prop :=
| read_none (h h' more : list request) :
    h' = (h ++ more)%list -> read_in_order h [] h'
| read_next (h h1 more : list request) (r : request) (refs : list (pyval * pyval))
            (reads : list page_read) (h' : list request) :
    h1 = (h ++ more)%list ->
    read_in_order (h1 ++ [r])%list reads h' ->
    read_in_order h ((h1, r, refs) :: reads) h'.

(** What item discovery holds after it has sent [asked] requests that
    are no page read: the references of the pages read so far. *)
Definition discovered (X : externals) (hdrs : list (string * string))
           (h0 : list request) (asked : nat)
           (all_items : list (pyval * pyval)) (w : world) : Prop :=
  exists reads,
    Forall (reads_page X hdrs) reads
    /\ read_in_order h0 reads (sent w)
    /\ all_items = flat_map read_refs reads
    /\ List.length (sent w) = List.length h0 + asked + List.length reads.


(** A request for a page of the catalog of a category. *)
Definition catalog_request (r : request) : Prop :=
  exists page category_id hdrs, r = get_request (items_url page category_id) hdrs.

(** Whenever a request of the kind [P] that the computation sends meets
    a transport failure or a 4xx/5xx status, it is the last request
    the computation sends, and the computation raises the
    [RuntimeError] chained to that failure. *)
Definition ends_on_failure (X : externals) {A} (P : request -> Prop) (m : M A) : Prop :=
  forall w h r rest cause,
    sent (snd (m w)) = (sent w ++ h ++ r :: rest)%list ->
    P r ->
    transport_failure (server X (sent w ++ h)%list r) = Some cause ->
    rest = [] /\ fst (m w) = Raise (RuntimeError cause).

(** [promos'] is [promos], or [promos] with one more record. *)
Definition same_or_one_more (promos promos' : list BankPromo) : Prop :=
  promos' = promos \/ exists p, promos' = (promos ++ [p])%list.

(** The title and the body the accordion loop stores for one accordion:
    those of a dict, with [""] for a missing key, and [""] for anything
    that is not a dict, [None] included. *)
Definition acc_title (accordion : pyval) : pyval :=
  match accordion with
  | PDict d => Dict.get "title" (PStr "") d
  | _ => PStr ""
  end.

Definition acc_body (accordion : pyval) : pyval :=
  match accordion with
  | PDict d => Dict.get "body" (PStr "") d
  | _ => PStr ""
  end.

(** The accordion reading of the reward parser as an iteration over the
    list of accordions itself: each accordion in turn, its fragment
    appended when its title or its body text is not empty. *)
Fixpoint read_accordion_list (X : externals) (accordions : list pyval)
         (fields : list pyval) : result (list pyval) :=
  match accordions with
  | [] => Ok fields
  | accordion :: rest =>
      match html_to_text X (acc_body accordion) with
      | Raise e => Raise e
      | Ok body =>
          let title := acc_title accordion in
          read_accordion_list X rest
            (if Py.truthy title || Py.truthy (PStr body)
             then (fields ++ [PStr (PyStr.strip (Py.str title ++ PyStr.nl ++ body))])%list
             else fields)
      end
  end.

Fixpoint last_char (s : string) : option ascii :=
  match s with
  | EmptyString => None
  | String c s' => match last_char s' with Some c' => Some c' | None => Some c end
  end.


(** The content as the specification words it: the blank-line join of
    the fragments that are not empty once trimmed, in their order. *)
Definition content_of_fragments (fragments : list string) : string :=
  PyStr.join PyStr.blank_line
    (filter (fun f => negb (String.eqb (PyStr.strip f) "")) fragments).






Definition bdo_record (X : externals) (id : string) (entry : dict)
           (content : string) : BankPromo :=
  {| scrape_id := id; bank_name := "bdo";
     promo_url := http_url_str X (rewards_page (Dict.get "id" PNone entry));
     promo_content := content; scrape_date := today X |}.





(** A record of the run [id], and the variables of the BPI loop when
    every record they hold is one. *)
Definition has_id (id : string) (p : BankPromo) : Prop := scrape_id p = id.

Definition bpi_vars_id (id : string) (vars : list BankPromo * option BankPromo) : Prop :=
  Forall (has_id id) (fst vars) /\ forall p, snd vars = Some p -> has_id id p.

(** ** Further reading of the program *)

(** A value that is not a string. *)
Definition not_a_string (v : pyval) : Prop := forall s, v <> PStr s.

(** The ['id'] values of the objects that have one, in their order. *)
Definition ids_of_objects (objects : list dict) : list pyval :=
  flat_map (fun d => match Dict.lookup "id" d with Some v => [v] | None => [] end)
           objects.

(** The computation adds only requests that satisfy [P]. *)
Definition adds {A} (P : request -> Prop) (m : M A) : Prop :=
  forall w, exists s l,
    sent (snd (m w)) = (sent w ++ s)%list /\ Forall P s
    /\ logged (snd (m w)) = (logged w ++ l)%list.

(** A GET request with the given headers. *)
Definition get_with (hdrs : list (string * string)) (r : request) : Prop :=
  method r = GET /\ headers r = hdrs /\ payload r = None.

(** A record of the run [id] of the adapter [bank]: built today, with a
    URL that passed validation (the record holds it as [HttpUrl] stores
    it). *)
Definition record_of (X : externals) (id bank : string) (p : BankPromo) : Prop :=
  scrape_id p = id /\ bank_name p = bank /\ scrape_date p = today X
  /\ exists u, http_url_ok X u = true /\ promo_url p = http_url_str X u.

(** An item reference whose type and id are both truthy. *)
Definition truthy_item (item : pyval * pyval) : Prop :=
  Py.truthy (fst item) = true /\ Py.truthy (snd item) = true.

(** The element a page holds: the page arrives with a status that is
    not 4xx or 5xx and the parsed document holds an element that the
    locator matches. *)
Definition page_element (X : externals) (L : Soup.locator) (o : outcome)
  : option node :=
  match o with
  | Failed _ => None
  | Replied resp =>
      if (400 <=? status_code resp)%Z && (status_code resp <? 600)%Z
      then None
      else Soup.find L (Tag "[document]" [] (html_parser X (text resp)))
  end.

(** The links of a Chinabank category page: the [href] of every anchor
    that has one inside the gallery container, in document order; none
    when the page does not arrive or holds no such container. *)
Definition category_hrefs (X : externals) (o : outcome) : list pyval :=
  match page_element X gallery_list o with
  | Some results =>
      match comprehension (fun a => h <~ Soup.href a ;; Ok (Some h))
                          (Soup.find_all anchors_with_href results) with
      | Ok hrefs => hrefs
      | Raise _ => []
      end
  | None => []
  end.

(** The requests a fetch of the page [u] sends: one, or none when [u] is
    a URL that cannot be sent. *)
Definition page_fetch (u : string) : list request :=
  if sendable u then [get_request u browser_headers] else [].

(** A GET request to the PerxTech API with the given headers. *)
Definition api_request (hdrs : list (string * string)) (r : request) : Prop :=
  get_with hdrs r /\ String.prefix "https://api.perxtech.net/v4/" (url r) = true.

(** A GET request, with the browser headers, for a page under [prefix]. *)
Definition page_request (prefix : string) (r : request) : Prop :=
  get_with browser_headers r /\ PyStr.startswith (url r) prefix = true.

(** ** Sample worlds *)

Module Demo.

Definition ok_json (v : pyval) : outcome :=
  Replied {| status_code := 200; text := ""; json := Some v;
             xml_locs := ParseError "syntax error: line 1, column 0" |}.

Definition ok_page (markup : string) : outcome :=
  Replied {| status_code := 200; text := markup; json := None;
             xml_locs := ParseError "syntax error: line 1, column 0" |}.

Definition ok_sitemap (locs : list string) : outcome :=
  Replied {| status_code := 200; text := ""; json := None;
             xml_locs := Locs (map PStr locs) |}.

(** A server that answers by URL alone; an unknown URL is unreachable. *)
Fixpoint answer (table : list (string * outcome)) (u : string) : outcome :=
  match table with
  | [] => Failed ConnectionError
  | (u', o) :: rest => if String.eqb u u' then o else answer rest u
  end.

Definition url_ok (u : string) : bool :=
  String.prefix "https://" u || String.prefix "http://" u.

(** The URL [HttpUrl] stores: a URL without a path gets the path [/];
    the other sample URLs are stored as they are given. *)
Definition url_str (u : string) : string :=
  if String.eqb u "https://www.chinabank.ph" then "https://www.chinabank.ph/" else u.

Definition bpi_page : string :=
  "<main class='container responsivegrid aem-GridColumn aem-GridColumn--default--12'>Free coffee</main>".

Definition ew_page : string :=
  "<div class='block block-system block-system-main-block block--ewb-theme-content block--system-main'>Double points</div>".

Definition plain_page : string := "<p>Page not found</p>".

(** [html.parser] on the markup used below; markup without tags is one
    text node. *)
Definition parser (markup : string) : list node :=
  if String.eqb markup bpi_page then
    [Tag "main"
         [("class", AttrList ["container"; "responsivegrid"; "aem-GridColumn";
                              "aem-GridColumn--default--12"])]
         [Text "Free coffee"]]
  else if String.eqb markup ew_page then
    [Tag "div"
         [("class", AttrList ["block"; "block-system"; "block-system-main-block";
                              "block--ewb-theme-content"; "block--system-main"])]
         [Text "Double points"]]
  else if String.eqb markup plain_page then
    [Tag "p" [] [Text "Page not found"]]
  else if String.eqb markup "" then []
  else [Text markup].

Definition externals_of (table : list (string * outcome)) : externals :=
  {| server := fun _ r => answer table (url r);
     html_parser := parser;
     http_url_ok := url_ok;
     http_url_str := url_str;
     today := "2025-06-30" |}.

(** No server can be reached. *)
Definition offline : externals := externals_of [].

(** EastWest: a sitemap with four promo pages and one other page.  The
    first promo page holds the content block, the second does not,
    the third cannot be reached. *)
Definition eastwest_locs : list string :=
  [ew_prefix ++ "summer"; "https://www.eastwestbanker.com/about";
   ew_prefix ++ "travel"; ew_prefix ++ "dining"; ew_prefix ++ "fuel"].

Definition eastwest : externals :=
  externals_of
    [(ew_sitemap, ok_sitemap eastwest_locs);
     (ew_prefix ++ "summer", ok_page ew_page);
     (ew_prefix ++ "travel", ok_page plain_page);
     (ew_prefix ++ "fuel", ok_page ew_page)].


Definition bpi_sitemap : string := "https://www.bpi.com.ph/sitemap.xml".

(** BPI: two promo pages, the second out of reach. *)
Definition bpi_second_down : externals :=
  externals_of
    [(bpi_sitemap, ok_sitemap [bpi_prefix ++ "coffee"; bpi_prefix ++ "cashback"]);
     (bpi_prefix ++ "coffee", ok_page bpi_page)].

(** BPI: two promo pages, the first out of reach. *)
Definition bpi_first_down : externals :=
  externals_of
    [(bpi_sitemap, ok_sitemap [bpi_prefix ++ "cashback"; bpi_prefix ++ "coffee"]);
     (bpi_prefix ++ "coffee", ok_page bpi_page)].

(** BDO: one category; its catalog lists two campaigns, one reward and
    an item of another type. *)
Definition item (item_type : string) (item_id : Z) : pyval :=
  PDict [("item_type", PStr item_type); ("item_id", PInt item_id)].

Definition catalog_page (pages : Z) (items : list pyval) : pyval :=
  PDict [("data", PList items); ("meta", PDict [("total_pages", PInt pages)])].

Definition campaign_11 : pyval :=
  PDict
    [("data",
      PDict
        [("id", PInt 11);
         ("name", PStr "Dine deal");
         ("display_properties",
          PDict
            [("landing_page",
              PDict [("headline", PStr "Save 10%");
                     ("sub_headline", PStr "On weekends");
                     ("body_text", PStr "Use your card");
                     ("additional_sections",
                      PList [PDict [("body_text", PStr "Terms apply")]])]);
             ("enrolment_page", PDict [("body_text", PStr "")])])])].

Definition reward_22 : pyval :=
  PDict
    [("data",
      PDict [("id", PInt 22);
             ("name", PStr "Gift");
             ("description", PStr "A free gift");
             ("accordions",
              PList [PDict [("title", PStr "How"); ("body", PStr "Spend 5000")];
                     PNone;
                     PDict [("title", PStr "When"); ("body", PStr "")]])])].

Definition bdo_table (token_reply : pyval) (catalog : list (string * outcome))
  : list (string * outcome) :=
  [(token_url, ok_json token_reply);
   (categories_url, ok_json (PDict [("data", PList [PDict [("id", PInt 7)]])]))]
    ++ catalog ++
  [(campaign_url (PInt 11), ok_json campaign_11);
   (reward_url (PInt 22), ok_json reward_22)].

Definition one_page : list (string * outcome) :=
  [(items_url 1 (PInt 7),
    ok_json (catalog_page 1 [item "Campaign" 11; item "Reward::Campaign" 22;
                             item "Voucher" 33; item "Campaign" 12]))].


Definition two_pages_second_down : list (string * outcome) :=
  [(items_url 1 (PInt 7), ok_json (catalog_page 2 [item "Campaign" 11]))].

Definition good_token : pyval := PDict [("bearer_token", PStr "tok")].

(** The token endpoint answers with a JSON object without the field
    ['bearer_token']. *)
Definition token_without_field : pyval := PDict [("token_type", PStr "bearer")].

(** The details of campaign 12 cannot be fetched. *)
Definition bdo : externals := externals_of (bdo_table good_token one_page).

Definition bdo_no_token : externals :=
  externals_of (bdo_table token_without_field one_page).


Definition bdo_page_down : externals :=
  externals_of (bdo_table good_token two_pages_second_down).



Definition deal_entry : dict :=
  [("id", PInt 11);
   ("name", PStr "Dine deal");
   ("headline", PStr "Save 10%");
   ("sub_headline", PStr "On weekends");
   ("body_text", PStr "Use your card");
   ("enrolment_page_body_text", PNone);
   ("additional_sections", PList []);
   ("link", PStr "https://www.deals.bdo.com.ph/treat-welcome/11")].

(** A campaign record as the detail loop builds it, with a sub-headline
    of white space only (a space, a no-break space, an ideographic
    space) and a section that is [None]. *)
Definition campaign_entry : dict :=
  [("id", PInt 11);
   ("name", PStr "Dine deal");
   ("headline", PStr "Save 10%");
   ("sub_headline", PStr (" " ++ PyStr.nbsp ++ PyStr.ideographic_space));
   ("body_text", PStr "Use your card");
   ("enrolment_page_body_text", PStr "");
   ("additional_sections",
    PList [PNone; PDict [("body_text", PStr "Terms apply")]]);
   ("link", PStr "https://www.deals.bdo.com.ph/treat-welcome/11")].

(** EastWest: a sitemap without promo pages, and one with an entry
    that has no text. *)
Definition eastwest_no_promos : externals :=
  externals_of [(ew_sitemap, ok_sitemap ["https://www.eastwestbanker.com/about"])].

Definition textless_locs : list pyval := [PStr (ew_prefix ++ "summer"); PNone].

Definition eastwest_textless : externals :=
  externals_of
    [(ew_sitemap,
      Replied {| status_code := 200; text := ""; json := None;
                 xml_locs := Locs textless_locs |});
     (ew_prefix ++ "summer", ok_page ew_page)].

(** BDO: the categories reply lists objects without ['id']. *)
Definition bdo_no_category : externals :=
  externals_of
    [(token_url, ok_json good_token);
     (categories_url,
      ok_json (PDict [("data", PList [PDict [("name", PStr "Dining")]])]))].

(** BDO: the catalog of the category has no pagination metadata, or has
    metadata that is not an object. *)
Definition bdo_no_meta : externals :=
  externals_of
    (bdo_table good_token
       [(items_url 1 (PInt 7), ok_json (PDict [("data", PList [item "Campaign" 11])]))]).

Definition bdo_bad_meta : externals :=
  externals_of
    (bdo_table good_token
       [(items_url 1 (PInt 7),
         ok_json (PDict [("data", PList [item "Campaign" 11]); ("meta", PNone)]))]).

(** A campaign reply without a name, and the detail record built from
    it. *)
Definition nameless_campaign : pyval :=
  PDict [("data", PDict [("id", PInt 12)])].

Definition nameless_entry : dict :=
  [("id", PInt 12); ("name", PNone); ("headline", PNone); ("sub_headline", PNone);
   ("body_text", PNone); ("enrolment_page_body_text", PNone);
   ("additional_sections", PList []);
   ("link", PStr "https://www.deals.bdo.com.ph/treat-welcome/12")].

(** Chinabank: the first category page lists two links, one of them
    relative; the other category pages cannot be reached. *)
Definition category_page : string :=
  "<a href='https://www.chinabank.ph/about'>About</a><div id='gallery-list'><a href='https://www.chinabank.ph/promo-1'>One</a><a href='/promo-2'>Two</a></div>".

Definition promo_page : string := "<div id='article-detail'>Zero interest</div>".

Definition chinabank_parser (markup : string) : list node :=
  if String.eqb markup category_page then
    [Tag "a" [("href", AttrStr "https://www.chinabank.ph/about")] [Text "About"];
     Tag "div" [("id", AttrStr "gallery-list")]
         [Tag "a" [("href", AttrStr "https://www.chinabank.ph/promo-1")] [Text "One"];
          Tag "a" [("href", AttrStr "/promo-2")] [Text "Two"]]]
  else if String.eqb markup promo_page then
    [Tag "div" [("id", AttrStr "article-detail")] [Text "Zero interest"]]
  else parser markup.

Definition chinabank : externals :=
  {| server := fun _ r =>
       answer [("https://www.chinabank.ph/credit-card-promos-more", ok_page category_page);
               ("https://www.chinabank.ph/promo-1", ok_page promo_page)]
              (url r);
     html_parser := chinabank_parser;
     http_url_ok := url_ok;
     http_url_str := url_str;
     today := "2025-06-30" |}.

(** BDO: the token endpoint answers with a JSON list. *)
Definition bdo_token_list : externals :=
  externals_of [(token_url, ok_json (PList [PStr "tok"]))].



End Demo.

(** * Properties *)

Local Open Scope py_scope.
Local Open Scope list_scope.
Unset Implicit Arguments.

(** ** The fetch primitives *)

Ltac run := unfold bind, ret, raise, lift, try_except, log in *; simpl in *.

(** A URL that begins with one of the absolute URLs of the program can
    be sent. *)
Lemma prefix_app (p s : string) :
  String.prefix p s = true -> exists rest, s = (p ++ rest)%string.
Proof.
  revert s.
  induction p as [| a p IH]; intros s H.
  - exists s. reflexivity.
  - destruct s as [| b s]; [discriminate |]. simpl in H.
    destruct (Ascii.ascii_dec a b) as [<- |]; [| discriminate].
    destruct (IH s H) as (rest & ->). exists rest. reflexivity.
Qed.

Lemma sendable_ew_page (u : string) :
  PyStr.startswith u ew_prefix = true -> sendable u = true.
Proof. intros H. apply prefix_app in H. destruct H as (rest & ->). reflexivity. Qed.

Lemma sendable_bpi_page (u : string) :
  PyStr.startswith u bpi_prefix = true -> sendable u = true.
Proof. intros H. apply prefix_app in H. destruct H as (rest & ->). reflexivity. Qed.

(** Discharges [sendable u = true] for the URLs the program builds. *)
Ltac can_send :=
  first [ reflexivity | assumption
        | apply sendable_ew_page; assumption
        | apply sendable_bpi_page; assumption ].

Lemma send_run (X : externals) r w :
  sendable (url r) = true ->
  send X r w
  = match server X (sent w) r with
    | Failed e => (Raise (RequestException e), with_request w r)
    | Replied resp => (Ok resp, with_request w r)
    end.
Proof. intros H. unfold send. rewrite H. reflexivity. Qed.

Lemma send_refused (X : externals) r w :
  sendable (url r) = false -> send X r w = (Raise (RequestException NotSent), w).
Proof. intros H. unfold send. rewrite H. reflexivity. Qed.

Lemma fetch_json_get_run (X : externals) u hdrs uid w :
  sendable u = true ->
  fetch_json_get X u hdrs uid w =
  let r := get_request u hdrs in
  match transport_failure (server X (sent w) r) with
  | Some cause =>
      (Raise (RuntimeError cause),
       with_log (with_request w r) ERROR
                ("Request ID " ++ uid ++ ": HTTP request failed"))
  | None =>
      match fetched_json (server X (sent w) r) with
      | Some data => (Ok data, with_request w r)
      | None =>
          (Raise (ValueError "Response content is not valid JSON"),
           with_log (with_request w r) ERROR
                    ("Request ID " ++ uid ++ ": Failed to decode JSON from response"))
      end
  end.
Proof.
  intros Hsend.
  unfold fetch_json_get, requests_get, send, raise_for_status, get_request,
    transport_failure, fetched_json, with_log, with_request.
  cbn [url]. rewrite Hsend.
  run.
  destruct (server X (sent w) _) as [e | resp]; simpl; [reflexivity |].
  destruct ((400 <=? status_code resp)%Z && (status_code resp <? 600)%Z); simpl;
    [reflexivity |].
  destruct (json resp); reflexivity.
Qed.

Lemma fetch_json_post_run (X : externals) u hdrs body uid w :
  sendable u = true ->
  fetch_json_post X u hdrs body uid w =
  let r := post_request u hdrs body in
  match transport_failure (server X (sent w) r) with
  | Some cause =>
      (Raise (RuntimeError cause),
       with_log (with_request w r) ERROR
                ("Request ID " ++ uid ++ ": HTTP request failed"))
  | None =>
      match fetched_json (server X (sent w) r) with
      | Some data => (Ok data, with_request w r)
      | None =>
          (Raise (ValueError "Response content is not valid JSON"),
           with_log (with_request w r) ERROR
                    ("Request ID " ++ uid ++ ": Failed to decode JSON from response"))
      end
  end.
Proof.
  intros Hsend.
  unfold fetch_json_post, requests_post, send, raise_for_status, post_request,
    transport_failure, fetched_json, with_log, with_request.
  cbn [url]. rewrite Hsend.
  run.
  destruct (server X (sent w) _) as [e | resp]; simpl; [reflexivity |].
  destruct ((400 <=? status_code resp)%Z && (status_code resp <? 600)%Z); simpl;
    [reflexivity |].
  destruct (json resp); reflexivity.
Qed.

Lemma get_html_content_run (X : externals) u uid w :
  sendable u = true ->
  get_html_content X u uid w =
  let r := get_request u browser_headers in
  match server X (sent w) r with
  | Failed _ =>
      (Ok PNone,
       with_log (with_request w r) ERROR
                ("Request ID " ++ uid ++ ": Failed to fetch HTML"))
  | Replied resp =>
      if (400 <=? status_code resp)%Z && (status_code resp <? 600)%Z
      then (Ok PNone,
            with_log (with_request w r) ERROR
                     ("Request ID " ++ uid ++ ": Failed to fetch HTML"))
      else (Ok (PStr (text resp)), with_request w r)
  end.
Proof.
  intros Hsend.
  unfold get_html_content, requests_get, send, raise_for_status, get_request,
    with_log, with_request.
  cbn [url]. rewrite Hsend.
  run.
  destruct (server X (sent w) _) as [e | resp]; simpl; [reflexivity |].
  destruct ((400 <=? status_code resp)%Z && (status_code resp <? 600)%Z);
    reflexivity.
Qed.

(** For a URL that cannot be sent nothing is requested: the HTML fetch
    logs the failure and returns [None], the other fetches raise. *)
Lemma get_html_content_refused (X : externals) u uid w :
  sendable u = false ->
  get_html_content X u uid w
  = (Ok PNone, with_log w ERROR ("Request ID " ++ uid ++ ": Failed to fetch HTML")).
Proof.
  intros Hsend.
  unfold get_html_content, requests_get, send. cbn [url]. rewrite Hsend. reflexivity.
Qed.

Lemma fetch_json_get_refused (X : externals) u hdrs uid w :
  sendable u = false ->
  fetch_json_get X u hdrs uid w
  = (Raise (RuntimeError NotSent),
     with_log w ERROR ("Request ID " ++ uid ++ ": HTTP request failed")).
Proof.
  intros Hsend.
  unfold fetch_json_get, requests_get, send. cbn [url]. rewrite Hsend. reflexivity.
Qed.

Lemma fetch_json_post_refused (X : externals) u hdrs body uid w :
  sendable u = false ->
  fetch_json_post X u hdrs body uid w
  = (Raise (RuntimeError NotSent),
     with_log w ERROR ("Request ID " ++ uid ++ ": HTTP request failed")).
Proof.
  intros Hsend.
  unfold fetch_json_post, requests_post, send. cbn [url]. rewrite Hsend. reflexivity.
Qed.

Lemma get_sitemap_urls_refused (X : externals) u uid w :
  sendable u = false ->
  get_sitemap_urls X u uid w
  = (Raise (RuntimeError NotSent),
     with_log w ERROR ("Request ID " ++ uid ++ ": HTTP request failed")).
Proof.
  intros Hsend.
  unfold get_sitemap_urls, requests_get, send. cbn [url]. rewrite Hsend. reflexivity.
Qed.

Lemma get_sitemap_urls_run (X : externals) u uid w :
  sendable u = true ->
  get_sitemap_urls X u uid w =
  let r := get_request u browser_headers in
  match transport_failure (server X (sent w) r) with
  | Some cause =>
      (Raise (RuntimeError cause),
       with_log (with_request w r) ERROR
                ("Request ID " ++ uid ++ ": HTTP request failed"))
  | None =>
      match sitemap_locs (server X (sent w) r) with
      | Some urls => (Ok urls, with_request w r)
      | None =>
          (Raise (ValueError ("XML parsing failed: " ++ parse_error (server X (sent w) r))),
           with_log (with_request w r) ERROR
                    ("Request ID " ++ uid ++ ": Failed to parse XML"))
      end
  end.
Proof.
  intros Hsend.
  unfold get_sitemap_urls, requests_get, send, raise_for_status, get_request,
    sitemap_locs, parse_error, transport_failure, with_log, with_request.
  cbn [url]. rewrite Hsend.
  run.
  destruct (server X (sent w) _) as [e | resp]; simpl; [reflexivity |].
  destruct ((400 <=? status_code resp)%Z && (status_code resp <? 600)%Z); simpl;
    [reflexivity |].
  destruct resp as [st tx js [urls | msg]]; reflexivity.
Qed.

(** C6, as amended.  When the request to the URL [u] meets a transport
    failure or a 4xx/5xx status, the JSON GET, the JSON POST and the
    sitemap fetch raise [RuntimeError] chained to the request
    exception, while the raw HTML fetch [get_html_content] returns
    [None].  The same holds for a URL that [requests] does not send,
    the request exception being the one [requests] raises for it. *)
Theorem fetch_failure_raises_except_html :
  forall (X : externals) (w : world) (u uid : string)
         (hdrs : list (string * string)) (body : pyval)
         (cause : request_exception),
    (forall r, url r = u -> transport_failure (server X (sent w) r) = Some cause) ->
    let raised := if sendable u then cause else NotSent in
    fst (fetch_json_get X u hdrs uid w) = Raise (RuntimeError raised)
    /\ fst (fetch_json_post X u hdrs body uid w) = Raise (RuntimeError raised)
    /\ fst (get_sitemap_urls X u uid w) = Raise (RuntimeError raised)
    /\ fst (get_html_content X u uid w) = Ok PNone.
Proof.
  intros X w u uid hdrs body cause H raised. subst raised.
  destruct (sendable u) eqn:Hsend;
    [| rewrite fetch_json_get_refused, fetch_json_post_refused,
         get_sitemap_urls_refused, get_html_content_refused by exact Hsend;
       repeat split].
  rewrite fetch_json_get_run, fetch_json_post_run, get_sitemap_urls_run,
    get_html_content_run by exact Hsend.
  cbv zeta.
  rewrite (H (get_request u hdrs) eq_refl).
  rewrite (H (post_request u hdrs body) eq_refl).
  pose proof (H (get_request u browser_headers) eq_refl) as Hb.
  rewrite Hb.
  repeat split.
  unfold transport_failure in Hb.
  destruct (server X (sent w) (get_request u browser_headers)) as [e | resp];
    [reflexivity |].
  destruct ((400 <=? status_code resp)%Z && (status_code resp <? 600)%Z);
    [reflexivity | discriminate].
Qed.

Lemma fetch_failure_raises_except_html_witness :
  fst (fetch_json_get Demo.offline categories_url [] "run-1" empty_world)
    = Raise (RuntimeError ConnectionError)
  /\ fst (fetch_json_post Demo.offline categories_url [] PNone "run-1" empty_world)
    = Raise (RuntimeError ConnectionError)
  /\ fst (get_sitemap_urls Demo.offline categories_url "run-1" empty_world)
    = Raise (RuntimeError ConnectionError)
  /\ fst (get_html_content Demo.offline categories_url "run-1" empty_world)
    = Ok PNone.
Proof.
  apply (fetch_failure_raises_except_html
           Demo.offline empty_world categories_url "run-1" [] PNone ConnectionError).
  intros r _. reflexivity.
Defined.

(** C6 as stated fails for the raw HTML fetch: with the server out of
    reach, [get_html_content] logs the failure and returns [None]; no
    exception reaches the caller. *)
Lemma html_fetch_failure_is_not_raised :
  server Demo.offline [] (get_request (bpi_prefix ++ "cashback") browser_headers)
    = Failed ConnectionError
  /\ get_html_content Demo.offline (bpi_prefix ++ "cashback") "run-1" empty_world
     = (Ok PNone,
        {| sent := [get_request (bpi_prefix ++ "cashback") browser_headers];
           logged := [{| level := ERROR;
                         message := "Request ID run-1: Failed to fetch HTML" |}] |})
  /\ forall e,
      fst (get_html_content Demo.offline (bpi_prefix ++ "cashback") "run-1" empty_world)
      <> Raise e.
Proof.
  split; [reflexivity |].
  split; [reflexivity |].
  intros e. rewrite get_html_content_run by reflexivity. simpl. discriminate.
Qed.

(** A reply with status 304 is outside 2xx, and [raise_for_status] lets
    it through: only 4xx and 5xx raise. *)
Example status_304_is_not_raised :
  forall (X : externals) (w : world) (u uid : string) (hdrs : list (string * string))
         (data : pyval) (view : xml_view),
    sendable u = true ->
    server X (sent w) (get_request u hdrs)
      = Replied {| status_code := 304; text := ""; json := Some data;
                   xml_locs := view |} ->
    fst (fetch_json_get X u hdrs uid w) = Ok data.
Proof.
  intros X w u uid hdrs data view Hsend H.
  rewrite fetch_json_get_run by exact Hsend. cbv zeta. rewrite H. reflexivity.
Qed.

(** ** The text extractors *)

(** C7, as amended.  When the locator of an extractor matches no element
    of the parsed document, the extractor logs an error and returns the
    empty list; it does not raise.  The record constructor rejects such
    a content, which is how the adapters come to skip the page. *)
Theorem extractor_returns_empty_list_on_no_match :
  forall (X : externals) (ex : extractor) (markup uid : string) (w : world),
    Soup.find (extractor_locator ex) (Tag "[document]" [] (html_parser X markup)) = None ->
    fst (extract X ex (PStr markup) uid w) = Ok (PList [])
    /\ sent (snd (extract X ex (PStr markup) uid w)) = sent w
    /\ List.length (logged (snd (extract X ex (PStr markup) uid w)))
       = S (List.length (logged w))
    /\ forall id bank u day,
        BankPromo_init X id bank u (PList []) day = Raise ValidationError.
Proof.
  intros X ex markup uid w H.
  assert (Hinit : forall id bank u day,
             BankPromo_init X id bank u (PList []) day = Raise ValidationError).
  { intros id bank u day. destruct u; reflexivity. }
  destruct ex; simpl in H |- *;
    unfold get_bpi_content, get_ew_content, extract_cbank_content, BeautifulSoup;
    run; rewrite H; simpl; rewrite length_app; simpl;
    repeat split; try apply Hinit; lia.
Qed.

Lemma extractor_returns_empty_list_on_no_match_witness :
  fst (extract Demo.offline BpiContent (PStr Demo.plain_page) "run-1" empty_world)
    = Ok (PList [])
  /\ sent (snd (extract Demo.offline BpiContent (PStr Demo.plain_page) "run-1" empty_world))
     = sent empty_world
  /\ List.length
       (logged (snd (extract Demo.offline BpiContent (PStr Demo.plain_page)
                             "run-1" empty_world)))
     = S (List.length (logged empty_world))
  /\ forall id bank u day,
      BankPromo_init Demo.offline id bank u (PList []) day = Raise ValidationError.
Proof.
  apply (extractor_returns_empty_list_on_no_match
           Demo.offline BpiContent Demo.plain_page "run-1" empty_world).
  reflexivity.
Defined.

(** C7 as stated fails: on a page without the [<main>] element,
    [get_bpi_content] returns the value [[]]. *)
Lemma bpi_extractor_does_not_raise :
  Soup.find bpi_main (Tag "[document]" [] (Demo.parser Demo.plain_page)) = None
  /\ get_bpi_content Demo.offline (PStr Demo.plain_page) "run-1" empty_world
     = (Ok (PList []),
        {| sent := [];
           logged := [{| level := ERROR;
                         message := "Request ID run-1: Error extracting text" |}] |}).
Proof. split; reflexivity. Qed.

(** ** List comprehensions and loops *)

Lemma in_firstn {A} (n : nat) (x : A) (xs : list A) : In x (firstn n xs) -> In x xs.
Proof.
  revert xs.
  induction n as [| n IH]; intros [| y xs] H; simpl in H; try contradiction.
  destruct H as [-> | H]; [left; reflexivity | right; apply IH; exact H].
Qed.

Lemma urls_with_prefix_strings (prefix : string) (urls : list string) :
  urls_with_prefix prefix (map PStr urls)
  = Ok (map PStr (filter (fun u => PyStr.startswith u prefix) urls)).
Proof.
  unfold urls_with_prefix.
  induction urls as [| u urls IH]; simpl; [reflexivity |].
  rewrite IH. simpl.
  destruct (PyStr.startswith u prefix); reflexivity.
Qed.


(** ** The EastWest adapter *)

Lemma sitemap_fetched (X : externals) (u uid : string) (w : world) (locs : list pyval) :
  sendable u = true ->
  sitemap_locs (server X (sent w) (get_request u browser_headers)) = Some locs ->
  get_sitemap_urls X u uid w = (Ok locs, with_request w (get_request u browser_headers)).
Proof.
  intros Hsend H. rewrite get_sitemap_urls_run by exact Hsend. cbv zeta.
  rewrite H.
  unfold sitemap_locs in H.
  destruct (transport_failure (server X (sent w) (get_request u browser_headers)));
    [discriminate | reflexivity].
Qed.





(** ** The BPI adapter *)

Lemma bpi_try_success (X : externals) id u txt promos w :
  sendable u = true ->
  page_text X bpi_main (server X (sent w) (get_request u browser_headers)) = Some txt ->
  http_url_ok X u = true ->
  bpi_try X id (PStr u) promos w
  = (Ok (promos ++ [bpi_record X id u txt], Some (bpi_record X id u txt)),
     with_request w (get_request u browser_headers)).
Proof.
  intros Hsend Htxt Hurl.
  unfold bpi_try, bind. cbn [Py.str].
  rewrite get_html_content_run by exact Hsend. cbv zeta.
  unfold page_text in Htxt.
  destruct (server X (sent w) (get_request u browser_headers)) as [e | resp];
    [discriminate |].
  destruct ((400 <=? status_code resp)%Z && (status_code resp <? 600)%Z);
    [discriminate |].
  unfold get_bpi_content, BeautifulSoup, BankPromo_init. run.
  destruct (Soup.find bpi_main _) as [tag |]; [| discriminate].
  injection Htxt as <-. simpl. rewrite Hurl. reflexivity.
Qed.

(** The turn of the loop, read off the outcome of its [try] block. *)
Lemma bpi_turn_run (X : externals) id u promos promo w :
  bpi_turn X id u (promos, promo) w =
  match bpi_try X id u promos w with
  | (Ok (promos', Some p), w1) => (Ok (promos' ++ [p], Some p), w1)
  | (Ok (promos', None), w1) => (Raise (UnboundLocalError "promo"), w1)
  | (Raise _, w1) =>
      let w2 := with_log w1 WARNING ("[BPI] Failed to scrape " ++ Py.str u) in
      match promo with
      | Some p => (Ok (promos ++ [p], Some p), w2)
      | None => (Raise (UnboundLocalError "promo"), w2)
      end
  end.
Proof.
  unfold bpi_turn, try_except, bind.
  destruct (bpi_try X id u promos w) as [[[promos' [p |]] | e] w1]; simpl;
    try reflexivity.
  unfold log, ret, raise, with_log. simpl.
  destruct promo; reflexivity.
Qed.

(** The [try] block binds [promo] to the record it appends. *)
Lemma bpi_try_binds (X : externals) id u promos w vars w1 :
  bpi_try X id u promos w = (Ok vars, w1) ->
  exists p, vars = (promos ++ [p], Some p).
Proof.
  unfold bpi_try, bind.
  destruct (get_html_content X (Py.str u) id w) as [[html | e] w0]; [| discriminate].
  destruct (get_bpi_content X html id w0) as [[txt | e] w0']; [| discriminate].
  unfold lift, ret.
  destruct (BankPromo_init X id "bpi" u txt (today X)) as [p | e]; [| discriminate].
  intros H. injection H as <- _. exists p. reflexivity.
Qed.

(** The [try] block builds the record of the page, or raises. *)
Lemma bpi_try_built (X : externals) id u promos w :
  sendable u = true ->
  sent (snd (bpi_try X id (PStr u) promos w)) = sent w ++ [get_request u browser_headers]
  /\ match bpi_built X id (sent w) u with
     | Some p => fst (bpi_try X id (PStr u) promos w) = Ok (promos ++ [p], Some p)
     | None => exists e, fst (bpi_try X id (PStr u) promos w) = Raise e
     end.
Proof.
  intros Hsend.
  unfold bpi_built.
  destruct (page_text X bpi_main (server X (sent w) (get_request u browser_headers)))
    as [txt |] eqn:Htxt.
  - destruct (http_url_ok X u) eqn:Hurl.
    + rewrite (bpi_try_success X id u txt promos w Hsend Htxt Hurl). auto.
    + unfold bpi_try, bind. cbn [Py.str].
      rewrite get_html_content_run by exact Hsend. cbv zeta.
      unfold page_text in Htxt.
      destruct (server X (sent w) (get_request u browser_headers)) as [e | resp];
        [discriminate |].
      destruct ((400 <=? status_code resp)%Z && (status_code resp <? 600)%Z);
        [discriminate |].
      unfold get_bpi_content, BeautifulSoup, BankPromo_init. run.
      destruct (Soup.find bpi_main _) as [tag |]; [| discriminate].
      simpl. rewrite Hurl. simpl. eauto.
  - unfold bpi_try, bind. cbn [Py.str].
    rewrite get_html_content_run by exact Hsend. cbv zeta.
    unfold page_text in Htxt.
    destruct (server X (sent w) (get_request u browser_headers)) as [e | resp].
    + unfold get_bpi_content, BeautifulSoup. run. eauto.
    + destruct ((400 <=? status_code resp)%Z && (status_code resp <? 600)%Z).
      * unfold get_bpi_content, BeautifulSoup. run. eauto.
      * unfold get_bpi_content, BeautifulSoup, BankPromo_init. run.
        destruct (Soup.find bpi_main _) as [tag |]; [discriminate |].
        simpl. eauto.
Qed.

Lemma bpi_turn_expected (X : externals) id u promos promo w :
  sendable u = true ->
  sent (snd (bpi_turn X id (PStr u) (promos, promo) w))
  = sent w ++ [get_request u browser_headers]
  /\ fst (bpi_turn X id (PStr u) (promos, promo) w)
     = match bpi_built X id (sent w) u, promo with
       | Some p, _ => Ok (promos ++ [p; p], Some p)
       | None, Some q => Ok (promos ++ [q], Some q)
       | None, None => Raise (UnboundLocalError "promo")
       end.
Proof.
  intros Hsend.
  destruct (bpi_try_built X id u promos w Hsend) as [Hsent Htry].
  rewrite bpi_turn_run.
  destruct (bpi_built X id (sent w) u) as [p |].
  - destruct (bpi_try X id (PStr u) promos w) as [[[promos' promo'] | e] w1];
      simpl in Hsent, Htry; [| discriminate].
    injection Htry as -> ->. simpl. rewrite <- app_assoc. auto.
  - destruct Htry as (e & Htry).
    destruct (bpi_try X id (PStr u) promos w) as [[vars | e'] w1];
      simpl in Hsent, Htry; [discriminate |].
    cbv zeta. destruct promo; simpl; auto.
Qed.

Lemma bpi_loop_expected (X : externals) id (urls : list string) :
  Forall (fun u => sendable u = true) urls ->
  forall promos promo w,
    fst ((vars <- for_each (map PStr urls) (bpi_turn X id) (promos, promo) ;;
          ret (fst vars)) w)
    = bpi_expected X id (sent w) urls promo promos.
Proof.
  induction 1 as [| u urls Hu Hurls IH]; intros promos promo w; [reflexivity |].
  cbn [map for_each bpi_expected]. cbv zeta.
  destruct (bpi_turn_expected X id u promos promo w Hu) as [Hsent Hturn].
  unfold bind at 1. unfold bind at 1.
  destruct (bpi_turn X id (PStr u) (promos, promo) w) as [[[promos' promo'] | e] w1];
    simpl in Hsent, Hturn.
  - rewrite <- Hsent.
    change (fst ((vars <- for_each (map PStr urls) (bpi_turn X id) (promos', promo') ;;
                  ret (fst vars)) w1)
            = match bpi_built X id (sent w) u, promo with
              | Some p, _ => bpi_expected X id (sent w1) urls (Some p) (promos ++ [p; p])
              | None, Some q => bpi_expected X id (sent w1) urls promo (promos ++ [q])
              | None, None => Raise (UnboundLocalError "promo")
              end).
    rewrite IH.
    destruct (bpi_built X id (sent w) u) as [p |].
    + injection Hturn as -> ->. reflexivity.
    + destruct promo as [q |]; [| discriminate].
      injection Hturn as -> ->. reflexivity.
  - simpl.
    destruct (bpi_built X id (sent w) u) as [p |]; [discriminate |].
    destruct promo as [q |]; [discriminate |]. congruence.
Qed.

Lemma bpi_expected_keeps (X : externals) id (urls : list string) :
  forall h promo promos out,
    bpi_expected X id h urls promo promos = Ok out ->
    exists more, out = promos ++ more.
Proof.
  induction urls as [| u urls IH]; intros h promo promos out H; cbn [bpi_expected] in H.
  - injection H as <-. exists []. rewrite app_nil_r. reflexivity.
  - cbv zeta in H.
    destruct (bpi_built X id h u) as [p |].
    + apply IH in H. destruct H as (more & ->).
      rewrite <- app_assoc. eauto.
    + destruct promo as [q |]; [| discriminate].
      apply IH in H. destruct H as (more & ->).
      rewrite <- app_assoc. eauto.
Qed.

Lemma bpi_expected_from (X : externals) id (before rest : list string) :
  forall h promo promos out,
    bpi_expected X id h (before ++ rest) promo promos = Ok out ->
    exists promo' promos',
      bpi_expected X id (h ++ map (fun u => get_request u browser_headers) before)
                   rest promo' promos'
      = Ok out.
Proof.
  induction before as [| u before IH]; intros h promo promos out H.
  - simpl. rewrite app_nil_r. eauto.
  - cbn [app bpi_expected] in H. cbv zeta in H.
    cbn [map]. replace (h ++ get_request u browser_headers
                          :: map (fun u0 => get_request u0 browser_headers) before)
      with ((h ++ [get_request u browser_headers])
              ++ map (fun u0 => get_request u0 browser_headers) before)
      by (rewrite <- app_assoc; reflexivity).
    destruct (bpi_built X id h u) as [p |].
    + eapply IH. exact H.
    + destruct promo as [q |]; [| discriminate].
      eapply IH. exact H.
Qed.

Lemma bpi_expected_length (X : externals) id (urls : list string) :
  forall h promo promos out,
    bpi_expected X id h urls promo promos = Ok out ->
    List.length out
    = List.length promos + List.length urls + bpi_successes X id h urls.
Proof.
  induction urls as [| u urls IH]; intros h promo promos out H;
    cbn [bpi_expected bpi_successes] in H |- *.
  - injection H as <-. simpl. lia.
  - cbv zeta in H.
    destruct (bpi_built X id h u) as [p |].
    + apply IH in H. rewrite H, length_app. simpl. lia.
    + destruct promo as [q |]; [| discriminate].
      apply IH in H. rewrite H, length_app. simpl. lia.
Qed.

Lemma scrape_bpi_run (X : externals) id w urls :
  sitemap_locs (server X (sent w) (get_request bpi_sitemap browser_headers))
    = Some (map PStr urls) ->
  fst (scrape_bpi X id w)
  = bpi_expected X id (sent w ++ [get_request bpi_sitemap browser_headers])
                 (filter (fun u => PyStr.startswith u bpi_prefix) urls) None [].
Proof.
  intros Hmap.
  unfold scrape_bpi. fold bpi_sitemap. unfold bind at 1.
  rewrite (sitemap_fetched X bpi_sitemap id w _ eq_refl Hmap).
  unfold bind at 1. unfold lift. rewrite urls_with_prefix_strings.
  rewrite bpi_loop_expected; [reflexivity |].
  apply Forall_forall. intros u Hu.
  apply filter_In in Hu. apply sendable_bpi_page, Hu.
Qed.




(** C10.  In a run of the BPI adapter the append after the [try]
    statement is executed in every turn of the loop over the surviving
    URLs: the run returns what the loop with this second append
    returns.  When the first surviving URL fails, the whole invocation
    fails with [UnboundLocalError] for [promo].  When a URL fails right
    after a URL whose record [p] was built (with that URL, as the
    record type stores it), [p] is appended once more, so the output
    holds it three times in a row.  A failed URL is never skipped: a
    run that returns holds one record for every surviving URL and one
    more for every URL whose record was built. *)
Theorem bpi_append_after_try :
  forall (X : externals) (id : string) (w : world) (urls : list string),
    sitemap_locs (server X (sent w) (get_request bpi_sitemap browser_headers))
      = Some (map PStr urls) ->
    let pages := filter (fun u => PyStr.startswith u bpi_prefix) urls in
    let h := sent w ++ [get_request bpi_sitemap browser_headers] in
    fst (scrape_bpi X id w) = bpi_expected X id h pages None []
    /\ (forall u rest,
           pages = u :: rest ->
           bpi_built X id h u = None ->
           fst (scrape_bpi X id w) = Raise (UnboundLocalError "promo"))
    /\ (forall before u v after p promos,
           pages = before ++ u :: v :: after ->
           let hu := h ++ map (fun x => get_request x browser_headers) before in
           bpi_built X id hu u = Some p ->
           bpi_built X id (hu ++ [get_request u browser_headers]) v = None ->
           fst (scrape_bpi X id w) = Ok promos ->
           promo_url p = http_url_str X u
           /\ exists l1 l2, promos = l1 ++ [p; p; p] ++ l2)
    /\ (forall promos,
           fst (scrape_bpi X id w) = Ok promos ->
           List.length promos = List.length pages + bpi_successes X id h pages).
Proof.
  intros X id w urls Hmap pages h.
  pose proof (scrape_bpi_run X id w urls Hmap) as Hrun.
  fold pages h in Hrun.
  split; [exact Hrun |].
  split; [| split].
  - intros u rest Hpages Hnone. rewrite Hrun, Hpages.
    cbn [bpi_expected]. rewrite Hnone. reflexivity.
  - intros before u v after p promos Hpages hu Hu Hv Hok.
    split.
    { unfold bpi_built in Hu.
      destruct (page_text X bpi_main _) as [txt |]; [| discriminate].
      destruct (http_url_ok X u); [| discriminate].
      injection Hu as <-. reflexivity. }
    rewrite Hrun, Hpages in Hok.
    apply bpi_expected_from in Hok. destruct Hok as (promo' & promos' & Hok).
    fold hu in Hok. cbn [bpi_expected] in Hok. cbv zeta in Hok.
    rewrite Hu, Hv in Hok.
    apply bpi_expected_keeps in Hok. destruct Hok as (more & ->).
    exists promos', more. rewrite <- !app_assoc. reflexivity.
  - intros promos Hok. rewrite Hrun in Hok.
    apply bpi_expected_length in Hok. simpl in Hok. exact Hok.
Qed.

Lemma bpi_append_after_try_witness :
  fst (scrape_bpi Demo.bpi_second_down "run-1" empty_world)
  = Ok [bpi_record Demo.bpi_second_down "run-1" (bpi_prefix ++ "coffee") "Free coffee";
        bpi_record Demo.bpi_second_down "run-1" (bpi_prefix ++ "coffee") "Free coffee";
        bpi_record Demo.bpi_second_down "run-1" (bpi_prefix ++ "coffee") "Free coffee"].
Proof.
  apply (proj1 (bpi_append_after_try
                  Demo.bpi_second_down "run-1" empty_world
                  [(bpi_prefix ++ "coffee")%string; (bpi_prefix ++ "cashback")%string]
                  eq_refl)).
Defined.

(** Two runs of the BPI adapter over a sitemap with two promo pages.
    With the second page out of reach the record of the first page is
    returned three times; with the first page out of reach the run ends
    with [UnboundLocalError]. *)
Example bpi_runs :
  fst (scrape_bpi Demo.bpi_second_down "run-1" empty_world)
  = Ok [bpi_record Demo.bpi_second_down "run-1" (bpi_prefix ++ "coffee") "Free coffee";
        bpi_record Demo.bpi_second_down "run-1" (bpi_prefix ++ "coffee") "Free coffee";
        bpi_record Demo.bpi_second_down "run-1" (bpi_prefix ++ "coffee") "Free coffee"]
  /\ fst (scrape_bpi Demo.bpi_first_down "run-1" empty_world)
     = Raise (UnboundLocalError "promo").
Proof. split; vm_compute; reflexivity. Qed.

(** ** Computations only add to the world *)

Lemma extends_refl w : extends w w.
Proof. exists [], []. rewrite !app_nil_r. auto. Qed.

Lemma extends_trans w1 w2 w3 : extends w1 w2 -> extends w2 w3 -> extends w1 w3.
Proof.
  intros (s1 & l1 & Hs1 & Hl1) (s2 & l2 & Hs2 & Hl2).
  exists (s1 ++ s2), (l1 ++ l2).
  rewrite Hs2, Hl2, Hs1, Hl1, !app_assoc. auto.
Qed.

Lemma extends_logged w w' entry :
  extends w w' -> In entry (logged w) -> In entry (logged w').
Proof.
  intros (s & l & _ & Hl) Hin. rewrite Hl. apply in_or_app. auto.
Qed.

Lemma grows_ret {A} (a : A) : grows (ret a).
Proof. intros w. apply extends_refl. Qed.

Lemma grows_raise {A} (e : exn) : grows (@raise A e).
Proof. intros w. apply extends_refl. Qed.

Lemma grows_lift {A} (r : result A) : grows (lift r).
Proof. intros w. apply extends_refl. Qed.

Lemma grows_log lvl msg : grows (log lvl msg).
Proof.
  intros w. exists [], [{| level := lvl; message := msg |}].
  simpl. rewrite app_nil_r. auto.
Qed.

Lemma grows_send (X : externals) r : grows (send X r).
Proof.
  intros w. unfold send.
  destruct (sendable (url r)); [| apply extends_refl].
  destruct (server X (sent w) r); exists [r], []; simpl; rewrite app_nil_r; auto.
Qed.

Lemma grows_bind {A B} (m : M A) (k : A -> M B) :
  grows m -> (forall a, grows (k a)) -> grows (bind m k).
Proof.
  intros Hm Hk w. unfold bind.
  specialize (Hm w).
  destruct (m w) as [[a | e] w1]; simpl in *; [| exact Hm].
  eapply extends_trans; [exact Hm | apply Hk].
Qed.

Lemma grows_try {A} (m : M A) (h : exn -> M A) :
  grows m -> (forall e, grows (h e)) -> grows (try_except m h).
Proof.
  intros Hm Hh w. unfold try_except.
  specialize (Hm w).
  destruct (m w) as [[a | e] w1]; simpl in *; [exact Hm |].
  eapply extends_trans; [exact Hm | apply Hh].
Qed.

Lemma grows_for_each {A S} (body : A -> S -> M S) (xs : list A) :
  (forall x acc, grows (body x acc)) -> forall acc, grows (for_each xs body acc).
Proof.
  intros Hbody.
  induction xs as [| x xs IH]; intros acc; simpl.
  - apply grows_ret.
  - apply grows_bind; [apply Hbody | intros; apply IH].
Qed.

Create HintDb grows discriminated.

(** Structural steps through a computation of the program; the lemmas
    already proved for its functions are tried first. *)
Ltac grows_step :=
  first
    [ solve [auto 1 with grows nocore]
    | apply grows_ret | apply grows_raise | apply grows_lift | apply grows_log
    | apply grows_send
    | apply grows_bind; [| intros ?]
    | apply grows_try; [| intros ?]
    | apply grows_for_each; intros ? ?
    | match goal with
      | |- grows (match ?x with _ => _ end) => destruct x
      | |- grows (if ?b then _ else _) => destruct b
      | |- grows (let (_, _) := ?p in _) => destruct p
      end ].

Ltac grows_auto := repeat grows_step.

Lemma grows_raise_for_status r : grows (raise_for_status r).
Proof. unfold raise_for_status. grows_auto. Qed.
#[local] Hint Resolve grows_raise_for_status : grows.

Lemma grows_fetch_json_get (X : externals) u hdrs uid :
  grows (fetch_json_get X u hdrs uid).
Proof. unfold fetch_json_get, requests_get. grows_auto. Qed.
#[local] Hint Resolve grows_fetch_json_get : grows.

Lemma grows_fetch_json_post (X : externals) u hdrs body uid :
  grows (fetch_json_post X u hdrs body uid).
Proof. unfold fetch_json_post, requests_post. grows_auto. Qed.
#[local] Hint Resolve grows_fetch_json_post : grows.

Lemma grows_fetch_category_items (X : externals) uid hdrs c all :
  grows (fetch_category_items X uid hdrs c all).
Proof. unfold fetch_category_items, fetch_items_page. grows_auto. Qed.
#[local] Hint Resolve grows_fetch_category_items : grows.

Lemma grows_get_bdo_campaign_details (X : externals) uid hdrs items :
  grows (get_bdo_campaign_details X uid hdrs items).
Proof. unfold get_bdo_campaign_details, fetch_campaign. grows_auto. Qed.
#[local] Hint Resolve grows_get_bdo_campaign_details : grows.

Lemma grows_get_bdo_reward_details (X : externals) uid hdrs items :
  grows (get_bdo_reward_details X uid hdrs items).
Proof. unfold get_bdo_reward_details, fetch_reward. grows_auto. Qed.
#[local] Hint Resolve grows_get_bdo_reward_details : grows.

Lemma fetched_json_no_failure (o : outcome) data :
  fetched_json o = Some data -> transport_failure o = None.
Proof.
  unfold fetched_json, transport_failure.
  destruct o as [e | resp]; [discriminate |].
  destruct ((400 <=? status_code resp)%Z && (status_code resp <? 600)%Z);
    [discriminate | reflexivity].
Qed.

Lemma extends_with_log w lvl msg : extends w (with_log w lvl msg).
Proof.
  exists [], [{| level := lvl; message := msg |}]. simpl.
  rewrite app_nil_r. auto.
Qed.

Lemma starts_with_fetch_json_get (X : externals) u hdrs uid :
  sendable u = true ->
  starts_with (get_request u hdrs) (fetch_json_get X u hdrs uid).
Proof.
  intros Hsend w. rewrite fetch_json_get_run by exact Hsend. cbv zeta.
  destruct (transport_failure _); [apply extends_with_log |].
  destruct (fetched_json _); [apply extends_refl | apply extends_with_log].
Qed.

Lemma starts_with_bind {A B} r (m : M A) (k : A -> M B) :
  starts_with r m -> (forall a, grows (k a)) -> starts_with r (bind m k).
Proof.
  intros Hm Hk w. unfold bind.
  specialize (Hm w).
  destruct (m w) as [[a | e] w1]; simpl in *; [| exact Hm].
  eapply extends_trans; [exact Hm | apply Hk].
Qed.

Lemma starts_with_get_bdo_promo_items (X : externals) uid hdrs :
  starts_with (get_request categories_url hdrs) (get_bdo_promo_items X uid hdrs).
Proof.
  unfold get_bdo_promo_items, get_bdo_promo_categories.
  apply starts_with_bind.
  - apply starts_with_bind; [apply starts_with_fetch_json_get; reflexivity |].
    intros data. grows_auto.
  - intros categories. grows_auto.
Qed.

(** ** Token acquisition *)

Lemma get_bdo_bearer_header_run (X : externals) id w :
  get_bdo_bearer_header X id w =
  let r := post_request token_url token_headers token_payload in
  match fetch_json_post X token_url token_headers token_payload id w with
  | (Ok (PDict reply), w1) => (Ok (bearer_headers (Dict.get "bearer_token" PNone reply)), w1)
  | (Ok _, w1) => (Raise AttributeError, w1)
  | (Raise e, w1) => (Raise e, w1)
  end.
Proof.
  unfold get_bdo_bearer_header, bind.
  destruct (fetch_json_post X token_url token_headers token_payload id w)
    as [[reply | e] w1]; [| reflexivity].
  destruct reply; reflexivity.
Qed.

(** C5, as amended.  When the token endpoint answers with a JSON object
    that lacks ['bearer_token'], token acquisition does not fail: it
    returns headers whose [Authorization] is ["Bearer None"], and the
    run goes on to request the categories with them.  The run stops
    before any catalog or detail request, and without records, when the
    token request itself yields no JSON (transport failure, 4xx/5xx
    status, body that is not JSON). *)
Theorem missing_token_field_does_not_abort :
  forall (X : externals) (id : string) (w : world) (reply : dict),
    let r := post_request token_url token_headers token_payload in
    fetched_json (server X (sent w) r) = Some (PDict reply) ->
    Dict.lookup "bearer_token" reply = None ->
    get_bdo_bearer_header X id w = (Ok (bearer_headers PNone), with_request w r)
    /\ In ("Authorization", "Bearer None") (bearer_headers PNone)
    /\ (exists rest,
           sent (snd (scrape_bdo X id w))
           = sent w ++ [r; get_request categories_url (bearer_headers PNone)] ++ rest)
    /\ (forall w0,
           fetched_json (server X (sent w0) r) = None ->
           (exists e, fst (scrape_bdo X id w0) = Raise e)
           /\ sent (snd (scrape_bdo X id w0)) = sent w0 ++ [r]).
Proof.
  intros X id w reply r Hjson Habsent.
  assert (Hhdr : get_bdo_bearer_header X id w
                 = (Ok (bearer_headers PNone), with_request w r)).
  { rewrite get_bdo_bearer_header_run, fetch_json_post_run by reflexivity. cbv zeta.
    fold r. rewrite (fetched_json_no_failure _ _ Hjson), Hjson.
    unfold Dict.get. rewrite Habsent. reflexivity. }
  split; [exact Hhdr |].
  split; [simpl; auto |].
  split.
  - unfold scrape_bdo. unfold bind at 1. rewrite Hhdr.
    assert (Hstart : starts_with (get_request categories_url (bearer_headers PNone))
      (items <- get_bdo_promo_items X id (bearer_headers PNone) ;;
       (let (campaigns, rewards) := items in
        campaign_data <- get_bdo_campaign_details X id (bearer_headers PNone) campaigns ;;
        reward_data <- get_bdo_reward_details X id (bearer_headers PNone) rewards ;;
        campaign_promos <- lift (parse_bdo_campaign_output X campaign_data id) ;;
        reward_promos <- lift (parse_bdo_reward_output X reward_data id) ;;
        ret (campaign_promos ++ reward_promos)))).
    { apply starts_with_bind; [apply starts_with_get_bdo_promo_items |].
      intros items. grows_auto. }
    destruct (Hstart (with_request w r)) as (s & l & Hs & _).
    exists s. rewrite Hs. simpl. rewrite <- !app_assoc. reflexivity.
  - intros w0 Hnone.
    assert (Hrun : exists e w', scrape_bdo X id w0 = (Raise e, w')
                                /\ sent w' = sent w0 ++ [r]).
    { unfold scrape_bdo. unfold bind at 1.
      rewrite get_bdo_bearer_header_run, fetch_json_post_run by reflexivity. cbv zeta.
      fold r. rewrite Hnone.
      destruct (transport_failure (server X (sent w0) r));
        eexists; eexists; split; reflexivity. }
    destruct Hrun as (e & w' & -> & Hsent). simpl. eauto.
Qed.

Lemma missing_token_field_does_not_abort_witness :
  get_bdo_bearer_header Demo.bdo_no_token "run-1" empty_world
  = (Ok (bearer_headers PNone),
     with_request empty_world (post_request token_url token_headers token_payload)).
Proof.
  apply (missing_token_field_does_not_abort
           Demo.bdo_no_token "run-1" empty_world [("token_type", PStr "bearer")]);
    reflexivity.
Defined.

(** C5 as stated fails: the token reply lacks ['bearer_token'], yet
    token acquisition returns headers, the categories, the catalog and
    the details are requested, and two records are produced. *)
Lemma run_continues_without_token_field :
  fetched_json (server Demo.bdo_no_token []
                       (post_request token_url token_headers token_payload))
    = Some (PDict [("token_type", PStr "bearer")])
  /\ fst (get_bdo_bearer_header Demo.bdo_no_token "run-1" empty_world)
     = Ok (bearer_headers PNone)
  /\ map url (sent (snd (scrape_bdo Demo.bdo_no_token "run-1" empty_world)))
     = [token_url; categories_url;
        items_url 1 (PInt 7); items_url 1 (PInt 7);
        campaign_url (PInt 11); campaign_url (PInt 12); reward_url (PInt 22)]
  /\ match fst (scrape_bdo Demo.bdo_no_token "run-1" empty_world) with
     | Ok promos => List.length promos = 2
     | Raise _ => False
     end.
Proof. repeat split; vm_compute; reflexivity. Qed.

(** ** Item discovery *)




(** ** Reading a run backwards *)

Lemma bind_ok {A B} (m : M A) (k : A -> M B) w b w' :
  bind m k w = (Ok b, w') ->
  exists a w1, m w = (Ok a, w1) /\ k a w1 = (Ok b, w').
Proof.
  unfold bind. destruct (m w) as [[a | e] w1]; [eauto | discriminate].
Qed.

Lemma try_ok {A} (m : M A) (h : exn -> M A) w a w' :
  try_except m h w = (Ok a, w') ->
  m w = (Ok a, w') \/ exists e w1, m w = (Raise e, w1) /\ h e w1 = (Ok a, w').
Proof.
  unfold try_except. destruct (m w) as [[a0 | e] w1]; eauto.
Qed.

Lemma lift_ok {A} (r : result A) w a w' : lift r w = (Ok a, w') -> r = Ok a.
Proof. unfold lift. congruence. Qed.

Lemma ret_ok {A} (a0 : A) w a w' : ret a0 w = (Ok a, w') -> a = a0.
Proof. unfold ret. congruence. Qed.

Lemma rbind_ok {A B} (r : result A) (k : A -> result B) b :
  rbind r k = Ok b -> exists a, r = Ok a /\ k a = Ok b.
Proof. destruct r as [a | e]; simpl; [eauto | discriminate]. Qed.

Lemma for_each_invariant {A S} (P : S -> Prop) (body : A -> S -> M S) :
  (forall x acc w acc' w', P acc -> body x acc w = (Ok acc', w') -> P acc') ->
  forall xs acc w acc' w',
    P acc -> for_each xs body acc w = (Ok acc', w') -> P acc'.
Proof.
  intros Hbody.
  induction xs as [| x xs IH]; intros acc w acc' w' Hacc H; simpl in H.
  - apply ret_ok in H. subst. exact Hacc.
  - apply bind_ok in H. destruct H as (acc1 & w1 & H1 & H2).
    eapply IH; [| exact H2].
    eapply Hbody; eassumption.
Qed.

Lemma comprehension_Forall {A B} (f : A -> result (option B)) (P : B -> Prop) :
  (forall x y, f x = Ok (Some y) -> P y) ->
  forall xs ys, comprehension f xs = Ok ys -> Forall P ys.
Proof.
  intros Hf.
  induction xs as [| x xs IH]; intros ys H; simpl in H.
  - injection H as <-. constructor.
  - apply rbind_ok in H. destruct H as (o & Ho & H).
    apply rbind_ok in H. destruct H as (ys' & Hys & H).
    injection H as <-.
    destruct o as [y |]; [constructor |]; eauto.
Qed.

(** ** The run identifier *)

Lemma BankPromo_init_id (X : externals) id bank u c day p :
  BankPromo_init X id bank u c day = Ok p -> has_id id p.
Proof.
  unfold BankPromo_init, has_id.
  destruct u; try discriminate.
  destruct c; try discriminate.
  destruct (http_url_ok X s); [| discriminate].
  intros H. injection H as <-. reflexivity.
Qed.

Lemma ew_turn_id (X : externals) id u promos w promos' w' :
  Forall (has_id id) promos ->
  ew_turn X id u promos w = (Ok promos', w') ->
  Forall (has_id id) promos'.
Proof.
  intros Hall H. unfold ew_turn in H.
  apply try_ok in H. destruct H as [H | (e & w1 & _ & H)].
  - apply bind_ok in H. destruct H as (html & w1 & _ & H).
    apply bind_ok in H. destruct H as (txt & w2 & _ & H).
    apply bind_ok in H. destruct H as (p & w3 & Hp & H).
    apply lift_ok in Hp. apply ret_ok in H. subst promos'.
    apply Forall_app. split; [exact Hall |].
    constructor; [| constructor]. eapply BankPromo_init_id; eassumption.
  - apply bind_ok in H. destruct H as (? & w2 & _ & H).
    apply ret_ok in H. subst. exact Hall.
Qed.

Lemma chinabank_link_id (X : externals) id u promos w promos' w' :
  Forall (has_id id) promos ->
  chinabank_link X id u promos w = (Ok promos', w') ->
  Forall (has_id id) promos'.
Proof.
  intros Hall H. unfold chinabank_link in H.
  apply try_ok in H. destruct H as [H | (e & w1 & _ & H)].
  - apply bind_ok in H. destruct H as (html & w1 & _ & H).
    apply bind_ok in H. destruct H as (txt & w2 & _ & H).
    apply bind_ok in H. destruct H as (p & w3 & Hp & H).
    apply lift_ok in Hp. apply ret_ok in H. subst promos'.
    apply Forall_app. split; [exact Hall |].
    constructor; [| constructor]. eapply BankPromo_init_id; eassumption.
  - apply bind_ok in H. destruct H as (? & w2 & _ & H).
    apply ret_ok in H. subst. exact Hall.
Qed.

Lemma chinabank_category_id (X : externals) id u promos w promos' w' :
  Forall (has_id id) promos ->
  chinabank_category X id u promos w = (Ok promos', w') ->
  Forall (has_id id) promos'.
Proof.
  intros Hall H. unfold chinabank_category in H.
  apply try_ok in H. destruct H as [H | (e & w1 & _ & H)].
  - apply bind_ok in H. destruct H as (html & w1 & _ & H).
    apply bind_ok in H. destruct H as (hrefs & w2 & _ & H).
    eapply for_each_invariant; [| exact Hall | exact H].
    intros x acc w0 acc' w0' Hacc Hx. eapply chinabank_link_id; eassumption.
  - apply bind_ok in H. destruct H as (? & w2 & _ & H).
    apply ret_ok in H. subst. exact Hall.
Qed.

Lemma bpi_turn_id (X : externals) id u vars w vars' w' :
  bpi_vars_id id vars ->
  bpi_turn X id u vars w = (Ok vars', w') ->
  bpi_vars_id id vars'.
Proof.
  destruct vars as [promos promo]. intros [Hall Hvar] H.
  rewrite bpi_turn_run in H.
  destruct (bpi_try X id u promos w) as [[vars1 | e] w1] eqn:Htry.
  - destruct (bpi_try_binds X id u promos w _ _ Htry) as [p ->].
    injection H as <- _.
    assert (Hp : has_id id p).
    { unfold bpi_try in Htry.
      apply bind_ok in Htry. destruct Htry as (html & w2 & _ & Htry).
      apply bind_ok in Htry. destruct Htry as (txt & w3 & _ & Htry).
      apply bind_ok in Htry. destruct Htry as (p' & w4 & Hp & Htry).
      apply lift_ok in Hp. apply ret_ok in Htry.
      injection Htry as Heq _. apply app_inj_tail in Heq. destruct Heq as [_ ->].
      eapply BankPromo_init_id; eassumption. }
    split; simpl.
    + rewrite !Forall_app. repeat split; auto.
    + intros p0 H0. injection H0 as <-. exact Hp.
  - cbv zeta in H. destruct promo as [p |]; [| discriminate].
    injection H as <- _. simpl in Hvar.
    split; simpl.
    + apply Forall_app. split; [exact Hall |]. constructor; auto.
    + intros p0 H0. injection H0 as <-. auto.
Qed.

(** C2.  Every record in the list an orchestrator returns carries the
    run identifier generated for that invocation. *)
Theorem every_record_carries_the_run_id :
  forall (X : externals) (id : string) (w : world)
         (promos : list BankPromo) (w' : world),
    scrape_bdo X id w = (Ok promos, w')
    \/ scrape_bpi X id w = (Ok promos, w')
    \/ scrape_chinabank X id w = (Ok promos, w')
    \/ scrape_ew X id w = (Ok promos, w') ->
    Forall (fun p => scrape_id p = id) promos.
Proof.
  intros X id w promos w' [H | [H | [H | H]]]; change (Forall (has_id id) promos).
  - unfold scrape_bdo in H.
    apply bind_ok in H. destruct H as (hdrs & w1 & _ & H).
    apply bind_ok in H. destruct H as ([campaigns rewards] & w2 & _ & H).
    apply bind_ok in H. destruct H as (cdata & w3 & _ & H).
    apply bind_ok in H. destruct H as (rdata & w4 & _ & H).
    apply bind_ok in H. destruct H as (cpromos & w5 & Hc & H).
    apply bind_ok in H. destruct H as (rpromos & w6 & Hr & H).
    apply lift_ok in Hc, Hr. apply ret_ok in H. subst promos.
    apply Forall_app. split.
    + eapply comprehension_Forall; [| exact Hc].
      intros entry p Hp. apply rbind_ok in Hp. destruct Hp as (p' & Hp' & Hp).
      injection Hp as <-.
      unfold parse_bdo_campaign_entry in Hp'.
      apply rbind_ok in Hp'. destruct Hp' as (? & _ & Hp').
      apply rbind_ok in Hp'. destruct Hp' as (? & _ & Hp').
      apply rbind_ok in Hp'. destruct Hp' as (? & _ & Hp').
      eapply BankPromo_init_id; eassumption.
    + eapply comprehension_Forall; [| exact Hr].
      intros entry p Hp. apply rbind_ok in Hp. destruct Hp as (p' & Hp' & Hp).
      injection Hp as <-.
      unfold parse_bdo_reward_entry in Hp'.
      apply rbind_ok in Hp'. destruct Hp' as (? & _ & Hp').
      apply rbind_ok in Hp'. destruct Hp' as (? & _ & Hp').
      apply rbind_ok in Hp'. destruct Hp' as (? & _ & Hp').
      eapply BankPromo_init_id; eassumption.
  - unfold scrape_bpi in H.
    apply bind_ok in H. destruct H as (urls & w1 & _ & H).
    apply bind_ok in H. destruct H as (promo_urls & w2 & _ & H).
    apply bind_ok in H. destruct H as (vars & w3 & Hloop & H).
    apply ret_ok in H. subst promos.
    apply (for_each_invariant (bpi_vars_id id) (bpi_turn X id)) in Hloop.
    + apply Hloop.
    + intros x acc w0 acc' w0' Hacc Hx. eapply bpi_turn_id; eassumption.
    + split; [constructor | discriminate].
  - unfold scrape_chinabank in H.
    eapply for_each_invariant; [| constructor | exact H].
    intros x acc w0 acc' w0' Hacc Hx. eapply chinabank_category_id; eassumption.
  - unfold scrape_ew in H.
    apply bind_ok in H. destruct H as (urls & w1 & _ & H).
    apply bind_ok in H. destruct H as (filtered & w2 & _ & H).
    eapply for_each_invariant; [| constructor | exact H].
    intros x acc w0 acc' w0' Hacc Hx. eapply ew_turn_id; eassumption.
Qed.

Lemma every_record_carries_the_run_id_witness :
  Forall (fun p => scrape_id p = "run-1")
         [{| scrape_id := "run-1"; bank_name := "bdo";
             promo_url := rewards_page (PInt 11);
             promo_content :=
               PyStr.join PyStr.blank_line
                 ["Dine deal"; "Save 10%"; "On weekends"; "Use your card"; "Terms apply"];
             scrape_date := "2025-06-30" |};
          {| scrape_id := "run-1"; bank_name := "bdo";
             promo_url := rewards_page (PInt 22);
             promo_content :=
               PyStr.join PyStr.blank_line
                 ["Gift"; "A free gift"; ("How" ++ PyStr.nl ++ "Spend 5000")%string; "When"];
             scrape_date := "2025-06-30" |}].
Proof.
  apply (every_record_carries_the_run_id
           Demo.bdo "run-1" empty_world _
           (snd (scrape_bdo Demo.bdo "run-1" empty_world))).
  left. vm_compute. reflexivity.
Defined.

(** ** Loops that skip a failed item *)

Lemma skip_loop {A B} (body : A -> list B -> M (list B)) (ok : A -> bool)
      (entry : A -> log_entry) (items : list A) :
  (forall x, In x items ->
     forall acc w,
       exists w',
         extends w w'
         /\ if ok x
            then exists b, body x acc w = (Ok (acc ++ [b]), w')
            else body x acc w = (Ok acc, w') /\ In (entry x) (logged w')) ->
  forall acc w,
    exists out w',
      for_each items body acc w = (Ok out, w')
      /\ extends w w'
      /\ List.length out = List.length acc + List.length (filter ok items)
      /\ (forall x, In x items -> ok x = false -> In (entry x) (logged w')).
Proof.
  induction items as [| x items IH]; intros Hbody acc w.
  - exists acc, w. simpl. repeat split; [apply extends_refl | lia | contradiction].
  - destruct (Hbody x (or_introl eq_refl) acc w) as (w1 & Hext1 & Hx).
    assert (Hrest : forall y, In y items ->
              forall acc w, exists w',
                extends w w'
                /\ if ok y
                   then exists b, body y acc w = (Ok (acc ++ [b]), w')
                   else body y acc w = (Ok acc, w') /\ In (entry y) (logged w')).
    { intros y Hy. apply Hbody. right. exact Hy. }
    cbn [for_each filter]. unfold bind.
    destruct (ok x) eqn:Hok.
    + destruct Hx as (b & Hx). rewrite Hx.
      destruct (IH Hrest (acc ++ [b]) w1) as (out & w' & Hrun & Hext & Hlen & Hlog).
      exists out, w'. split; [exact Hrun |].
      split; [eapply extends_trans; eassumption |].
      split; [rewrite Hlen, length_app; simpl; lia |].
      intros y [<- | Hy] Hf; [congruence | auto].
    + destruct Hx as (Hx & Hin). rewrite Hx.
      destruct (IH Hrest acc w1) as (out & w' & Hrun & Hext & Hlen & Hlog).
      exists out, w'. split; [exact Hrun |].
      split; [eapply extends_trans; eassumption |].
      split; [exact Hlen |].
      intros y [<- | Hy] Hf; [eapply extends_logged; eassumption | auto].
Qed.

Lemma fetch_campaign_run (X : externals) uid hdrs item acc w :
  fetch_campaign X uid hdrs item acc w =
  match fetch_json_get X (campaign_url (snd item)) hdrs uid w with
  | (Ok data, w1) =>
      match campaign_output (snd item) data with
      | Ok d => (Ok (acc ++ [d]), w1)
      | Raise e => (Raise e, w1)
      end
  | (Raise _, w1) => (Ok acc, with_log w1 ERROR (message (campaign_failure_log uid item)))
  end.
Proof.
  unfold fetch_campaign, try_except, bind.
  destruct (fetch_json_get X (campaign_url (snd item)) hdrs uid w) as [[data | e] w1];
    run; [| reflexivity].
  destruct (campaign_output (snd item) data); reflexivity.
Qed.

Lemma fetch_reward_run (X : externals) uid hdrs item acc w :
  fetch_reward X uid hdrs item acc w =
  match fetch_json_get X (reward_url (snd item)) hdrs uid w with
  | (Ok data, w1) =>
      match reward_output data with
      | Ok d => (Ok (acc ++ [d]), w1)
      | Raise e => (Raise e, w1)
      end
  | (Raise _, w1) => (Ok acc, with_log w1 ERROR (message (reward_failure_log uid item)))
  end.
Proof.
  unfold fetch_reward, try_except, bind.
  destruct (fetch_json_get X (reward_url (snd item)) hdrs uid w) as [[data | e] w1];
    run; [| reflexivity].
  destruct (reward_output data); reflexivity.
Qed.

Lemma extends_with_request w r : extends w (with_request w r).
Proof. exists [r], []. simpl. rewrite app_nil_r. auto. Qed.

Lemma in_logged_with_log w lvl msg :
  In {| level := lvl; message := msg |} (logged (with_log w lvl msg)).
Proof. simpl. apply in_or_app. right. left. reflexivity. Qed.

Lemma fetch_campaign_turn (X : externals) uid hdrs item (ok : bool) :
  campaign_fetch X hdrs item ok ->
  forall acc w,
    exists w',
      extends w w'
      /\ if ok
         then exists d, fetch_campaign X uid hdrs item acc w = (Ok (acc ++ [d]), w')
         else fetch_campaign X uid hdrs item acc w = (Ok acc, w')
              /\ In (campaign_failure_log uid item) (logged w').
Proof.
  intros Hfetch acc w. specialize (Hfetch (sent w)). cbv zeta in Hfetch.
  rewrite fetch_campaign_run, fetch_json_get_run by reflexivity. cbv zeta.
  destruct ok.
  - destruct Hfetch as (data & d & Hjson & Hout).
    rewrite (fetched_json_no_failure _ _ Hjson), Hjson, Hout.
    eexists. split; [apply extends_with_request | exists d; reflexivity].
  - rewrite Hfetch.
    destruct (transport_failure _);
      (eexists; split; [| split; [reflexivity | apply in_logged_with_log]]);
      (eapply extends_trans; [apply extends_with_request |]);
      (eapply extends_trans; apply extends_with_log).
Qed.

Lemma fetch_reward_turn (X : externals) uid hdrs item (ok : bool) :
  reward_fetch X hdrs item ok ->
  forall acc w,
    exists w',
      extends w w'
      /\ if ok
         then exists d, fetch_reward X uid hdrs item acc w = (Ok (acc ++ [d]), w')
         else fetch_reward X uid hdrs item acc w = (Ok acc, w')
              /\ In (reward_failure_log uid item) (logged w').
Proof.
  intros Hfetch acc w. specialize (Hfetch (sent w)). cbv zeta in Hfetch.
  rewrite fetch_reward_run, fetch_json_get_run by reflexivity. cbv zeta.
  destruct ok.
  - destruct Hfetch as (data & d & Hjson & Hout).
    rewrite (fetched_json_no_failure _ _ Hjson), Hjson, Hout.
    eexists. split; [apply extends_with_request | exists d; reflexivity].
  - rewrite Hfetch.
    destruct (transport_failure _);
      (eexists; split; [| split; [reflexivity | apply in_logged_with_log]]);
      (eapply extends_trans; [apply extends_with_request |]);
      (eapply extends_trans; apply extends_with_log).
Qed.

Lemma comprehension_all_length {A B} (f : A -> result B) (xs : list A) (ys : list B) :
  comprehension (fun x => y <~ f x ;; Ok (Some y)) xs = Ok ys ->
  List.length ys = List.length xs.
Proof.
  revert ys.
  induction xs as [| x xs IH]; intros ys H; simpl in H.
  - injection H as <-. reflexivity.
  - apply rbind_ok in H. destruct H as (o & Ho & H).
    apply rbind_ok in H. destruct H as (ys' & Hys & H).
    apply rbind_ok in Ho. destruct Ho as (y & _ & Ho).
    injection Ho as <-. injection H as <-.
    simpl. rewrite (IH ys' Hys). reflexivity.
Qed.

Lemma ew_turn_returns (X : externals) id u promos w :
  exists promos' w',
    ew_turn X id u promos w = (Ok promos', w') /\ same_or_one_more promos promos'.
Proof.
  unfold ew_turn, try_except.
  match goal with |- context [match ?m w with _ => _ end] =>
    destruct (m w) as [[promos1 | e] w1] eqn:Hbody end.
  - exists promos1, w1. split; [reflexivity |]. right.
    apply bind_ok in Hbody. destruct Hbody as (html & w2 & _ & H).
    apply bind_ok in H. destruct H as (txt & w3 & _ & H).
    apply bind_ok in H. destruct H as (p & w4 & _ & H).
    apply ret_ok in H. eauto.
  - run. eexists. eexists. split; [reflexivity | left; reflexivity].
Qed.

Lemma chinabank_link_returns (X : externals) id u promos w :
  exists promos' w',
    chinabank_link X id u promos w = (Ok promos', w') /\ same_or_one_more promos promos'.
Proof.
  unfold chinabank_link, try_except.
  match goal with |- context [match ?m w with _ => _ end] =>
    destruct (m w) as [[promos1 | e] w1] eqn:Hbody end.
  - exists promos1, w1. split; [reflexivity |]. right.
    apply bind_ok in Hbody. destruct Hbody as (html & w2 & _ & H).
    apply bind_ok in H. destruct H as (txt & w3 & _ & H).
    apply bind_ok in H. destruct H as (p & w4 & _ & H).
    apply ret_ok in H. eauto.
  - run. eexists. eexists. split; [reflexivity | left; reflexivity].
Qed.

Lemma chinabank_category_returns (X : externals) id u promos w :
  exists promos' w' more,
    chinabank_category X id u promos w = (Ok promos', w') /\ promos' = promos ++ more.
Proof.
  unfold chinabank_category, try_except.
  match goal with |- context [match ?m w with _ => _ end] =>
    destruct (m w) as [[promos1 | e] w1] eqn:Hbody end.
  - apply bind_ok in Hbody. destruct Hbody as (html & w2 & _ & H).
    apply bind_ok in H. destruct H as (hrefs & w3 & _ & H).
    apply (for_each_invariant (fun acc => exists more, acc = promos ++ more)
                              (chinabank_link X id)) in H.
    + destruct H as (more & ->). exists (promos ++ more), w1, more. auto.
    + intros x acc w0 acc' w0' (more & ->) Hx.
      destruct (chinabank_link_returns X id x (promos ++ more) w0)
        as (acc1 & w1' & Hrun & Hsame).
      rewrite Hrun in Hx. injection Hx as <- _.
      destruct Hsame as [-> | (p & ->)].
      * exists more. reflexivity.
      * exists (more ++ [p]). rewrite app_assoc. reflexivity.
    + exists []. rewrite app_nil_r. reflexivity.
  - run. exists promos. eexists. exists []. rewrite app_nil_r. auto.
Qed.

(** ** Requests of a given kind *)

Lemma adds_ret {A} (P : request -> Prop) (a : A) : adds P (ret a).
Proof. intros w. exists [], []. simpl. rewrite !app_nil_r. auto. Qed.

Lemma adds_raise {A} (P : request -> Prop) (e : exn) : adds P (@raise A e).
Proof. intros w. exists [], []. simpl. rewrite !app_nil_r. auto. Qed.

Lemma adds_lift {A} (P : request -> Prop) (r : result A) : adds P (lift r).
Proof. intros w. exists [], []. simpl. rewrite !app_nil_r. auto. Qed.

Lemma adds_log (P : request -> Prop) lvl msg : adds P (log lvl msg).
Proof.
  intros w. exists [], [{| level := lvl; message := msg |}]. simpl.
  rewrite app_nil_r. auto.
Qed.

Lemma adds_send (X : externals) (P : request -> Prop) r : P r -> adds P (send X r).
Proof.
  intros Hr w. unfold send.
  destruct (sendable (url r)).
  - destruct (server X (sent w) r); exists [r], []; simpl; rewrite app_nil_r; auto.
  - exists [], []. simpl. rewrite !app_nil_r. auto.
Qed.

Lemma adds_bind {A B} (P : request -> Prop) (m : M A) (k : A -> M B) :
  adds P m -> (forall a, adds P (k a)) -> adds P (bind m k).
Proof.
  intros Hm Hk w. unfold bind.
  destruct (Hm w) as (s1 & l1 & Hs1 & HP1 & Hl1).
  destruct (m w) as [[a | e] w1]; simpl in *; [| eauto].
  destruct (Hk a w1) as (s2 & l2 & Hs2 & HP2 & Hl2).
  exists (s1 ++ s2), (l1 ++ l2).
  rewrite Hs2, Hl2, Hs1, Hl1, !app_assoc.
  repeat split. apply Forall_app. auto.
Qed.

Lemma adds_try {A} (P : request -> Prop) (m : M A) (h : exn -> M A) :
  adds P m -> (forall e, adds P (h e)) -> adds P (try_except m h).
Proof.
  intros Hm Hh w. unfold try_except.
  destruct (Hm w) as (s1 & l1 & Hs1 & HP1 & Hl1).
  destruct (m w) as [[a | e] w1]; simpl in *; [eauto |].
  destruct (Hh e w1) as (s2 & l2 & Hs2 & HP2 & Hl2).
  exists (s1 ++ s2), (l1 ++ l2).
  rewrite Hs2, Hl2, Hs1, Hl1, !app_assoc.
  repeat split. apply Forall_app. auto.
Qed.

Lemma adds_for_each {A S} (P : request -> Prop) (body : A -> S -> M S) (xs : list A) :
  (forall x acc, adds P (body x acc)) -> forall acc, adds P (for_each xs body acc).
Proof.
  intros Hbody.
  induction xs as [| x xs IH]; intros acc; simpl.
  - apply adds_ret.
  - apply adds_bind; [apply Hbody | intros; apply IH].
Qed.

Lemma adds_fetch_json_get (X : externals) (P : request -> Prop) u hdrs uid :
  P (get_request u hdrs) -> adds P (fetch_json_get X u hdrs uid).
Proof.
  intros HP. unfold fetch_json_get, requests_get, raise_for_status.
  apply adds_bind.
  - apply adds_try.
    + apply adds_bind; [apply adds_send; exact HP |].
      intros resp. apply adds_bind; [| intros; apply adds_ret].
      destruct (_ && _); [apply adds_raise | apply adds_ret].
    + intros e. destruct e; try apply adds_raise.
      apply adds_bind; [apply adds_log | intros; apply adds_raise].
  - intros resp. destruct (json resp); [apply adds_ret |].
    apply adds_bind; [apply adds_log | intros; apply adds_raise].
Qed.

(** ** A failed catalog request ends the run *)

Lemma ends_of_adds (X : externals) {A} (P Q : request -> Prop) (m : M A) :
  adds Q m -> (forall r, Q r -> ~ P r) -> ends_on_failure X P m.
Proof.
  intros Hadds Hnot w h r rest cause Hsent HP _.
  destruct (Hadds w) as (s & l & Hs & HQ & _).
  rewrite Hs in Hsent. apply app_inv_head in Hsent. subst s.
  rewrite Forall_forall in HQ.
  exfalso. apply (Hnot r); [| exact HP].
  apply HQ. apply in_or_app. right. left. reflexivity.
Qed.

Lemma trace_split {T} (s1 s2 h rest : list T) (r : T) :
  s1 ++ s2 = h ++ r :: rest ->
  (exists rest1, s1 = h ++ r :: rest1 /\ rest = rest1 ++ s2)
  \/ (exists h2, h = s1 ++ h2 /\ s2 = h2 ++ r :: rest).
Proof.
  intros H. apply app_eq_app in H. destruct H as (l & [[H1 H2] | [H1 H2]]).
  - destruct l as [| x l].
    + right. exists []. rewrite app_nil_r in H1 |- *. simpl in H2. auto.
    + left. simpl in H2. injection H2 as <- ->. eauto.
  - right. eauto.
Qed.

Lemma ends_bind (X : externals) {A B} (P : request -> Prop) (m : M A) (k : A -> M B) :
  grows m -> ends_on_failure X P m ->
  (forall a, grows (k a)) -> (forall a, ends_on_failure X P (k a)) ->
  ends_on_failure X P (bind m k).
Proof.
  intros Hgm Hm Hgk Hk w h r rest cause Hsent HP Hfail.
  unfold bind in Hsent |- *.
  destruct (Hgm w) as (s1 & l1 & Hs1 & _).
  destruct (m w) as [[a | e] w1] eqn:Hmw; simpl in Hs1.
  - destruct (Hgk a w1) as (s2 & l2 & Hs2 & _).
    assert (Hall : s1 ++ s2 = h ++ r :: rest).
    { apply (app_inv_head (sent w)). rewrite <- Hsent, Hs2, Hs1, app_assoc.
      reflexivity. }
    apply trace_split in Hall. destruct Hall as [(rest1 & H1 & _) | (h2 & H1 & H2)].
    + exfalso.
      destruct (Hm w h r rest1 cause) as [_ Hraise]; try assumption.
      * rewrite Hmw. simpl. rewrite Hs1, H1. reflexivity.
      * rewrite Hmw in Hraise. discriminate.
    + apply (Hk a w1 h2 r rest cause); [| exact HP |].
      * rewrite Hs2, H2. reflexivity.
      * rewrite Hs1, <- app_assoc, <- H1. exact Hfail.
  - specialize (Hm w h r rest cause). rewrite Hmw in Hm.
    destruct Hm as [Hrest Hraise]; try assumption.
    simpl in Hraise |- *. split; [exact Hrest | congruence].
Qed.

Lemma ends_silent (X : externals) {A} (P : request -> Prop) (m : M A) :
  (forall w, sent (snd (m w)) = sent w) -> ends_on_failure X P m.
Proof.
  intros Hm w h r rest cause Hsent _ _.
  rewrite Hm in Hsent. exfalso.
  apply (f_equal (@List.length _)) in Hsent.
  rewrite !length_app in Hsent. simpl in Hsent. lia.
Qed.

Lemma ends_for_each (X : externals) {A S} (P : request -> Prop)
      (body : A -> S -> M S) (xs : list A) :
  (forall x acc, grows (body x acc)) ->
  (forall x acc, ends_on_failure X P (body x acc)) ->
  forall acc, ends_on_failure X P (for_each xs body acc).
Proof.
  intros Hg Hbody.
  induction xs as [| x xs IH]; intros acc; simpl.
  - apply ends_silent. reflexivity.
  - apply ends_bind; auto. intros a. apply grows_for_each. exact Hg.
Qed.

(** A failed JSON fetch raises, whatever the request. *)
Lemma ends_fetch_json_get (X : externals) (P : request -> Prop) u hdrs uid :
  sendable u = true -> ends_on_failure X P (fetch_json_get X u hdrs uid).
Proof.
  intros Hsend w h r rest cause Hsent _ Hfail.
  rewrite fetch_json_get_run in Hsent |- * by exact Hsend. cbv zeta in Hsent |- *.
  assert (Hone : sent w ++ [get_request u hdrs] = sent w ++ h ++ r :: rest).
  { rewrite <- Hsent.
    destruct (transport_failure _); [reflexivity |].
    destruct (fetched_json _); reflexivity. }
  apply app_inv_head in Hone.
  destruct h as [| x h]; simpl in Hone.
  - injection Hone as <- <-. rewrite app_nil_r in Hfail. rewrite Hfail. auto.
  - injection Hone as _ Hone. destruct h; discriminate.
Qed.

Lemma ends_fetch_json_post (X : externals) (P : request -> Prop) u hdrs body uid :
  sendable u = true -> ends_on_failure X P (fetch_json_post X u hdrs body uid).
Proof.
  intros Hsend w h r rest cause Hsent _ Hfail.
  rewrite fetch_json_post_run in Hsent |- * by exact Hsend. cbv zeta in Hsent |- *.
  assert (Hone : sent w ++ [post_request u hdrs body] = sent w ++ h ++ r :: rest).
  { rewrite <- Hsent.
    destruct (transport_failure _); [reflexivity |].
    destruct (fetched_json _); reflexivity. }
  apply app_inv_head in Hone.
  destruct h as [| x h]; simpl in Hone.
  - injection Hone as <- <-. rewrite app_nil_r in Hfail. rewrite Hfail. auto.
  - injection Hone as _ Hone. destruct h; discriminate.
Qed.

Lemma ends_get_bdo_promo_items (X : externals) (P : request -> Prop) uid hdrs :
  ends_on_failure X P (get_bdo_promo_items X uid hdrs).
Proof.
  unfold get_bdo_promo_items.
  apply ends_bind.
  - unfold get_bdo_promo_categories. grows_auto.
  - unfold get_bdo_promo_categories.
    apply ends_bind; [grows_auto | apply ends_fetch_json_get; reflexivity | |].
    + intros data. grows_auto.
    + intros data.
      apply ends_bind; [grows_auto | apply ends_silent; reflexivity | |].
      * intros ids. grows_auto.
      * intros ids. destruct ids; apply ends_silent; reflexivity.
  - intros categories. grows_auto.
  - intros categories.
    apply ends_bind; [grows_auto | apply ends_silent; reflexivity | |].
    + intros ids. grows_auto.
    + intros ids.
      apply ends_bind; [grows_auto | | intros; grows_auto
                        | intros; apply ends_silent; reflexivity].
      apply ends_for_each; [intros; grows_auto |].
      intros c all. unfold fetch_category_items.
      apply ends_bind; [grows_auto | apply ends_fetch_json_get; reflexivity | |].
      * intros data. unfold fetch_items_page. grows_auto.
      * intros data.
        destruct (total_pages data) as [pages | e].
        -- apply ends_bind; [grows_auto | apply ends_silent; reflexivity | |].
           ++ intros nums. unfold fetch_items_page. grows_auto.
           ++ intros nums.
              apply ends_for_each; [intros; unfold fetch_items_page; grows_auto |].
              intros p acc. unfold fetch_items_page.
              apply ends_bind;
                [grows_auto | apply ends_fetch_json_get; reflexivity | |].
              ** intros page. grows_auto.
              ** intros page.
                 apply ends_bind; [grows_auto | apply ends_silent; reflexivity | |].
                 --- intros items. grows_auto.
                 --- intros items. apply ends_silent. reflexivity.
        -- destruct (is_Key_Type_Value_error e); apply ends_silent; reflexivity.
Qed.

Lemma detail_request_is_no_catalog_request (u : string) (hdrs : list (string * string)) :
  (exists id, u = campaign_url id \/ u = reward_url id) ->
  ~ catalog_request (get_request u hdrs).
Proof.
  intros (id & Hu) (p & c & hdrs' & H).
  unfold get_request in H. injection H as H _.
  destruct Hu as [-> | ->];
    unfold campaign_url, reward_url, items_url in H; simpl in H; discriminate.
Qed.

Lemma ends_details (X : externals) uid hdrs campaigns rewards :
  ends_on_failure X catalog_request
    (campaign_data <- get_bdo_campaign_details X uid hdrs campaigns ;;
     reward_data <- get_bdo_reward_details X uid hdrs rewards ;;
     campaign_promos <- lift (parse_bdo_campaign_output X campaign_data uid) ;;
     reward_promos <- lift (parse_bdo_reward_output X reward_data uid) ;;
     ret (campaign_promos ++ reward_promos)).
Proof.
  apply (ends_of_adds X catalog_request (fun r => ~ catalog_request r));
    [| auto].
  unfold get_bdo_campaign_details, get_bdo_reward_details, fetch_campaign, fetch_reward.
  repeat first
    [ apply adds_fetch_json_get; apply detail_request_is_no_catalog_request; eauto
    | apply adds_ret | apply adds_raise | apply adds_lift | apply adds_log
    | apply adds_bind; [| intros ?]
    | apply adds_try; [| intros ?]
    | apply adds_for_each; intros ? ?
    | match goal with
      | |- adds _ (match ?x with _ => _ end) => destruct x
      end ].
Qed.

Lemma ends_scrape_bdo (X : externals) id :
  ends_on_failure X catalog_request (scrape_bdo X id).
Proof.
  unfold scrape_bdo.
  apply ends_bind.
  - unfold get_bdo_bearer_header. grows_auto.
  - unfold get_bdo_bearer_header.
    apply ends_bind; [grows_auto | apply ends_fetch_json_post; reflexivity | |].
    + intros reply. grows_auto.
    + intros reply.
      apply ends_bind; [grows_auto | apply ends_silent; reflexivity | |].
      * intros token. grows_auto.
      * intros token. apply ends_silent. reflexivity.
  - intros hdrs. grows_auto.
  - intros hdrs.
    apply ends_bind.
    + unfold get_bdo_promo_items, get_bdo_promo_categories. grows_auto.
    + apply ends_get_bdo_promo_items.
    + intros [campaigns rewards]. grows_auto.
    + intros [campaigns rewards]. apply ends_details.
Qed.

(** ** Failures of single items *)

(** C1, as amended.  In the two BDO detail loops a failed fetch of one
    item's details is caught and logged, the item is skipped and the
    loop goes on: when the other replies are well formed the loop
    returns one record for each item fetched, so that one failing item
    leaves one record less than there are items.  The parsers keep one
    record per detail record.  A turn of the EastWest loop and of the
    Chinabank link and category loops always returns, with the list as
    it was or longer.  A failed fetch of a catalog page is not caught:
    in any run of the BDO adapter, a request for a catalog page that
    meets a transport failure or a 4xx/5xx status is the last request
    of the run, and the run ends with the [RuntimeError] chained to
    that failure. *)
Theorem item_failures_are_skipped :
  forall (X : externals) (uid : string) (hdrs : list (string * string))
         (items : list (pyval * pyval)) (ok : pyval * pyval -> bool) (w : world),
    (forall item, In item items -> campaign_fetch X hdrs item (ok item)) ->
    (exists data_set w',
        get_bdo_campaign_details X uid hdrs items w = (Ok data_set, w')
        /\ List.length data_set
             + List.length (filter (fun item => negb (ok item)) items)
           = List.length items
        /\ (forall item, In item items -> ok item = false ->
                         In (campaign_failure_log uid item) (logged w')))
    /\ (forall rewards (rok : pyval * pyval -> bool) w0,
           (forall item, In item rewards -> reward_fetch X hdrs item (rok item)) ->
           exists data_set w',
             get_bdo_reward_details X uid hdrs rewards w0 = (Ok data_set, w')
             /\ List.length data_set
                  + List.length (filter (fun item => negb (rok item)) rewards)
                = List.length rewards
             /\ (forall item, In item rewards -> rok item = false ->
                              In (reward_failure_log uid item) (logged w')))
    /\ (forall raw promos,
           parse_bdo_campaign_output X raw uid = Ok promos
           \/ parse_bdo_reward_output X raw uid = Ok promos ->
           List.length promos = List.length raw)
    /\ (forall u promos w0,
           exists promos' w',
             ew_turn X uid u promos w0 = (Ok promos', w')
             /\ same_or_one_more promos promos')
    /\ (forall u promos w0,
           exists promos' w',
             chinabank_link X uid u promos w0 = (Ok promos', w')
             /\ same_or_one_more promos promos')
    /\ (forall u promos w0,
           exists promos' w' more,
             chinabank_category X uid u promos w0 = (Ok promos', w')
             /\ promos' = promos ++ more)
    /\ (forall w0 h r rest cause,
           sent (snd (scrape_bdo X uid w0)) = sent w0 ++ h ++ r :: rest ->
           catalog_request r ->
           transport_failure (server X (sent w0 ++ h) r) = Some cause ->
           rest = [] /\ fst (scrape_bdo X uid w0) = Raise (RuntimeError cause)).
Proof.
  intros X uid hdrs items ok w Hitems.
  split; [| split; [| split; [| split; [| split; [| split]]]]].
  - destruct (skip_loop (fetch_campaign X uid hdrs) ok (campaign_failure_log uid) items)
      with (acc := @nil dict) (w := w) as (out & w' & Hrun & _ & Hlen & Hlog).
    { intros item Hin acc w0.
      apply fetch_campaign_turn. apply Hitems. exact Hin. }
    exists out, w'. split; [exact Hrun |]. split; [| exact Hlog].
    rewrite Hlen. simpl. apply filter_length.
  - intros rewards rok w0 Hrewards.
    destruct (skip_loop (fetch_reward X uid hdrs) rok (reward_failure_log uid) rewards)
      with (acc := @nil dict) (w := w0) as (out & w' & Hrun & _ & Hlen & Hlog).
    { intros item Hin acc w1.
      apply fetch_reward_turn. apply Hrewards. exact Hin. }
    exists out, w'. split; [exact Hrun |]. split; [| exact Hlog].
    rewrite Hlen. simpl. apply filter_length.
  - intros raw promos [H | H];
      eapply comprehension_all_length; exact H.
  - intros u promos w0. apply ew_turn_returns.
  - intros u promos w0. apply chinabank_link_returns.
  - intros u promos w0. apply chinabank_category_returns.
  - intros w0 h r rest cause Hsent Hr Hfail.
    eapply ends_scrape_bdo; eassumption.
Qed.

Lemma item_failures_are_skipped_witness :
  exists data_set w',
    get_bdo_campaign_details
      Demo.bdo "run-1" (bearer_headers (PStr "tok"))
      [(PStr "Campaign", PInt 11); (PStr "Campaign", PInt 12)] empty_world
    = (Ok data_set, w')
    /\ List.length data_set
         + List.length
             (filter (fun item => negb (Py.eq_str (PStr (Py.str (snd item))) "11"))
                     [(PStr "Campaign", PInt 11); (PStr "Campaign", PInt 12)])
       = List.length [(PStr "Campaign", PInt 11); (PStr "Campaign", PInt 12)]
    /\ (forall item,
           In item [(PStr "Campaign", PInt 11); (PStr "Campaign", PInt 12)] ->
           Py.eq_str (PStr (Py.str (snd item))) "11" = false ->
           In (campaign_failure_log "run-1" item) (logged w')).
Proof.
  apply (item_failures_are_skipped
           Demo.bdo "run-1" (bearer_headers (PStr "tok"))
           [(PStr "Campaign", PInt 11); (PStr "Campaign", PInt 12)]
           (fun item => Py.eq_str (PStr (Py.str (snd item))) "11")
           empty_world).
  intros item Hin h. simpl in Hin.
  destruct Hin as [<- | [<- | []]].
  - eexists. eexists. split; vm_compute; reflexivity.
  - vm_compute. reflexivity.
Defined.

(** C1 as stated fails for a catalog page: the second page of the
    category cannot be fetched, and the whole BDO run ends with the
    [RuntimeError] instead of skipping the page; the request for that
    page is the last one of the run. *)
Lemma failed_catalog_page_aborts_the_run :
  total_pages (Demo.catalog_page 2 [Demo.item "Campaign" 11]) = Ok (PInt 2)
  /\ server Demo.bdo_page_down []
            (get_request (items_url 2 (PInt 7)) (bearer_headers (PStr "tok")))
     = Failed ConnectionError
  /\ map url (sent (snd (scrape_bdo Demo.bdo_page_down "run-1" empty_world)))
     = [token_url; categories_url;
        items_url 1 (PInt 7); items_url 1 (PInt 7); items_url 2 (PInt 7)]
  /\ fst (scrape_bdo Demo.bdo_page_down "run-1" empty_world)
     = Raise (RuntimeError ConnectionError).
Proof. repeat split; vm_compute; reflexivity. Qed.

(** ** Strings and keys *)

Lemma length_append (s t : string) :
  String.length (s ++ t) = String.length s + String.length t.
Proof. induction s as [| c s IH]; simpl; [reflexivity | rewrite IH; reflexivity]. Qed.

Lemma append_cancel_r (t s1 s2 : string) : (s1 ++ t = s2 ++ t)%string -> s1 = s2.
Proof.
  revert s2.
  induction s1 as [| c1 s1 IH]; intros [| c2 s2] H; simpl in H.
  - reflexivity.
  - apply (f_equal String.length) in H. simpl in H. rewrite length_append in H. lia.
  - apply (f_equal String.length) in H. simpl in H. rewrite length_append in H. lia.
  - injection H as -> H. f_equal. apply IH. exact H.
Qed.

Lemma last_char_append (s t : string) :
  t <> EmptyString -> last_char (s ++ t) = last_char t.
Proof.
  intros Ht.
  induction s as [| c s IH]; simpl; [reflexivity |].
  rewrite IH.
  destruct t as [| c' t]; [contradiction |].
  simpl. destruct (last_char t); reflexivity.
Qed.

Lemma of_nat_inj (i j : nat) : PyStr.of_nat i = PyStr.of_nat j -> i = j.
Proof.
  unfold PyStr.of_nat. intros H.
  apply Unsigned.to_uint_inj.
  apply (f_equal NilEmpty.uint_of_string) in H.
  rewrite !NilEmpty.usu in H. congruence.
Qed.

Lemma accordion_body_key_inj (i j : nat) :
  accordion_body_key i = accordion_body_key j -> i = j.
Proof.
  unfold accordion_body_key. intros H.
  apply of_nat_inj.
  apply (append_cancel_r "_body").
  simpl in H. congruence.
Qed.

Lemma accordion_title_key_inj (i j : nat) :
  accordion_title_key i = accordion_title_key j -> i = j.
Proof.
  unfold accordion_title_key. intros H.
  apply of_nat_inj.
  apply (append_cancel_r "_title").
  simpl in H. congruence.
Qed.

Lemma accordion_keys_differ (i j : nat) :
  accordion_title_key i <> accordion_body_key j.
Proof.
  unfold accordion_title_key, accordion_body_key. intros H.
  simpl in H.
  assert (H' : (PyStr.of_nat i ++ "_title" = PyStr.of_nat j ++ "_body")%string)
    by congruence.
  apply (f_equal last_char) in H'.
  rewrite (last_char_append (PyStr.of_nat i) "_title") in H' by discriminate.
  rewrite (last_char_append (PyStr.of_nat j) "_body") in H' by discriminate.
  discriminate.
Qed.

(** ** Dicts *)


Lemma lookup_remove_other k k' d :
  k <> k' -> Dict.lookup k' (Dict.remove k d) = Dict.lookup k' d.
Proof.
  intros Hne.
  induction d as [| [k0 v] d IH]; simpl; [reflexivity |].
  destruct (String.eqb k k0) eqn:E.
  - apply String.eqb_eq in E. subst k0.
    rewrite IH.
    destruct (String.eqb k' k) eqn:E'; [| reflexivity].
    apply String.eqb_eq in E'. congruence.
  - simpl. rewrite IH. reflexivity.
Qed.

Lemma lookup_set_same k v d : Dict.lookup k (Dict.set k v d) = Some v.
Proof.
  induction d as [| [k' v'] d IH]; simpl.
  - rewrite String.eqb_refl. reflexivity.
  - destruct (String.eqb k k') eqn:E; simpl.
    + rewrite String.eqb_refl. reflexivity.
    + rewrite E. exact IH.
Qed.

Lemma lookup_set_other k k' v d :
  k <> k' -> Dict.lookup k' (Dict.set k v d) = Dict.lookup k' d.
Proof.
  intros Hne.
  assert (Hkk : String.eqb k' k = false).
  { apply String.eqb_neq. congruence. }
  induction d as [| [k0 v0] d IH]; simpl.
  - rewrite Hkk. reflexivity.
  - destruct (String.eqb k k0) eqn:E; simpl.
    + apply String.eqb_eq in E. subst k0.
      rewrite Hkk. apply lookup_remove_other. exact Hne.
    + rewrite IH. reflexivity.
Qed.

Lemma lookup_in_keys k d v : Dict.lookup k d = Some v -> In k (Dict.keys d).
Proof.
  induction d as [| [k' v'] d IH]; simpl; [discriminate |].
  destruct (String.eqb k k') eqn:E.
  - apply String.eqb_eq in E. auto.
  - auto.
Qed.

(** ** Flattening the accordions *)

Lemma flatten_accordion_run (idx : nat) (accordion : pyval) (res : dict) :
  flatten_accordion idx accordion res
  = Ok (Dict.set (accordion_body_key idx) (acc_body accordion)
          (Dict.set (accordion_title_key idx) (acc_title accordion) res)).
Proof. destruct accordion; reflexivity. Qed.

Lemma flatten_accordions_run (accordions : list pyval) :
  forall (idx : nat) (res : dict),
    exists entry,
      flatten_accordions idx accordions res = Ok entry
      /\ (forall i a, nth_error accordions i = Some a ->
            Dict.lookup (accordion_title_key (idx + i)) entry = Some (acc_title a)
            /\ Dict.lookup (accordion_body_key (idx + i)) entry = Some (acc_body a))
      /\ (forall k,
            (forall i, i < List.length accordions ->
                       k <> accordion_title_key (idx + i)
                       /\ k <> accordion_body_key (idx + i)) ->
            Dict.lookup k entry = Dict.lookup k res).
Proof.
  induction accordions as [| a rest IH]; intros idx res.
  - exists res. split; [reflexivity |]. split.
    + intros [| i] a H; discriminate.
    + reflexivity.
  - cbn [flatten_accordions]. rewrite flatten_accordion_run. cbn [rbind].
    destruct (IH (S idx)
                 (Dict.set (accordion_body_key idx) (acc_body a)
                    (Dict.set (accordion_title_key idx) (acc_title a) res)))
      as (entry & Hrun & Hkeys & Hframe).
    exists entry. split; [exact Hrun |].
    assert (Hhere : forall k,
               k = accordion_title_key idx \/ k = accordion_body_key idx ->
               forall i, i < List.length rest ->
                 k <> accordion_title_key (S idx + i)
                 /\ k <> accordion_body_key (S idx + i)).
    { intros k [-> | ->] i _; split; intros H.
      - apply accordion_title_key_inj in H. lia.
      - exact (accordion_keys_differ _ _ H).
      - symmetry in H. exact (accordion_keys_differ _ _ H).
      - apply accordion_body_key_inj in H. lia. }
    split.
    + intros [| i] a' Hnth; simpl in Hnth.
      * injection Hnth as <-. rewrite Nat.add_0_r.
        rewrite !Hframe by (apply Hhere; auto).
        rewrite lookup_set_same.
        rewrite lookup_set_other, lookup_set_same; [auto |].
        intros H. symmetry in H. exact (accordion_keys_differ _ _ H).
      * replace (idx + S i) with (S idx + i) by lia. apply Hkeys. exact Hnth.
    + intros k Hk. rewrite Hframe.
      * destruct (Hk 0) as [Ht Hb]; [simpl; lia |].
        rewrite Nat.add_0_r in Ht, Hb.
        rewrite !lookup_set_other by congruence. reflexivity.
      * intros i Hi. replace (S idx + i) with (idx + S i) by lia.
        apply Hk. simpl. lia.
Qed.

(** ** The accordion loop of the reward parser *)

Lemma keys_bound (entry : dict) (idx n : nat) :
  (forall j, j < n -> Dict.mem (accordion_body_key (idx + j)) entry = true) ->
  n <= List.length entry.
Proof.
  intros Hmem.
  assert (Hlen : List.length (map (fun j => accordion_body_key (idx + j)) (seq 0 n))
                 <= List.length (Dict.keys entry)).
  { apply NoDup_incl_length.
    - apply Injective_map_NoDup; [| apply seq_NoDup].
      intros i j H. apply accordion_body_key_inj in H. lia.
    - intros k Hk. apply in_map_iff in Hk. destruct Hk as (j & <- & Hj).
      apply in_seq in Hj.
      specialize (Hmem j ltac:(lia)). unfold Dict.mem in Hmem.
      destruct (Dict.lookup (accordion_body_key (idx + j)) entry) eqn:E;
        [| discriminate].
      eapply lookup_in_keys. exact E. }
  unfold Dict.keys in Hlen. rewrite !length_map, length_seq in Hlen. exact Hlen.
Qed.

Lemma read_accordions_out_of_fuel (X : externals) (entry : dict) :
  forall fuel idx fields,
    read_accordions X fuel entry idx fields = None ->
    forall j, j < fuel -> Dict.mem (accordion_body_key (idx + j)) entry = true.
Proof.
  induction fuel as [| fuel IH]; intros idx fields H j Hj; [lia |].
  cbn [read_accordions] in H.
  destruct (Dict.mem (accordion_body_key idx) entry) eqn:Hmem; [| discriminate].
  destruct (html_to_text X _) as [body | e]; [| discriminate].
  destruct j as [| j].
  - rewrite Nat.add_0_r. exact Hmem.
  - replace (idx + S j) with (S idx + j) by lia.
    eapply IH; [exact H | lia].
Qed.

Lemma read_accordions_fuel (X : externals) (entry : dict) (idx : nat)
      (fields : list pyval) :
  read_accordions X (S (List.length entry)) entry idx fields <> None.
Proof.
  intros H.
  pose proof (keys_bound entry idx (S (List.length entry))
                (read_accordions_out_of_fuel X entry _ idx fields H)).
  lia.
Qed.

Lemma read_accordions_more_fuel (X : externals) (entry : dict) :
  forall fuel idx fields r,
    read_accordions X fuel entry idx fields = Some r ->
    forall fuel', fuel <= fuel' ->
      read_accordions X fuel' entry idx fields = Some r.
Proof.
  induction fuel as [| fuel IH]; intros idx fields r H fuel' Hle; [discriminate |].
  destruct fuel' as [| fuel']; [lia |].
  cbn [read_accordions] in H |- *.
  destruct (Dict.mem (accordion_body_key idx) entry); [| exact H].
  destruct (html_to_text X _) as [body | e]; [| exact H].
  eapply IH; [exact H | lia].
Qed.

Lemma accordion_fields_fuel (X : externals) (entry : dict) (fields : list pyval)
      (fuel : nat) :
  List.length entry < fuel ->
  read_accordions X fuel entry 1 fields = Some (accordion_fields X entry fields).
Proof.
  intros Hfuel. unfold accordion_fields.
  destruct (read_accordions X (S (List.length entry)) entry 1 fields) as [r |] eqn:E.
  - eapply read_accordions_more_fuel; [exact E | lia].
  - exfalso. exact (read_accordions_fuel X entry 1 fields E).
Qed.

Lemma read_accordions_list (X : externals) (entry : dict) (accordions : list pyval) :
  forall fuel idx fields,
    (forall i a, nth_error accordions i = Some a ->
       Dict.lookup (accordion_title_key (idx + i)) entry = Some (acc_title a)
       /\ Dict.lookup (accordion_body_key (idx + i)) entry = Some (acc_body a)) ->
    Dict.lookup (accordion_body_key (idx + List.length accordions)) entry = None ->
    List.length accordions < fuel ->
    read_accordions X fuel entry idx fields
    = Some (read_accordion_list X accordions fields).
Proof.
  induction accordions as [| a rest IH]; intros fuel idx fields Hkeys Hend Hfuel;
    (destruct fuel as [| fuel]; [simpl in Hfuel; lia |]);
    cbn [read_accordions read_accordion_list].
  - simpl in Hend. rewrite Nat.add_0_r in Hend.
    unfold Dict.mem. rewrite Hend. reflexivity.
  - destruct (Hkeys 0 a eq_refl) as [Ht Hb]. rewrite Nat.add_0_r in Ht, Hb.
    unfold Dict.mem, Dict.get. rewrite Ht, Hb.
    destruct (html_to_text X (acc_body a)) as [body | e]; [| reflexivity].
    cbv zeta. apply IH.
    + intros i a' Hnth. replace (S idx + i) with (idx + S i) by lia.
      apply Hkeys. exact Hnth.
    + replace (S idx + List.length rest) with (idx + List.length (a :: rest))
        by (simpl; lia).
      exact Hend.
    + simpl in Hfuel. lia.
Qed.


(** C9.  Whatever the accordions of a reward are ([accordions] is the
    sequence the loop enumerates, of any length), building the detail
    record does not raise; the record holds the title and the body of
    accordion number [i] under the keys of index [i], the empty string
    standing for both when the accordion is [None] or anything else
    that is not a dict, and holds no body key of the next index.  The
    reading loop of the parser ends within its fuel and reads exactly
    these accordions, in order: it computes what an iteration over the
    list itself computes. *)
Theorem accordions_are_read_up_to_the_first_missing_index :
  forall (X : externals) (data : pyval) (json_data : dict) (accordions : list pyval),
    Py.get data "data" (PDict []) = Ok (PDict json_data) ->
    Py.iter (Py.or_ (Dict.get "accordions" PNone json_data) (PList [])) = Ok accordions ->
    exists entry,
      reward_output data = Ok entry
      /\ (forall i a, nth_error accordions i = Some a ->
            Dict.lookup (accordion_title_key (S i)) entry = Some (acc_title a)
            /\ Dict.lookup (accordion_body_key (S i)) entry = Some (acc_body a))
      /\ (forall i a, nth_error accordions i = Some a -> Py.is_dict a = false ->
            Dict.lookup (accordion_title_key (S i)) entry = Some (PStr "")
            /\ Dict.lookup (accordion_body_key (S i)) entry = Some (PStr ""))
      /\ Dict.mem (accordion_body_key (S (List.length accordions))) entry = false
      /\ (forall fields,
            read_accordions X (S (List.length entry)) entry 1 fields
            = Some (read_accordion_list X accordions fields))
      /\ (forall fields,
            accordion_fields X entry fields = read_accordion_list X accordions fields).
Proof.
  intros X data json_data accordions Hdata Hiter.
  unfold reward_output. rewrite Hdata. cbn [rbind Py.get].
  assert (Hor : Py.get (Py.or_ (PDict json_data) (PDict [])) "accordions" PNone
                = Ok (Dict.get "accordions" PNone json_data)).
  { destruct json_data; reflexivity. }
  rewrite Hor. cbn [rbind]. rewrite Hiter. cbn [rbind].
  destruct (flatten_accordions_run accordions 1
              [("id", Dict.get "id" PNone json_data);
               ("name", Dict.get "name" PNone json_data);
               ("description", Dict.get "description" PNone json_data)])
    as (entry & Hrun & Hkeys & Hframe).
  exists entry.
  assert (Hend : Dict.lookup (accordion_body_key (S (List.length accordions))) entry
                 = None).
  { rewrite Hframe; [reflexivity |].
    intros i Hi. split; intros H.
    - symmetry in H. exact (accordion_keys_differ _ _ H).
    - apply accordion_body_key_inj in H. lia. }
  assert (Hread : forall fields,
             read_accordions X (S (List.length entry)) entry 1 fields
             = Some (read_accordion_list X accordions fields)).
  { intros fields. apply read_accordions_list.
    - exact Hkeys.
    - exact Hend.
    - assert (List.length accordions <= List.length entry); [| lia].
      apply (keys_bound entry 1). intros j Hj.
      destruct (nth_error accordions j) as [a |] eqn:Hnth.
      + destruct (Hkeys j a Hnth) as [_ Hb]. unfold Dict.mem. rewrite Hb. reflexivity.
      + apply nth_error_None in Hnth. lia. }
  split; [exact Hrun |].
  split; [exact Hkeys |].
  split.
  { intros i a Hnth Hnot. destruct (Hkeys i a Hnth) as [Ht Hb].
    change (1 + i) with (S i) in Ht, Hb.
    rewrite Ht, Hb. destruct a; try discriminate; auto. }
  split; [unfold Dict.mem; rewrite Hend; reflexivity |].
  split; [exact Hread |].
  intros fields. unfold accordion_fields. rewrite Hread. reflexivity.
Qed.

Lemma accordions_are_read_up_to_the_first_missing_index_witness :
  exists entry,
    reward_output Demo.reward_22 = Ok entry
    /\ (forall i a,
          nth_error [PDict [("title", PStr "How"); ("body", PStr "Spend 5000")];
                     PNone;
                     PDict [("title", PStr "When"); ("body", PStr "")]] i = Some a ->
          Dict.lookup (accordion_title_key (S i)) entry = Some (acc_title a)
          /\ Dict.lookup (accordion_body_key (S i)) entry = Some (acc_body a))
    /\ (forall i a,
          nth_error [PDict [("title", PStr "How"); ("body", PStr "Spend 5000")];
                     PNone;
                     PDict [("title", PStr "When"); ("body", PStr "")]] i = Some a ->
          Py.is_dict a = false ->
          Dict.lookup (accordion_title_key (S i)) entry = Some (PStr "")
          /\ Dict.lookup (accordion_body_key (S i)) entry = Some (PStr ""))
    /\ Dict.mem (accordion_body_key 4) entry = false
    /\ (forall fields,
          read_accordions Demo.bdo (S (List.length entry)) entry 1 fields
          = Some (read_accordion_list Demo.bdo
                    [PDict [("title", PStr "How"); ("body", PStr "Spend 5000")];
                     PNone;
                     PDict [("title", PStr "When"); ("body", PStr "")]] fields))
    /\ (forall fields,
          accordion_fields Demo.bdo entry fields
          = read_accordion_list Demo.bdo
              [PDict [("title", PStr "How"); ("body", PStr "Spend 5000")];
               PNone;
               PDict [("title", PStr "When"); ("body", PStr "")]] fields).
Proof.
  apply (accordions_are_read_up_to_the_first_missing_index
           Demo.bdo Demo.reward_22
           [("id", PInt 22); ("name", PStr "Gift"); ("description", PStr "A free gift");
            ("accordions",
             PList [PDict [("title", PStr "How"); ("body", PStr "Spend 5000")];
                    PNone;
                    PDict [("title", PStr "When"); ("body", PStr "")]])]
           [PDict [("title", PStr "How"); ("body", PStr "Spend 5000")];
            PNone;
            PDict [("title", PStr "When"); ("body", PStr "")]]);
    reflexivity.
Defined.

(** The three sequences of the claim, run through both functions: no
    accordion, one accordion, and three accordions one of which is
    [None]. *)
Example accordion_sequences :
  (data <~ reward_output (PDict [("data", PDict [("name", PStr "Gift")])]) ;;
   reward_fields Demo.bdo data)
  = Ok [PStr "Gift"; PStr ""]
  /\ (data <~ reward_output
               (PDict [("data",
                        PDict [("name", PStr "Gift");
                               ("accordions",
                                PList [PDict [("title", PStr "How");
                                              ("body", PStr "Spend 5000")]])])]) ;;
      reward_fields Demo.bdo data)
     = Ok [PStr "Gift"; PStr ""; PStr ("How" ++ PyStr.nl ++ "Spend 5000")]
  /\ (data <~ reward_output Demo.reward_22 ;; reward_fields Demo.bdo data)
     = Ok [PStr "Gift"; PStr "A free gift";
           PStr ("How" ++ PyStr.nl ++ "Spend 5000"); PStr "When"].
Proof. repeat split; vm_compute; reflexivity. Qed.

(** ** The content of a record *)









(** ** What the parsers read of a record *)

Lemma get_set_other (k k' : string) (v default : pyval) (entry : dict) :
  k <> k' -> Dict.get k' default (Dict.set k v entry) = Dict.get k' default entry.
Proof. intros H. unfold Dict.get. rewrite lookup_set_other by exact H. reflexivity. Qed.

Lemma get_set_same (k : string) (v default : pyval) (entry : dict) :
  Dict.get k default (Dict.set k v entry) = v.
Proof. unfold Dict.get. rewrite lookup_set_same. reflexivity. Qed.

Lemma comprehension_raises {A B} (f : A -> result (option B)) (xs : list A) (x : A) :
  In x xs -> (exists e, f x = Raise e) -> exists e, comprehension f xs = Raise e.
Proof.
  intros Hin Hx.
  induction xs as [| y xs IH]; [contradiction |].
  cbn [comprehension].
  destruct (f y) as [o | e] eqn:Hy; [| exists e; reflexivity].
  cbn [rbind].
  destruct Hin as [-> | Hin].
  - destruct Hx as (e & Hx). congruence.
  - destruct (IH Hin) as (e & He). rewrite He. exists e. reflexivity.
Qed.

Lemma nonblank_parts_raises (fields : list pyval) (part : pyval) :
  In part fields -> not_a_string part -> exists e, nonblank_parts fields = Raise e.
Proof.
  intros Hin Hpart. unfold nonblank_parts.
  eapply comprehension_raises; [exact Hin |].
  exists AttributeError.
  destruct part; try reflexivity.
  exfalso. exact (Hpart s eq_refl).
Qed.

Lemma read_accordions_keeps (X : externals) (entry : dict) :
  forall fuel idx fields fields',
    read_accordions X fuel entry idx fields = Some (Ok fields') ->
    exists more, fields' = fields ++ more.
Proof.
  induction fuel as [| fuel IH]; intros idx fields fields' H; [discriminate |].
  cbn [read_accordions] in H.
  destruct (Dict.mem (accordion_body_key idx) entry).
  - destruct (html_to_text X _) as [body | e]; [| discriminate].
    apply IH in H. destruct H as (more & ->).
    destruct (Py.truthy _ || Py.truthy _).
    + rewrite <- app_assoc. eauto.
    + eauto.
  - injection H as <-. exists []. rewrite app_nil_r. reflexivity.
Qed.

Lemma campaign_entry_raises (X : externals) (uid : string) (entry : dict) (k : string) :
  In k ["name"; "headline"; "sub_headline"] ->
  not_a_string (Dict.get k (PStr "") entry) ->
  exists e, parse_bdo_campaign_entry X uid entry = Raise e.
Proof.
  intros Hk Hbad. unfold parse_bdo_campaign_entry.
  destruct (campaign_fields X entry) as [fields | e] eqn:Hfields;
    [| exists e; reflexivity].
  cbn [rbind].
  assert (Hin : In (Dict.get k (PStr "") entry) fields).
  { unfold campaign_fields in Hfields.
    apply rbind_ok in Hfields. destruct Hfields as (body & _ & H).
    apply rbind_ok in H. destruct H as (enrolment & _ & H).
    apply rbind_ok in H. destruct H as (sections & _ & H).
    apply rbind_ok in H. destruct H as (extra & _ & H).
    injection H as <-.
    simpl in Hk. destruct Hk as [<- | [<- | [<- | []]]]; simpl; auto. }
  destruct (nonblank_parts_raises fields _ Hin Hbad) as (e & He).
  rewrite He. exists e. reflexivity.
Qed.

Lemma reward_entry_raises (X : externals) (uid : string) (entry : dict) :
  not_a_string (Dict.get "name" (PStr "") entry) ->
  exists e, parse_bdo_reward_entry X uid entry = Raise e.
Proof.
  intros Hbad. unfold parse_bdo_reward_entry.
  destruct (reward_fields X entry) as [fields | e] eqn:Hfields;
    [| exists e; reflexivity].
  cbn [rbind].
  assert (Hin : In (Dict.get "name" (PStr "") entry) fields).
  { unfold reward_fields in Hfields.
    apply rbind_ok in Hfields. destruct Hfields as (description & _ & H).
    pose proof (accordion_fields_fuel X entry
                  [Dict.get "name" (PStr "") entry; PStr description]
                  (S (List.length entry)) ltac:(lia)) as Hread.
    rewrite H in Hread.
    apply read_accordions_keeps in Hread. destruct Hread as (more & ->).
    simpl. auto. }
  destruct (nonblank_parts_raises fields _ Hin Hbad) as (e & He).
  rewrite He. exists e. reflexivity.
Qed.

Lemma campaign_output_name (id data : pyval) (json_data out : dict) :
  Py.get data "data" (PDict []) = Ok (PDict json_data) ->
  campaign_output id data = Ok out ->
  Dict.get "name" (PStr "") out = Dict.get "name" PNone json_data.
Proof.
  intros Hdata H. unfold campaign_output in H. rewrite Hdata in H.
  cbn [rbind Py.get] in H.
  repeat (apply rbind_ok in H; destruct H as (? & _ & H)).
  injection H as <-. reflexivity.
Qed.

Lemma reward_output_name (data : pyval) (json_data out : dict) :
  Py.get data "data" (PDict []) = Ok (PDict json_data) ->
  reward_output data = Ok out ->
  Dict.get "name" (PStr "") out = Dict.get "name" PNone json_data.
Proof.
  intros Hdata H. unfold reward_output in H. rewrite Hdata in H.
  cbn [rbind Py.get] in H.
  apply rbind_ok in H. destruct H as (listed & _ & H).
  apply rbind_ok in H. destruct H as (accordions & _ & H).
  destruct (flatten_accordions_run accordions 1
              [("id", Dict.get "id" PNone json_data);
               ("name", Dict.get "name" PNone json_data);
               ("description", Dict.get "description" PNone json_data)])
    as (entry & Hrun & _ & Hframe).
  rewrite Hrun in H. injection H as <-.
  unfold Dict.get at 1. rewrite Hframe; [reflexivity |].
  intros i _. split; intros Heq.
  - unfold accordion_title_key in Heq. simpl in Heq. discriminate.
  - unfold accordion_body_key in Heq. simpl in Heq. discriminate.
Qed.

Lemma set_length (k : string) (v v' : pyval) (entry : dict) :
  List.length (Dict.set k v entry) = List.length (Dict.set k v' entry).
Proof.
  induction entry as [| [k0 v0] entry IH]; simpl; [reflexivity |].
  destruct (String.eqb k k0); simpl; [reflexivity | rewrite IH; reflexivity].
Qed.

Lemma read_accordions_same_keys (X : externals) (e1 e2 : dict) :
  (forall i, Dict.lookup (accordion_title_key i) e1 = Dict.lookup (accordion_title_key i) e2
             /\ Dict.lookup (accordion_body_key i) e1
                = Dict.lookup (accordion_body_key i) e2) ->
  forall fuel idx fields,
    read_accordions X fuel e1 idx fields = read_accordions X fuel e2 idx fields.
Proof.
  intros Hkeys.
  induction fuel as [| fuel IH]; intros idx fields; [reflexivity |].
  cbn [read_accordions]. unfold Dict.mem, Dict.get.
  destruct (Hkeys idx) as [-> ->].
  destruct (Dict.lookup (accordion_body_key idx) e2); [| reflexivity].
  destruct (html_to_text X _) as [body | e]; [| reflexivity].
  apply IH.
Qed.

Lemma description_is_no_accordion_key (i : nat) :
  "description" <> accordion_title_key i /\ "description" <> accordion_body_key i.
Proof.
  split; intros H;
    [unfold accordion_title_key in H | unfold accordion_body_key in H];
    simpl in H; discriminate.
Qed.






(** ** From a reply to the detail record *)








(** ** The content of a record, and fields that are empty or absent *)



(** Trimming is that of Python's [str.strip]: the no-break space and the
    ideographic space are white space, so a name that is a no-break
    space is left out of the content. *)
Example unicode_white_space_is_trimmed :
  PyStr.strip (PyStr.nbsp ++ " h " ++ PyStr.ideographic_space) = "h"
  /\ content_of_fragments [PyStr.nbsp; "h"] = "h"
  /\ parse_bdo_campaign_entry Demo.bdo "run-1"
       (Dict.set "name" (PStr PyStr.nbsp) Demo.deal_entry)
     = Ok (bdo_record Demo.bdo "run-1" Demo.deal_entry
             (PyStr.join PyStr.blank_line ["Save 10%"; "On weekends"; "Use your card"])).
Proof. repeat split; vm_compute; reflexivity. Qed.


(** * Further properties of the code *)

(** ** Bodies that are not JSON, sitemaps that are not XML *)

(** A reply that arrives with a status that is not 4xx or 5xx but whose
    body is not JSON makes both JSON fetches raise [ValueError], after
    one request and one error line.  (No reply arrives for a URL that
    [requests] does not send: both fetches then raise [RuntimeError]
    with nothing sent.) *)
Theorem non_json_body_raises_value_error :
  forall (X : externals) (w : world) (u uid : string)
         (hdrs : list (string * string)) (body : pyval) (resp : response),
    (forall r, url r = u -> server X (sent w) r = Replied resp) ->
    transport_failure (Replied resp) = None ->
    json resp = None ->
    (sendable u = true ->
     fetch_json_get X u hdrs uid w
     = (Raise (ValueError "Response content is not valid JSON"),
        with_log (with_request w (get_request u hdrs)) ERROR
                 ("Request ID " ++ uid ++ ": Failed to decode JSON from response"))
     /\ fetch_json_post X u hdrs body uid w
        = (Raise (ValueError "Response content is not valid JSON"),
           with_log (with_request w (post_request u hdrs body)) ERROR
                    ("Request ID " ++ uid ++ ": Failed to decode JSON from response")))
    /\ (sendable u = false ->
        fetch_json_get X u hdrs uid w
        = (Raise (RuntimeError NotSent),
           with_log w ERROR ("Request ID " ++ uid ++ ": HTTP request failed"))
        /\ fetch_json_post X u hdrs body uid w
           = (Raise (RuntimeError NotSent),
              with_log w ERROR ("Request ID " ++ uid ++ ": HTTP request failed"))).
Proof.
  intros X w u uid hdrs body resp Hreply Hstatus Hjson.
  split; intros Hsend;
    [| rewrite fetch_json_get_refused, fetch_json_post_refused by exact Hsend;
       split; reflexivity].
  rewrite fetch_json_get_run, fetch_json_post_run by exact Hsend. cbv zeta.
  rewrite (Hreply (get_request u hdrs) eq_refl).
  rewrite (Hreply (post_request u hdrs body) eq_refl).
  rewrite Hstatus.
  unfold fetched_json. unfold transport_failure in Hstatus.
  destruct ((400 <=? status_code resp)%Z && (status_code resp <? 600)%Z);
    [discriminate |].
  rewrite Hjson. split; reflexivity.
Qed.

Lemma non_json_body_raises_value_error_witness :
  fetch_json_get Demo.eastwest (ew_prefix ++ "summer") [] "run-1" empty_world
  = (Raise (ValueError "Response content is not valid JSON"),
     with_log (with_request empty_world (get_request (ew_prefix ++ "summer") []))
              ERROR "Request ID run-1: Failed to decode JSON from response").
Proof.
  refine (proj1 (proj1 (non_json_body_raises_value_error
           Demo.eastwest empty_world (ew_prefix ++ "summer") "run-1" [] PNone
           {| status_code := 200; text := Demo.ew_page; json := None;
              xml_locs := ParseError "syntax error: line 1, column 0" |}
           _ eq_refl eq_refl) eq_refl)).
  intros r Hr. unfold Demo.eastwest, Demo.externals_of. cbn [server].
  rewrite Hr. reflexivity.
Defined.

(** ** Sitemaps *)

(** When the sitemap lists no URL with the promo prefix, both sitemap
    adapters return the empty list after the one sitemap request; the
    BPI loop has no turn, so [promo] is never read. *)
Theorem sitemap_without_promo_urls_gives_no_record :
  forall (X : externals) (id : string) (w : world) (urls : list string),
    (sitemap_locs (server X (sent w) (get_request ew_sitemap browser_headers))
       = Some (map PStr urls) ->
     filter (fun u => PyStr.startswith u ew_prefix) urls = [] ->
     scrape_ew X id w
     = (Ok [], with_request w (get_request ew_sitemap browser_headers)))
    /\ (sitemap_locs (server X (sent w) (get_request bpi_sitemap browser_headers))
          = Some (map PStr urls) ->
        filter (fun u => PyStr.startswith u bpi_prefix) urls = [] ->
        scrape_bpi X id w
        = (Ok [], with_request w (get_request bpi_sitemap browser_headers))).
Proof.
  intros X id w urls. split; intros Hmap Hnone.
  - unfold scrape_ew. fold ew_sitemap. unfold bind.
    rewrite (sitemap_fetched X ew_sitemap id w _ eq_refl Hmap).
    unfold lift. rewrite urls_with_prefix_strings, Hnone. reflexivity.
  - unfold scrape_bpi. fold bpi_sitemap. unfold bind.
    rewrite (sitemap_fetched X bpi_sitemap id w _ eq_refl Hmap).
    unfold lift. rewrite urls_with_prefix_strings, Hnone. reflexivity.
Qed.

Lemma urls_with_prefix_not_a_string (prefix : string) (locs : list pyval) :
  Exists not_a_string locs ->
  urls_with_prefix prefix locs = Raise AttributeError.
Proof.
  unfold urls_with_prefix.
  induction locs as [| v locs IH]; intros H; [inversion H |].
  cbn [comprehension].
  destruct v as [| b | z | s | l | d]; try reflexivity.
  assert (Hrest : Exists not_a_string locs).
  { inversion H as [? ? Hv | ? ? Hl]; subst; [| exact Hl].
    exfalso. exact (Hv s eq_refl). }
  cbn [Py.startswith rbind]. 
  destruct (PyStr.startswith s prefix); cbn [rbind]; rewrite (IH Hrest); reflexivity.
Qed.

(** A sitemap entry without text (or any value that is not a string)
    ends both sitemap adapters with [AttributeError] right after the
    sitemap request: no page is fetched and nothing is returned. *)
Theorem textless_sitemap_entry_aborts_the_run :
  forall (X : externals) (id : string) (w : world) (locs : list pyval),
    Exists not_a_string locs ->
    (sitemap_locs (server X (sent w) (get_request ew_sitemap browser_headers))
       = Some locs ->
     scrape_ew X id w
     = (Raise AttributeError, with_request w (get_request ew_sitemap browser_headers)))
    /\ (sitemap_locs (server X (sent w) (get_request bpi_sitemap browser_headers))
          = Some locs ->
        scrape_bpi X id w
        = (Raise AttributeError,
           with_request w (get_request bpi_sitemap browser_headers))).
Proof.
  intros X id w locs Hbad. split; intros Hmap.
  - unfold scrape_ew. fold ew_sitemap. unfold bind.
    rewrite (sitemap_fetched X ew_sitemap id w _ eq_refl Hmap).
    unfold lift. rewrite (urls_with_prefix_not_a_string _ _ Hbad). reflexivity.
  - unfold scrape_bpi. fold bpi_sitemap. unfold bind.
    rewrite (sitemap_fetched X bpi_sitemap id w _ eq_refl Hmap).
    unfold lift. rewrite (urls_with_prefix_not_a_string _ _ Hbad). reflexivity.
Qed.

Lemma sitemap_without_promo_urls_gives_no_record_witness :
  scrape_ew Demo.eastwest_no_promos "run-1" empty_world
  = (Ok [], with_request empty_world (get_request ew_sitemap browser_headers)).
Proof.
  apply (proj1 (sitemap_without_promo_urls_gives_no_record
                  Demo.eastwest_no_promos "run-1" empty_world
                  ["https://www.eastwestbanker.com/about"]));
    reflexivity.
Defined.

Lemma textless_sitemap_entry_aborts_the_run_witness :
  scrape_ew Demo.eastwest_textless "run-1" empty_world
  = (Raise AttributeError,
     with_request empty_world (get_request ew_sitemap browser_headers)).
Proof.
  refine (proj1 (textless_sitemap_entry_aborts_the_run
                   Demo.eastwest_textless "run-1" empty_world Demo.textless_locs _) _).
  - right. left. intros s H. discriminate H.
  - reflexivity.
Defined.

(** ** The categories of the BDO catalog *)

Lemma category_ids_comprehension (objects : list dict) :
  comprehension
    (fun item =>
       has_id <~ Py.contains "id" item ;;
       if has_id : bool
       then (v <~ Py.getitem item "id" ;; Ok (Some v))
       else Ok None)
    (map PDict objects)
  = Ok (ids_of_objects objects).
Proof.
  induction objects as [| d objects IH]; [reflexivity |].
  cbn [map comprehension Py.contains Py.getitem rbind ids_of_objects flat_map].
  unfold Dict.mem.
  destruct (Dict.lookup "id" d) as [v |]; cbn [rbind];
    fold (ids_of_objects objects); rewrite IH; reflexivity.
Qed.

(** The category ids are the ['id'] values of the listed objects that
    have one, in the order of the reply; objects without ['id'] are
    passed over, and when no id is left the function logs an error and
    raises [ValueError]. *)
Theorem category_ids_are_the_listed_ids :
  forall (X : externals) (uid : string) (hdrs : list (string * string)) (w : world)
         (reply : dict) (objects : list dict),
    fetched_json (server X (sent w) (get_request categories_url hdrs))
      = Some (PDict reply) ->
    Dict.get "data" (PList []) reply = PList (map PDict objects) ->
    match ids_of_objects objects with
    | [] =>
        exists msg,
          get_bdo_promo_categories X uid hdrs w
          = (Raise (ValueError msg),
             with_log (with_request w (get_request categories_url hdrs)) ERROR
                      ("Request ID " ++ uid ++ ": " ++ msg))
    | ids =>
        get_bdo_promo_categories X uid hdrs w
        = (Ok (PDict [("uuid", PStr uid); ("categories", PList ids)]),
           with_request w (get_request categories_url hdrs))
    end.
Proof.
  intros X uid hdrs w reply objects Hjson Hdata.
  assert (E : get_bdo_promo_categories X uid hdrs w
              = match ids_of_objects objects with
                | [] =>
                    (Raise (ValueError "IDs not found in response JSON: []"),
                     with_log (with_request w (get_request categories_url hdrs))
                              ERROR
                              ("Request ID " ++ uid
                                 ++ ": IDs not found in response JSON: []"))
                | ids =>
                    (Ok (PDict [("uuid", PStr uid); ("categories", PList ids)]),
                     with_request w (get_request categories_url hdrs))
                end).
  { unfold get_bdo_promo_categories. unfold bind at 1.
    rewrite fetch_json_get_run by reflexivity. cbv zeta.
    rewrite (fetched_json_no_failure _ _ Hjson), Hjson.
    unfold bind at 1. unfold lift.
    cbn [Py.get rbind]. rewrite Hdata. cbn [Py.iter rbind].
    rewrite category_ids_comprehension.
    destruct (ids_of_objects objects); reflexivity. }
  destruct (ids_of_objects objects); [eexists |]; exact E.
Qed.

Lemma category_ids_are_the_listed_ids_witness :
  get_bdo_promo_categories Demo.bdo "run-1" [] empty_world
  = (Ok (PDict [("uuid", PStr "run-1"); ("categories", PList [PInt 7])]),
     with_request empty_world (get_request categories_url [])).
Proof.
  apply (category_ids_are_the_listed_ids
           Demo.bdo "run-1" [] empty_world
           [("data", PList [PDict [("id", PInt 7)]])] [[("id", PInt 7)]]);
    reflexivity.
Defined.

(** When the categories reply lists no object with an ['id'], the BDO
    run ends with [ValueError] after two requests, the token request
    and the categories request: no catalog page and no detail is
    requested and nothing is returned. *)
Theorem no_category_aborts_the_bdo_run :
  forall (X : externals) (id : string) (w : world)
         (token_reply reply : dict) (objects : list dict),
    let token_request := post_request token_url token_headers token_payload in
    let hdrs := bearer_headers (Dict.get "bearer_token" PNone token_reply) in
    fetched_json (server X (sent w) token_request) = Some (PDict token_reply) ->
    fetched_json (server X (sent w ++ [token_request])
                         (get_request categories_url hdrs))
      = Some (PDict reply) ->
    Dict.get "data" (PList []) reply = PList (map PDict objects) ->
    ids_of_objects objects = [] ->
    exists msg w',
      scrape_bdo X id w = (Raise (ValueError msg), w')
      /\ sent w' = sent w ++ [token_request; get_request categories_url hdrs].
Proof.
  intros X id w token_reply reply objects token_request hdrs Htoken Hjson Hdata Hnone.
  unfold scrape_bdo. unfold bind at 1.
  rewrite get_bdo_bearer_header_run, fetch_json_post_run by reflexivity. cbv zeta.
  fold token_request. rewrite (fetched_json_no_failure _ _ Htoken), Htoken.
  fold hdrs. unfold bind at 1. unfold get_bdo_promo_items. unfold bind at 1.
  unfold get_bdo_promo_categories. unfold bind at 1.
  rewrite fetch_json_get_run by reflexivity. cbv zeta.
  change (sent (with_request w token_request)) with (sent w ++ [token_request]).
  rewrite (fetched_json_no_failure _ _ Hjson), Hjson.
  unfold bind at 1. unfold lift.
  cbn [Py.get rbind]. rewrite Hdata. cbn [Py.iter rbind].
  rewrite category_ids_comprehension, Hnone.
  do 2 eexists. split; [reflexivity |].
  simpl. rewrite <- app_assoc. reflexivity.
Qed.

Lemma no_category_aborts_the_bdo_run_witness :
  exists msg w',
    scrape_bdo Demo.bdo_no_category "run-1" empty_world
    = (Raise (ValueError msg), w')
    /\ sent w'
       = sent empty_world
           ++ [post_request token_url token_headers token_payload;
               get_request categories_url (bearer_headers (PStr "tok"))].
Proof.
  apply (no_category_aborts_the_bdo_run
           Demo.bdo_no_category "run-1" empty_world
           [("bearer_token", PStr "tok")]
           [("data", PList [PDict [("name", PStr "Dining")]])]
           [[("name", PStr "Dining")]]);
    reflexivity.
Defined.

(** ** Item discovery: what is kept, and the page count *)

Lemma page_items_truthy (data : pyval) (items : list (pyval * pyval)) :
  page_items data = Ok items -> Forall truthy_item items.
Proof.
  unfold page_items. intros H.
  apply rbind_ok in H. destruct H as (listed & _ & H).
  apply rbind_ok in H. destruct H as (objects & _ & H).
  eapply comprehension_Forall; [| exact H].
  intros object item Hitem. cbv beta in Hitem.
  apply rbind_ok in Hitem. destruct Hitem as (ty & _ & Hitem).
  destruct (Py.truthy ty) eqn:Hty; [| discriminate].
  apply rbind_ok in Hitem. destruct Hitem as (iid & _ & Hitem).
  destruct (Py.truthy iid) eqn:Hid; [| discriminate].
  injection Hitem as <-. split; assumption.
Qed.

Lemma fetch_category_items_truthy (X : externals) uid hdrs c all w all' w' :
  Forall truthy_item all ->
  fetch_category_items X uid hdrs c all w = (Ok all', w') ->
  Forall truthy_item all'.
Proof.
  intros Hall H. unfold fetch_category_items in H.
  apply bind_ok in H. destruct H as (data & w1 & _ & H).
  destruct (total_pages data) as [pages | e].
  - apply bind_ok in H. destruct H as (nums & w2 & _ & H).
    eapply for_each_invariant; [| exact Hall | exact H].
    intros p acc w0 acc' w0' Hacc Hp. unfold fetch_items_page in Hp.
    apply bind_ok in Hp. destruct Hp as (page & w3 & _ & Hp).
    apply bind_ok in Hp. destruct Hp as (items & w4 & Hitems & Hp).
    apply lift_ok in Hitems. apply ret_ok in Hp. subst acc'.
    apply Forall_app. split; [exact Hacc |].
    eapply page_items_truthy. exact Hitems.
  - destruct (is_Key_Type_Value_error e); [| discriminate].
    apply bind_ok in H. destruct H as (? & w2 & _ & H).
    apply ret_ok in H. subst. exact Hall.
Qed.

(** A run of [fetch_json_get] that returns has sent its request and
    was answered with JSON. *)
Lemma fetch_json_get_ok (X : externals) u hdrs uid w data w' :
  fetch_json_get X u hdrs uid w = (Ok data, w') ->
  fetched_json (server X (sent w) (get_request u hdrs)) = Some data
  /\ w' = with_request w (get_request u hdrs).
Proof.
  intros H. destruct (sendable u) eqn:Hsend.
  - rewrite fetch_json_get_run in H by exact Hsend. cbv zeta in H.
    destruct (transport_failure _); [discriminate |].
    destruct (fetched_json _); [| discriminate].
    injection H as <- <-. auto.
  - rewrite fetch_json_get_refused in H by exact Hsend. discriminate.
Qed.

Lemma for_each_world_invariant {A S} (P : S -> world -> Prop) (body : A -> S -> M S) :
  (forall x acc w acc' w', P acc w -> body x acc w = (Ok acc', w') -> P acc' w') ->
  forall xs acc w acc' w',
    P acc w -> for_each xs body acc w = (Ok acc', w') -> P acc' w'.
Proof.
  intros Hbody.
  induction xs as [| x xs IH]; intros acc w acc' w' Hacc H; simpl in H.
  - unfold ret in H. injection H as <- <-. exact Hacc.
  - apply bind_ok in H. destruct H as (acc1 & w1 & H1 & H2).
    eapply IH; [| exact H2].
    eapply Hbody; eassumption.
Qed.

Lemma read_in_order_later (h h' : list request) (reads : list page_read)
      (more : list request) :
  read_in_order h reads h' -> read_in_order h reads (h' ++ more).
Proof.
  induction 1 as [h h' more0 -> | h h1 more0 r refs reads h' Hh1 _ IH].
  - apply read_none with (more := more0 ++ more). rewrite app_assoc. reflexivity.
  - apply read_next with (more := more0); assumption.
Qed.

Lemma read_in_order_one_more (h h' : list request) (reads : list page_read)
      (r : request) (refs : list (pyval * pyval)) :
  read_in_order h reads h' ->
  read_in_order h (reads ++ [(h', r, refs)]) (h' ++ [r]).
Proof.
  induction 1 as [h h' more -> | h h1 more r0 refs0 reads h' Hh1 _ IH].
  - apply read_next with (more := more); [reflexivity |].
    apply read_none with (more := []). rewrite app_nil_r. reflexivity.
  - cbn [app]. apply read_next with (more := more); assumption.
Qed.

Lemma discovered_page (X : externals) uid hdrs h0 asked c p all w all' w' :
  discovered X hdrs h0 asked all w ->
  fetch_items_page X uid hdrs c p all w = (Ok all', w') ->
  discovered X hdrs h0 asked all' w'.
Proof.
  intros (reads & Hreads & Horder & -> & Hlen) H.
  unfold fetch_items_page in H.
  apply bind_ok in H. destruct H as (data & w1 & Hfetch & H).
  apply fetch_json_get_ok in Hfetch. destruct Hfetch as [Hdata ->].
  apply bind_ok in H. destruct H as (refs & w2 & Hrefs & H).
  unfold lift in Hrefs. injection Hrefs as Hrefs <-.
  unfold ret in H. injection H as <- <-.
  exists (reads ++ [(sent w, get_request (items_url p c) hdrs, refs)]).
  split; [| split; [| split]].
  - apply Forall_app. split; [exact Hreads |].
    constructor; [| constructor].
    split; [exists p, c; reflexivity | exists data; auto].
  - cbn [with_request sent]. apply read_in_order_one_more. exact Horder.
  - rewrite flat_map_app. cbn [flat_map read_refs snd]. rewrite app_nil_r. reflexivity.
  - cbn [with_request sent]. rewrite !length_app. cbn [List.length]. lia.
Qed.

Lemma discovered_category (X : externals) uid hdrs h0 asked c all w all' w' :
  discovered X hdrs h0 asked all w ->
  fetch_category_items X uid hdrs c all w = (Ok all', w') ->
  discovered X hdrs h0 (S asked) all' w'.
Proof.
  intros Hinv H. unfold fetch_category_items in H.
  apply bind_ok in H. destruct H as (data & w1 & Hfetch & H).
  apply fetch_json_get_ok in Hfetch. destruct Hfetch as [_ ->].
  assert (Hasked : discovered X hdrs h0 (S asked) all
                     (with_request w (get_request (items_url 1 c) hdrs))).
  { destruct Hinv as (reads & Hreads & Horder & Hall & Hlen).
    exists reads. split; [exact Hreads | split; [| split; [exact Hall |]]].
    - cbn [with_request sent]. apply read_in_order_later. exact Horder.
    - cbn [with_request sent]. rewrite length_app. cbn [List.length]. lia. }
  destruct (total_pages data) as [pages | e].
  - apply bind_ok in H. destruct H as (nums & w2 & Hnums & H).
    unfold lift in Hnums. injection Hnums as _ <-.
    eapply (for_each_world_invariant (discovered X hdrs h0 (S asked)));
      [| exact Hasked | exact H].
    intros p acc w0 acc' w0' Hacc Hp.
    eapply discovered_page; eassumption.
  - destruct (is_Key_Type_Value_error e); [| discriminate].
    apply bind_ok in H. destruct H as (? & w2 & Hlog & H).
    unfold ret in H. injection H as <- <-.
    unfold log in Hlog. injection Hlog as _ <-.
    destruct Hasked as (reads & Hreads & Horder & Hall & Hlen).
    exists reads. auto.
Qed.

Lemma discovered_categories (X : externals) uid hdrs h0 :
  forall cs asked all w all' w',
    discovered X hdrs h0 asked all w ->
    for_each cs (fetch_category_items X uid hdrs) all w = (Ok all', w') ->
    discovered X hdrs h0 (asked + List.length cs) all' w'.
Proof.
  induction cs as [| c cs IH]; intros asked all w all' w' Hinv H; simpl in H.
  - unfold ret in H. injection H as <- <-. cbn [List.length].
    rewrite Nat.add_0_r. exact Hinv.
  - apply bind_ok in H. destruct H as (all1 & w1 & H1 & H2).
    cbn [List.length]. rewrite Nat.add_succ_r.
    apply (IH (S asked) all1 w1); [| exact H2].
    eapply discovered_category; eassumption.
Qed.

(** The category ids item discovery loops over, when the request for
    the categories returns. *)
Lemma get_bdo_promo_categories_ok (X : externals) uid hdrs w categories w' :
  get_bdo_promo_categories X uid hdrs w = (Ok categories, w') ->
  exists ids,
    categories = PDict [("uuid", PStr uid); ("categories", PList ids)]
    /\ sent w' = sent w ++ [get_request categories_url hdrs].
Proof.
  intros H. unfold get_bdo_promo_categories in H.
  apply bind_ok in H. destruct H as (data & w1 & Hfetch & H).
  apply fetch_json_get_ok in Hfetch. destruct Hfetch as [_ ->].
  apply bind_ok in H. destruct H as (ids & w2 & Hids & H).
  unfold lift in Hids. injection Hids as _ <-.
  destruct ids as [| i ids].
  - apply bind_ok in H. destruct H as (? & w3 & _ & H). discriminate H.
  - unfold ret in H. injection H as <- <-.
    exists (i :: ids). split; reflexivity.
Qed.

(** The two lists item discovery returns: every campaign reference has
    the type ['Campaign'], every reward reference the type
    ['Reward::Campaign'], every reference has a truthy id, and no
    reference is in both lists.  Both are drawn, in order, from the
    references of the catalog pages read in the run, taken in the
    order the pages were read; apart from the request for the
    categories and one request per category, which learns its page
    count, every request of the run is such a read. *)
Theorem items_are_partitioned_by_type :
  forall (X : externals) (uid : string) (hdrs : list (string * string)) (w : world)
         (campaigns rewards : list (pyval * pyval)) (w' : world),
    get_bdo_promo_items X uid hdrs w = (Ok (campaigns, rewards), w') ->
    Forall (fun item => fst item = PStr "Campaign" /\ Py.truthy (snd item) = true)
           campaigns
    /\ Forall (fun item => fst item = PStr "Reward::Campaign"
                           /\ Py.truthy (snd item) = true) rewards
    /\ (forall item, In item campaigns -> ~ In item rewards)
    /\ exists (ids : list pyval) (reads : list page_read),
        fst (get_bdo_promo_categories X uid hdrs w)
        = Ok (PDict [("uuid", PStr uid); ("categories", PList ids)])
        /\ Forall (reads_page X hdrs) reads
        /\ read_in_order (sent w ++ [get_request categories_url hdrs]) reads (sent w')
        /\ List.length (sent w')
           = List.length (sent w) + 1 + List.length ids + List.length reads
        /\ campaigns = filter (fun item => Py.eq_str (fst item) "Campaign")
                              (flat_map read_refs reads)
        /\ rewards = filter (fun item => Py.eq_str (fst item) "Reward::Campaign")
                            (flat_map read_refs reads).
Proof.
  intros X uid hdrs w campaigns rewards w' H.
  unfold get_bdo_promo_items in H.
  apply bind_ok in H. destruct H as (categories & w1 & Hcategories & H).
  apply bind_ok in H. destruct H as (category_ids & w2 & Hids & H).
  apply bind_ok in H. destruct H as (all_items & w3 & Hloop & H).
  unfold ret in H. injection H as <- <- <-.
  assert (Hall : Forall truthy_item all_items).
  { eapply for_each_invariant; [| apply Forall_nil | exact Hloop].
    intros c acc w0 acc' w0' Hacc Hc.
    eapply fetch_category_items_truthy; eassumption. }
  assert (Htype : forall (item : pyval * pyval) tag,
             Py.eq_str (fst item) tag = true -> fst item = PStr tag).
  { intros [ty iid] tag Heq. simpl in *.
    destruct ty; try discriminate.
    apply String.eqb_eq in Heq. subst. reflexivity. }
  split; [| split; [| split]].
  - apply Forall_forall. intros item Hin.
    apply filter_In in Hin. destruct Hin as [Hin Heq].
    split; [apply Htype; exact Heq |].
    rewrite Forall_forall in Hall. apply (Hall item Hin).
  - apply Forall_forall. intros item Hin.
    apply filter_In in Hin. destruct Hin as [Hin Heq].
    split; [apply Htype; exact Heq |].
    rewrite Forall_forall in Hall. apply (Hall item Hin).
  - intros item Hc Hr.
    apply filter_In in Hc. destruct Hc as [_ Hc].
    apply filter_In in Hr. destruct Hr as [_ Hr].
    apply Htype in Hc. apply Htype in Hr. rewrite Hc in Hr. discriminate.
  - rewrite Hcategories. cbn [fst].
    destruct (get_bdo_promo_categories_ok X uid hdrs w categories w1 Hcategories)
      as (ids & -> & Hsent).
    unfold lift in Hids. cbn in Hids. injection Hids as <- <-.
    assert (Hstart : discovered X hdrs (sent w1) 0 [] w1).
    { exists []. split; [constructor | split; [| split; [reflexivity |]]].
      - apply read_none with (more := []). rewrite app_nil_r. reflexivity.
      - cbn [List.length]. lia. }
    destruct (discovered_categories X uid hdrs (sent w1) ids 0 [] w1 all_items w3
                Hstart Hloop)
      as (reads & Hreads & Horder & -> & Hlen).
    exists ids, reads.
    rewrite Hsent in Horder, Hlen. rewrite length_app in Hlen. cbn [List.length] in Hlen.
    repeat split; try assumption; try reflexivity; lia.
Qed.

Lemma items_are_partitioned_by_type_witness :
  Forall (fun item => fst item = PStr "Campaign" /\ Py.truthy (snd item) = true)
         [(PStr "Campaign", PInt 11); (PStr "Campaign", PInt 12)]
  /\ Forall (fun item => fst item = PStr "Reward::Campaign"
                         /\ Py.truthy (snd item) = true)
            [(PStr "Reward::Campaign", PInt 22)]
  /\ (forall item,
         In item [(PStr "Campaign", PInt 11); (PStr "Campaign", PInt 12)] ->
         ~ In item [(PStr "Reward::Campaign", PInt 22)])
  /\ exists (ids : list pyval) (reads : list page_read),
      fst (get_bdo_promo_categories Demo.bdo "run-1" [] empty_world)
      = Ok (PDict [("uuid", PStr "run-1"); ("categories", PList ids)])
      /\ Forall (reads_page Demo.bdo []) reads
      /\ read_in_order (sent empty_world ++ [get_request categories_url []]) reads
           (sent (snd (get_bdo_promo_items Demo.bdo "run-1" [] empty_world)))
      /\ List.length (sent (snd (get_bdo_promo_items Demo.bdo "run-1" [] empty_world)))
         = List.length (sent empty_world) + 1 + List.length ids + List.length reads
      /\ [(PStr "Campaign", PInt 11); (PStr "Campaign", PInt 12)]
         = filter (fun item => Py.eq_str (fst item) "Campaign")
                  (flat_map read_refs reads)
      /\ [(PStr "Reward::Campaign", PInt 22)]
         = filter (fun item => Py.eq_str (fst item) "Reward::Campaign")
                  (flat_map read_refs reads).
Proof.
  apply (items_are_partitioned_by_type
           Demo.bdo "run-1" [] empty_world _ _
           (snd (get_bdo_promo_items Demo.bdo "run-1" [] empty_world))).
  vm_compute. reflexivity.
Defined.

(** A category whose first catalog reply reports no page (the metadata
    is missing, or [total_pages] is zero or negative) costs that one
    request and adds no item; no error is logged. *)
Theorem category_without_pages_adds_nothing :
  forall (X : externals) (uid : string) (hdrs : list (string * string))
         (c : pyval) (all : list (pyval * pyval)) (w : world)
         (data : pyval) (z : Z),
    fetched_json (server X (sent w) (get_request (items_url 1 c) hdrs)) = Some data ->
    total_pages data = Ok (PInt z) ->
    (z <= 0)%Z ->
    fetch_category_items X uid hdrs c all w
    = (Ok all, with_request w (get_request (items_url 1 c) hdrs))
    /\ (forall d, Dict.lookup "meta" d = None -> total_pages (PDict d) = Ok (PInt 0))
    /\ (forall d m, Dict.lookup "meta" d = Some (PDict m) ->
                    Dict.lookup "total_pages" m = None ->
                    total_pages (PDict d) = Ok (PInt 0)).
Proof.
  intros X uid hdrs c all w data z Hjson Htotal Hz.
  split; [| split].
  - unfold fetch_category_items. unfold bind at 1.
    rewrite fetch_json_get_run by reflexivity. cbv zeta.
    rewrite (fetched_json_no_failure _ _ Hjson), Hjson, Htotal.
    unfold lift, bind. cbn [Py.range_from_1].
    replace (Z.to_nat z) with 0 by lia. reflexivity.
  - intros d Hd. unfold total_pages. cbn [Py.get rbind]. unfold Dict.get.
    rewrite Hd. reflexivity.
  - intros d m Hd Hm. unfold total_pages. cbn [Py.get rbind]. unfold Dict.get.
    rewrite Hd. cbn [Py.get]. unfold Dict.get. rewrite Hm. reflexivity.
Qed.

Lemma category_without_pages_adds_nothing_witness :
  fetch_category_items Demo.bdo_no_meta "run-1" [] (PInt 7) [] empty_world
  = (Ok [], with_request empty_world (get_request (items_url 1 (PInt 7)) [])).
Proof.
  apply (proj1 (category_without_pages_adds_nothing
                  Demo.bdo_no_meta "run-1" [] (PInt 7) [] empty_world
                  (PDict [("data", PList [Demo.item "Campaign" 11])]) 0
                  eq_refl eq_refl ltac:(lia))).
Defined.

(** A first catalog reply that is not an object, or whose [meta] is not
    an object, is not passed over: [AttributeError] is none of the
    exceptions the [except] clause names, so it ends item discovery; a
    [total_pages] that is not an integer ends it with [TypeError]. *)
Theorem malformed_page_count_aborts_discovery :
  forall (X : externals) (uid : string) (hdrs : list (string * string))
         (c : pyval) (all : list (pyval * pyval)) (w : world) (data : pyval),
    fetched_json (server X (sent w) (get_request (items_url 1 c) hdrs)) = Some data ->
    (Py.is_dict data = false
     \/ (exists d m, data = PDict d /\ Dict.lookup "meta" d = Some m
                     /\ Py.is_dict m = false) ->
     fetch_category_items X uid hdrs c all w
     = (Raise AttributeError, with_request w (get_request (items_url 1 c) hdrs)))
    /\ (forall v, total_pages data = Ok v ->
                  (forall z, v <> PInt z) -> (forall b, v <> PBool b) ->
                  fetch_category_items X uid hdrs c all w
                  = (Raise TypeError,
                     with_request w (get_request (items_url 1 c) hdrs))).
Proof.
  intros X uid hdrs c all w data Hjson.
  split.
  - intros Hbad.
    assert (Htotal : total_pages data = Raise AttributeError).
    { destruct Hbad as [Hdata | (d & m & -> & Hmeta & Hm)].
      - destruct data; try reflexivity. discriminate.
      - unfold total_pages. cbn [Py.get rbind]. unfold Dict.get. rewrite Hmeta.
        destruct m; try reflexivity. discriminate. }
    unfold fetch_category_items. unfold bind at 1.
    rewrite fetch_json_get_run by reflexivity. cbv zeta.
    rewrite (fetched_json_no_failure _ _ Hjson), Hjson, Htotal. reflexivity.
  - intros v Htotal Hint Hbool.
    unfold fetch_category_items. unfold bind at 1.
    rewrite fetch_json_get_run by reflexivity. cbv zeta.
    rewrite (fetched_json_no_failure _ _ Hjson), Hjson, Htotal.
    unfold lift, bind.
    destruct v; try reflexivity.
    + exfalso. exact (Hbool b eq_refl).
    + exfalso. exact (Hint z eq_refl).
Qed.

Lemma malformed_page_count_aborts_discovery_witness :
  fetch_category_items Demo.bdo_bad_meta "run-1" [] (PInt 7) [] empty_world
  = (Raise AttributeError,
     with_request empty_world (get_request (items_url 1 (PInt 7)) [])).
Proof.
  refine (proj1 (malformed_page_count_aborts_discovery
                   Demo.bdo_bad_meta "run-1" [] (PInt 7) [] empty_world
                   (PDict [("data", PList [Demo.item "Campaign" 11]); ("meta", PNone)])
                   eq_refl) _).
  right. exists [("data", PList [Demo.item "Campaign" 11]); ("meta", PNone)], PNone.
  repeat split; reflexivity.
Defined.

(** ** What the parsers read of a record *)

Lemma BankPromo_init_fields (X : externals) id bank u c day p :
  BankPromo_init X id bank u c day = Ok p ->
  scrape_id p = id /\ bank_name p = bank /\ scrape_date p = day
  /\ c = PStr (promo_content p)
  /\ exists s, u = PStr s /\ http_url_ok X s = true
                /\ promo_url p = http_url_str X s.
Proof.
  unfold BankPromo_init.
  destruct u; try discriminate.
  destruct c; try discriminate.
  destruct (http_url_ok X s) eqn:Hurl; [| discriminate].
  intros H. injection H as <-. simpl. repeat split; eauto.
Qed.

(** The parser of campaign records never reads the [link] the detail
    loop has synthesized: whatever [link] holds, the result is the
    same, and the URL of a campaign record is the rewards page of its
    ['id'], as the record type stores it. *)
Theorem campaign_link_is_never_read :
  forall (X : externals) (uid : string) (entry : dict) (link : pyval),
    parse_bdo_campaign_entry X uid (Dict.set "link" link entry)
    = parse_bdo_campaign_entry X uid entry
    /\ (forall p, parse_bdo_campaign_entry X uid entry = Ok p ->
                  promo_url p
                  = http_url_str X (rewards_page (Dict.get "id" PNone entry))
                  /\ bank_name p = "bdo").
Proof.
  intros X uid entry link. split.
  - unfold parse_bdo_campaign_entry, campaign_fields.
    rewrite !get_set_other by discriminate. reflexivity.
  - intros p H. unfold parse_bdo_campaign_entry in H.
    apply rbind_ok in H. destruct H as (fields & _ & H).
    apply rbind_ok in H. destruct H as (parts & _ & H).
    apply rbind_ok in H. destruct H as (content & _ & H).
    apply BankPromo_init_fields in H.
    destruct H as (_ & Hbank & _ & _ & s & Hs & _ & Hurl).
    injection Hs as <-. auto.
Qed.

(** A campaign or a reward whose reply carries no name (the key is
    missing or null) is stored with [None] as its name, and the parser
    raises on it: [entry.get("name", "")] finds the key, and [None] has
    no [strip].  No record of the batch is returned.  The same holds
    for a campaign record whose headline or sub-headline is not a
    string. *)
Theorem record_without_name_loses_the_batch :
  forall (X : externals) (uid : string) (id data : pyval) (json_data out : dict)
         (raw : list dict),
    Py.get data "data" (PDict []) = Ok (PDict json_data) ->
    Dict.lookup "name" json_data = None \/ Dict.lookup "name" json_data = Some PNone ->
    In out raw ->
    (campaign_output id data = Ok out ->
     exists e, parse_bdo_campaign_output X raw uid = Raise e)
    /\ (reward_output data = Ok out ->
        exists e, parse_bdo_reward_output X raw uid = Raise e)
    /\ (forall entry k,
           In k ["name"; "headline"; "sub_headline"] ->
           not_a_string (Dict.get k (PStr "") entry) ->
           In entry raw ->
           exists e, parse_bdo_campaign_output X raw uid = Raise e).
Proof.
  intros X uid id data json_data out raw Hdata Hname Hin.
  assert (Hnone : Dict.get "name" PNone json_data = PNone).
  { unfold Dict.get. destruct Hname as [-> | ->]; reflexivity. }
  assert (Hbatch : forall entry k,
             In k ["name"; "headline"; "sub_headline"] ->
             not_a_string (Dict.get k (PStr "") entry) ->
             In entry raw ->
             exists e, parse_bdo_campaign_output X raw uid = Raise e).
  { intros entry k Hk Hbad Hentry.
    unfold parse_bdo_campaign_output.
    eapply comprehension_raises; [exact Hentry |].
    destruct (campaign_entry_raises X uid entry k Hk Hbad) as (e & He).
    exists e. rewrite He. reflexivity. }
  split; [| split; [| exact Hbatch]].
  - intros Hout. apply (Hbatch out "name"); [simpl; auto | | exact Hin].
    rewrite (campaign_output_name id data json_data out Hdata Hout), Hnone.
    intros s H. discriminate H.
  - intros Hout. unfold parse_bdo_reward_output.
    eapply comprehension_raises; [exact Hin |].
    destruct (reward_entry_raises X uid out) as (e & He).
    + rewrite (reward_output_name data json_data out Hdata Hout), Hnone.
      intros s H. discriminate H.
    + exists e. rewrite He. reflexivity.
Qed.

Lemma record_without_name_loses_the_batch_witness :
  exists e,
    parse_bdo_campaign_output Demo.bdo [Demo.campaign_entry; Demo.nameless_entry] "run-1"
    = Raise e.
Proof.
  refine (proj1 (record_without_name_loses_the_batch
                   Demo.bdo "run-1" (PInt 12) Demo.nameless_campaign
                   [("id", PInt 12)] Demo.nameless_entry
                   [Demo.campaign_entry; Demo.nameless_entry] eq_refl _ _) _).
  - left. reflexivity.
  - simpl. auto.
  - reflexivity.
Defined.

(** In the fields that pass through [html_to_text], [None] reads as the
    empty string: a campaign record with a null [body_text] or
    [enrolment_page_body_text] and a reward record with a null
    [description] give the result the empty string gives. *)
Theorem null_html_field_reads_as_empty :
  forall (X : externals) (uid : string) (entry : dict),
    html_to_text X PNone = html_to_text X (PStr "")
    /\ parse_bdo_campaign_entry X uid (Dict.set "body_text" PNone entry)
       = parse_bdo_campaign_entry X uid (Dict.set "body_text" (PStr "") entry)
    /\ parse_bdo_campaign_entry X uid (Dict.set "enrolment_page_body_text" PNone entry)
       = parse_bdo_campaign_entry X uid
           (Dict.set "enrolment_page_body_text" (PStr "") entry)
    /\ parse_bdo_reward_entry X uid (Dict.set "description" PNone entry)
       = parse_bdo_reward_entry X uid (Dict.set "description" (PStr "") entry).
Proof.
  intros X uid entry.
  split; [reflexivity |].
  split; [| split].
  - unfold parse_bdo_campaign_entry, campaign_fields.
    rewrite !get_set_same, !get_set_other by discriminate. reflexivity.
  - unfold parse_bdo_campaign_entry, campaign_fields.
    rewrite !get_set_same, !get_set_other by discriminate. reflexivity.
  - unfold parse_bdo_reward_entry, reward_fields.
    rewrite !get_set_same, !get_set_other by discriminate.
    change (html_to_text X PNone) with (html_to_text X (PStr "")).
    destruct (html_to_text X (PStr "")) as [description | e]; [| reflexivity].
    cbn [rbind].
    unfold accordion_fields.
    rewrite (set_length "description" PNone (PStr "") entry).
    rewrite (read_accordions_same_keys X
               (Dict.set "description" PNone entry)
               (Dict.set "description" (PStr "") entry)).
    + reflexivity.
    + intros i. destruct (description_is_no_accordion_key i) as [Ht Hb].
      rewrite !lookup_set_other by assumption. auto.
Qed.

(** ** The records an orchestrator returns *)

Lemma for_each_invariant_in {A S} (P : S -> Prop) (body : A -> S -> M S) (xs : list A) :
  (forall x acc w acc' w', In x xs -> P acc -> body x acc w = (Ok acc', w') -> P acc') ->
  forall acc w acc' w',
    P acc -> for_each xs body acc w = (Ok acc', w') -> P acc'.
Proof.
  induction xs as [| x xs IH]; intros Hbody acc w acc' w' Hacc H; simpl in H.
  - apply ret_ok in H. subst. exact Hacc.
  - apply bind_ok in H. destruct H as (acc1 & w1 & H1 & H2).
    eapply IH; [| | exact H2].
    + intros y a w0 a' w0' Hy. apply Hbody. right. exact Hy.
    + eapply Hbody; [left; reflexivity | exact Hacc | exact H1].
Qed.

Lemma sitemap_turn_record (X : externals) (id bank : string) (u : pyval)
      (fetch : M pyval) (extractor : pyval -> M pyval)
      (promos promos' : list BankPromo) (w w' : world) (P : BankPromo -> Prop) :
  (forall p c, BankPromo_init X id bank u c (today X) = Ok p -> P p) ->
  Forall P promos ->
  (html_content <- fetch ;;
   html_txt <- extractor html_content ;;
   promo <- lift (BankPromo_init X id bank u html_txt (today X)) ;;
   ret (promos ++ [promo])) w = (Ok promos', w') ->
  Forall P promos'.
Proof.
  intros Hinit Hall H.
  apply bind_ok in H. destruct H as (html & w1 & _ & H).
  apply bind_ok in H. destruct H as (txt & w2 & _ & H).
  apply bind_ok in H. destruct H as (p & w3 & Hp & H).
  apply lift_ok in Hp. apply ret_ok in H. subst promos'.
  apply Forall_app. split; [exact Hall |].
  constructor; [| constructor]. eapply Hinit. exact Hp.
Qed.

Lemma init_record_of (X : externals) (id bank : string) (u c : pyval) (p : BankPromo) :
  BankPromo_init X id bank u c (today X) = Ok p -> record_of X id bank p.
Proof.
  intros H. apply BankPromo_init_fields in H.
  destruct H as (Hid & Hbank & Hday & _ & s & _ & Hok & Hurl).
  repeat split; try assumption. exists s. auto.
Qed.

Lemma ew_turn_records (X : externals) id u promos w promos' w' (P : BankPromo -> Prop) :
  (forall p c, BankPromo_init X id "eastwest" u c (today X) = Ok p -> P p) ->
  Forall P promos ->
  ew_turn X id u promos w = (Ok promos', w') ->
  Forall P promos'.
Proof.
  intros Hinit Hall H. unfold ew_turn in H.
  apply try_ok in H. destruct H as [H | (e & w1 & _ & H)].
  - eapply (sitemap_turn_record X id "eastwest" u
              (get_html_content X (Py.str u) id)
              (fun html => get_ew_content X html id));
      eassumption.
  - apply bind_ok in H. destruct H as (? & w2 & _ & H).
    apply ret_ok in H. subst. exact Hall.
Qed.

Lemma chinabank_link_records (X : externals) id u promos w promos' w'
      (P : BankPromo -> Prop) :
  (forall p c, BankPromo_init X id "chinabank" u c (today X) = Ok p -> P p) ->
  Forall P promos ->
  chinabank_link X id u promos w = (Ok promos', w') ->
  Forall P promos'.
Proof.
  intros Hinit Hall H. unfold chinabank_link in H.
  apply try_ok in H. destruct H as [H | (e & w1 & _ & H)].
  - eapply (sitemap_turn_record X id "chinabank" u
              (get_html_content X (Py.str u) id)
              (fun html => extract_cbank_content X html id));
      eassumption.
  - apply bind_ok in H. destruct H as (? & w2 & _ & H).
    apply ret_ok in H. subst. exact Hall.
Qed.

Lemma bpi_turn_records (X : externals) id u vars w vars' w' (P : BankPromo -> Prop) :
  (forall p c, BankPromo_init X id "bpi" u c (today X) = Ok p -> P p) ->
  (Forall P (fst vars) /\ forall p, snd vars = Some p -> P p) ->
  bpi_turn X id u vars w = (Ok vars', w') ->
  Forall P (fst vars') /\ forall p, snd vars' = Some p -> P p.
Proof.
  destruct vars as [promos promo]. intros Hinit [Hall Hvar] H.
  rewrite bpi_turn_run in H.
  destruct (bpi_try X id u promos w) as [[vars1 | e] w1] eqn:Htry.
  - destruct (bpi_try_binds X id u promos w _ _ Htry) as [p ->].
    injection H as <- _.
    assert (Hp : P p).
    { unfold bpi_try in Htry.
      apply bind_ok in Htry. destruct Htry as (html & w2 & _ & Htry).
      apply bind_ok in Htry. destruct Htry as (txt & w3 & _ & Htry).
      apply bind_ok in Htry. destruct Htry as (p' & w4 & Hp & Htry).
      apply lift_ok in Hp. apply ret_ok in Htry.
      injection Htry as Heq _. apply app_inj_tail in Heq. destruct Heq as [_ ->].
      eapply Hinit. exact Hp. }
    split; simpl.
    + rewrite !Forall_app. repeat split; auto.
    + intros p0 H0. injection H0 as <-. exact Hp.
  - cbv zeta in H. destruct promo as [p |]; [| discriminate].
    injection H as <- _. simpl in Hvar.
    split; simpl.
    + apply Forall_app. split; [exact Hall |]. constructor; auto.
    + intros p0 H0. injection H0 as <-. auto.
Qed.

Lemma parse_entries_record_of (X : externals) (uid : string)
      (parse : string -> dict -> result BankPromo) (raw : list dict)
      (promos : list BankPromo) :
  (forall entry p, parse uid entry = Ok p -> record_of X uid "bdo" p) ->
  comprehension (fun entry => promo <~ parse uid entry ;; Ok (Some promo)) raw
    = Ok promos ->
  Forall (record_of X uid "bdo") promos.
Proof.
  intros Hparse H.
  eapply comprehension_Forall; [| exact H].
  intros entry p Hp. apply rbind_ok in Hp. destruct Hp as (p' & Hp' & Hp).
  injection Hp as <-. eapply Hparse. exact Hp'.
Qed.

(** Every record an orchestrator returns carries the tag of its adapter
    as [bank_name], today's date, the run identifier, and a URL that
    passed the URL validation of the record constructor. *)
Theorem returned_records_are_well_formed :
  forall (X : externals) (id : string) (w : world)
         (promos : list BankPromo) (w' : world),
    (scrape_bdo X id w = (Ok promos, w') -> Forall (record_of X id "bdo") promos)
    /\ (scrape_bpi X id w = (Ok promos, w') -> Forall (record_of X id "bpi") promos)
    /\ (scrape_chinabank X id w = (Ok promos, w') ->
        Forall (record_of X id "chinabank") promos)
    /\ (scrape_ew X id w = (Ok promos, w') ->
        Forall (record_of X id "eastwest") promos).
Proof.
  intros X id w promos w'.
  split; [| split; [| split]]; intros H.
  - unfold scrape_bdo in H.
    apply bind_ok in H. destruct H as (hdrs & w1 & _ & H).
    apply bind_ok in H. destruct H as ([campaigns rewards] & w2 & _ & H).
    apply bind_ok in H. destruct H as (cdata & w3 & _ & H).
    apply bind_ok in H. destruct H as (rdata & w4 & _ & H).
    apply bind_ok in H. destruct H as (cpromos & w5 & Hc & H).
    apply bind_ok in H. destruct H as (rpromos & w6 & Hr & H).
    apply lift_ok in Hc, Hr. apply ret_ok in H. subst promos.
    apply Forall_app. split.
    + eapply (parse_entries_record_of X id (parse_bdo_campaign_entry X));
        [| exact Hc].
      intros entry p Hp. unfold parse_bdo_campaign_entry in Hp.
      apply rbind_ok in Hp. destruct Hp as (? & _ & Hp).
      apply rbind_ok in Hp. destruct Hp as (? & _ & Hp).
      apply rbind_ok in Hp. destruct Hp as (? & _ & Hp).
      eapply init_record_of. exact Hp.
    + eapply (parse_entries_record_of X id (parse_bdo_reward_entry X));
        [| exact Hr].
      intros entry p Hp. unfold parse_bdo_reward_entry in Hp.
      apply rbind_ok in Hp. destruct Hp as (? & _ & Hp).
      apply rbind_ok in Hp. destruct Hp as (? & _ & Hp).
      apply rbind_ok in Hp. destruct Hp as (? & _ & Hp).
      eapply init_record_of. exact Hp.
  - unfold scrape_bpi in H.
    apply bind_ok in H. destruct H as (urls & w1 & _ & H).
    apply bind_ok in H. destruct H as (promo_urls & w2 & _ & H).
    apply bind_ok in H. destruct H as (vars & w3 & Hloop & H).
    apply ret_ok in H. subst promos.
    apply (for_each_invariant
             (fun vars => Forall (record_of X id "bpi") (fst vars)
                          /\ forall p, snd vars = Some p -> record_of X id "bpi" p)
             (bpi_turn X id)) in Hloop.
    + apply Hloop.
    + intros u acc w0 acc' w0' Hacc Hu.
      eapply bpi_turn_records; [| exact Hacc | exact Hu].
      intros p c. apply init_record_of.
    + split; [constructor | discriminate].
  - unfold scrape_chinabank in H.
    eapply for_each_invariant; [| constructor | exact H].
    intros category acc w0 acc' w0' Hacc Hcat. unfold chinabank_category in Hcat.
    apply try_ok in Hcat. destruct Hcat as [Hcat | (e & w1 & _ & Hcat)].
    + apply bind_ok in Hcat. destruct Hcat as (html & w1 & _ & Hcat).
      apply bind_ok in Hcat. destruct Hcat as (hrefs & w2 & _ & Hcat).
      eapply for_each_invariant; [| exact Hacc | exact Hcat].
      intros u a w3 a' w3' Ha Hu.
      eapply chinabank_link_records; [| exact Ha | exact Hu].
      intros p c. apply init_record_of.
    + apply bind_ok in Hcat. destruct Hcat as (? & w2 & _ & Hcat).
      apply ret_ok in Hcat. subst. exact Hacc.
  - unfold scrape_ew in H.
    apply bind_ok in H. destruct H as (urls & w1 & _ & H).
    apply bind_ok in H. destruct H as (filtered & w2 & _ & H).
    eapply for_each_invariant; [| constructor | exact H].
    intros u acc w0 acc' w0' Hacc Hu.
    eapply ew_turn_records; [| exact Hacc | exact Hu].
    intros p c. apply init_record_of.
Qed.

Lemma returned_records_are_well_formed_witness :
  Forall (record_of Demo.eastwest "run-1" "eastwest")
         [ew_record Demo.eastwest "run-1" (ew_prefix ++ "summer") "Double points"].
Proof.
  apply (proj2 (proj2 (proj2 (returned_records_are_well_formed
                                Demo.eastwest "run-1" empty_world _
                                (snd (scrape_ew Demo.eastwest "run-1" empty_world)))))).
  vm_compute. reflexivity.
Defined.

(** ** The EastWest sample *)

Lemma urls_with_prefix_kept (prefix : string) (urls filtered : list pyval) :
  urls_with_prefix prefix urls = Ok filtered ->
  Forall (fun v => exists s, v = PStr s /\ PyStr.startswith s prefix = true) filtered.
Proof.
  unfold urls_with_prefix. intros H.
  eapply comprehension_Forall; [| exact H].
  intros u v Hu. cbv beta in Hu.
  apply rbind_ok in Hu. destruct Hu as (keep & Hkeep & Hu).
  destruct keep; [| discriminate]. injection Hu as <-.
  destruct u; try discriminate.
  simpl in Hkeep. injection Hkeep as Hkeep. eauto.
Qed.

Lemma for_each_length {A B} (body : A -> list B -> M (list B)) (xs : list A) :
  (forall x acc w acc' w',
      body x acc w = (Ok acc', w') -> List.length acc' <= S (List.length acc)) ->
  forall acc w acc' w',
    for_each xs body acc w = (Ok acc', w') ->
    List.length acc' <= List.length acc + List.length xs.
Proof.
  intros Hbody.
  induction xs as [| x xs IH]; intros acc w acc' w' H; simpl in H.
  - apply ret_ok in H. subst. lia.
  - apply bind_ok in H. destruct H as (acc1 & w1 & H1 & H2).
    apply Hbody in H1. apply IH in H2. simpl. lia.
Qed.

(** Whatever the sitemap holds, the EastWest adapter returns at most
    three records, and each is the record of a URL that begins with the
    promo prefix: its URL is what the record type stores for such a
    URL. *)
Theorem eastwest_returns_at_most_three_promo_pages :
  forall (X : externals) (id : string) (w : world)
         (promos : list BankPromo) (w' : world),
    scrape_ew X id w = (Ok promos, w') ->
    List.length promos <= 3
    /\ Forall (fun p => exists u, PyStr.startswith u ew_prefix = true
                                  /\ http_url_ok X u = true
                                  /\ promo_url p = http_url_str X u) promos.
Proof.
  intros X id w promos w' H.
  unfold scrape_ew in H.
  apply bind_ok in H. destruct H as (urls & w1 & _ & H).
  apply bind_ok in H. destruct H as (filtered & w2 & Hfilter & H).
  apply lift_ok in Hfilter. apply urls_with_prefix_kept in Hfilter.
  split.
  - apply for_each_length in H.
    + pose proof (firstn_le_length 3 filtered) as Hle.
      change (List.length (@nil BankPromo)) with 0 in H. lia.
    + intros u acc w0 acc' w0' Hu.
      destruct (ew_turn_returns X id u acc w0) as (acc1 & w1' & Hrun & Hsame).
      rewrite Hrun in Hu. injection Hu as <- _.
      destruct Hsame as [-> | (p & ->)]; [lia |].
      rewrite length_app. simpl. lia.
  - eapply (for_each_invariant_in
              (Forall (fun p => exists u, PyStr.startswith u ew_prefix = true
                                          /\ http_url_ok X u = true
                                          /\ promo_url p = http_url_str X u)));
      [| constructor | exact H].
    intros u acc w0 acc' w0' Hin Hacc Hu.
    eapply ew_turn_records; [| exact Hacc | exact Hu].
    intros p c Hp. apply BankPromo_init_fields in Hp.
    destruct Hp as (_ & _ & _ & _ & s' & Hs' & Hok & Hurl).
    rewrite Forall_forall in Hfilter.
    destruct (Hfilter u) as (s & Hs & Hprefix).
    { apply in_firstn in Hin. exact Hin. }
    rewrite Hs in Hs'. injection Hs' as <-. eauto.
Qed.

Lemma eastwest_returns_at_most_three_promo_pages_witness :
  List.length [ew_record Demo.eastwest "run-1" (ew_prefix ++ "summer") "Double points"]
    <= 3
  /\ Forall (fun p => exists u, PyStr.startswith u ew_prefix = true
                                /\ http_url_ok Demo.eastwest u = true
                                /\ promo_url p = http_url_str Demo.eastwest u)
            [ew_record Demo.eastwest "run-1" (ew_prefix ++ "summer") "Double points"].
Proof.
  apply (eastwest_returns_at_most_three_promo_pages
           Demo.eastwest "run-1" empty_world _
           (snd (scrape_ew Demo.eastwest "run-1" empty_world))).
  vm_compute. reflexivity.
Defined.

(** ** The Chinabank crawl *)

Lemma for_each_returns {A S} (body : A -> S -> M S) (xs : list A) :
  (forall x acc w, exists acc' w', body x acc w = (Ok acc', w')) ->
  forall acc w, exists acc' w', for_each xs body acc w = (Ok acc', w').
Proof.
  intros Hbody.
  induction xs as [| x xs IH]; intros acc w; simpl.
  - exists acc, w. reflexivity.
  - unfold bind. destruct (Hbody x acc w) as (acc1 & w1 & ->). apply IH.
Qed.

(** The Chinabank orchestrator never raises: whatever the servers
    answer and whatever the pages hold, it returns a list. *)
Theorem chinabank_always_returns :
  forall (X : externals) (id : string) (w : world),
    exists promos w', scrape_chinabank X id w = (Ok promos, w').
Proof.
  intros X id w. unfold scrape_chinabank.
  apply for_each_returns.
  intros u acc w0.
  destruct (chinabank_category_returns X id u acc w0) as (acc' & w' & _ & H & _).
  eauto.
Qed.

Lemma extract_cbank_content_sent (X : externals) html id w :
  sent (snd (extract_cbank_content X html id w)) = sent w.
Proof.
  unfold extract_cbank_content, try_except, lift.
  destruct (soup <~ BeautifulSoup X html ;; found_text (Soup.find article_detail soup));
    reflexivity.
Qed.

Lemma get_html_content_returns (X : externals) (u id : string) (w : world) :
  exists v w1,
    get_html_content X u id w = (Ok v, w1) /\ sent w1 = sent w ++ page_fetch u.
Proof.
  unfold page_fetch.
  destruct (sendable u) eqn:Hsend.
  - rewrite get_html_content_run by exact Hsend. cbv zeta.
    destruct (server X (sent w) _) as [e | resp]; [eauto |].
    destruct ((400 <=? status_code resp)%Z && (status_code resp <? 600)%Z); eauto.
  - rewrite get_html_content_refused by exact Hsend.
    eexists. eexists. split; [reflexivity |]. simpl. rewrite app_nil_r. reflexivity.
Qed.

Lemma chinabank_link_sent (X : externals) id link promos w :
  sent (snd (chinabank_link X id link promos w))
  = sent w ++ page_fetch (Py.str link).
Proof.
  unfold chinabank_link, try_except. unfold bind at 1.
  destruct (get_html_content_returns X (Py.str link) id w) as (v & w1 & -> & Hsent).
  unfold bind at 1.
  pose proof (extract_cbank_content_sent X v id w1) as Hextract.
  destruct (extract_cbank_content X v id w1) as [[txt | e] w2]; simpl in Hextract.
  - unfold bind, lift, ret.
    destruct (BankPromo_init X id "chinabank" link txt (today X)); simpl; congruence.
  - simpl. congruence.
Qed.

Lemma chinabank_links_sent (X : externals) id (links : list pyval) :
  forall promos w,
    sent (snd (for_each links (chinabank_link X id) promos w))
    = sent w ++ flat_map (fun h => page_fetch (Py.str h)) links.
Proof.
  induction links as [| link links IH]; intros promos w; simpl.
  - rewrite app_nil_r. reflexivity.
  - unfold bind.
    pose proof (chinabank_link_sent X id link promos w) as Hlink.
    destruct (chinabank_link_returns X id link promos w) as (promos1 & w1 & Hrun & _).
    rewrite Hrun in Hlink |- *. simpl in Hlink.
    rewrite IH, Hlink, <- app_assoc. reflexivity.
Qed.

Lemma extract_cbank_href_run (X : externals) (u id : string) (w : world) :
  sendable u = true ->
  exists w1,
    (promo_url_content <- get_html_content X u id ;;
     extract_cbank_href X promo_url_content id) w
    = (Ok (category_hrefs X (server X (sent w) (get_request u browser_headers))), w1)
    /\ sent w1 = sent w ++ [get_request u browser_headers].
Proof.
  intros Hsend.
  unfold bind. rewrite get_html_content_run by exact Hsend. cbv zeta.
  unfold category_hrefs, page_element.
  destruct (server X (sent w) (get_request u browser_headers)) as [e | resp].
  - unfold extract_cbank_href, BeautifulSoup. run. eauto.
  - destruct ((400 <=? status_code resp)%Z && (status_code resp <? 600)%Z).
    + unfold extract_cbank_href, BeautifulSoup. run. eauto.
    + unfold extract_cbank_href, BeautifulSoup, try_except, lift. cbn [rbind].
      destruct (Soup.find gallery_list _) as [results |]; [| run; eauto].
      destruct (comprehension _ _); run; eauto.
Qed.

Lemma page_fetches_of (links : list pyval) :
  flat_map (fun h => page_fetch (Py.str h)) links
  = map (fun h => get_request (Py.str h) browser_headers)
        (filter (fun h => sendable (Py.str h)) links).
Proof.
  induction links as [| h links IH]; [reflexivity |].
  cbn [flat_map filter]. unfold page_fetch at 1.
  destruct (sendable (Py.str h)); simpl; rewrite IH; reflexivity.
Qed.

(** One turn of the category loop requests the category page and then
    one page per link found in the gallery container of that page, in
    document order, and nothing else: a link elsewhere on the page is
    not followed, and a link that is not an absolute URL (a relative
    [href], never resolved against the page) is not requested either.
    When the page does not arrive or holds no gallery container, the
    turn costs that one request and leaves the list as it was. *)
Theorem chinabank_follows_the_gallery_links :
  forall (X : externals) (id u : string) (promos : list BankPromo) (w : world),
    sendable u = true ->
    let links := category_hrefs X (server X (sent w) (get_request u browser_headers)) in
    sent (snd (chinabank_category X id u promos w))
    = sent w ++ get_request u browser_headers
             :: map (fun h => get_request (Py.str h) browser_headers)
                    (filter (fun h => sendable (Py.str h)) links)
    /\ (links = [] -> fst (chinabank_category X id u promos w) = Ok promos).
Proof.
  intros X id u promos w Hsend links.
  destruct (extract_cbank_href_run X u id w Hsend) as (w1 & Hhref & Hsent).
  fold links in Hhref.
  assert (Hbody :
    (promo_url_content <- get_html_content X u id ;;
     promo_hrefs <- extract_cbank_href X promo_url_content id ;;
     for_each promo_hrefs (chinabank_link X id) promos) w
    = for_each links (chinabank_link X id) promos w1).
  { unfold bind in Hhref |- *.
    destruct (get_html_content X u id w) as [[html | e] w0]; [| discriminate].
    rewrite Hhref. reflexivity. }
  destruct (for_each_returns (chinabank_link X id) links
              (fun x acc w0 =>
                 match chinabank_link_returns X id x acc w0 with
                 | ex_intro _ a (ex_intro _ b (conj H _)) =>
                     ex_intro _ a (ex_intro _ b H)
                 end) promos w1) as (promos' & w' & Hloop).
  pose proof (chinabank_links_sent X id links promos w1) as Hlinks.
  rewrite Hloop in Hlinks. simpl in Hlinks.
  unfold chinabank_category, try_except.
  rewrite Hbody, Hloop. simpl.
  split.
  - rewrite Hlinks, Hsent, page_fetches_of, <- app_assoc. reflexivity.
  - intros Hnil. rewrite Hnil in Hloop. simpl in Hloop.
    unfold ret in Hloop. congruence.
Qed.

Lemma chinabank_follows_the_gallery_links_witness :
  sent (snd (chinabank_category
               Demo.chinabank "run-1"
               "https://www.chinabank.ph/credit-card-promos-more" [] empty_world))
  = sent empty_world
      ++ [get_request "https://www.chinabank.ph/credit-card-promos-more" browser_headers;
          get_request "https://www.chinabank.ph/promo-1" browser_headers].
Proof.
  apply (proj1 (chinabank_follows_the_gallery_links
                  Demo.chinabank "run-1"
                  "https://www.chinabank.ph/credit-card-promos-more" [] empty_world
                  eq_refl)).
Defined.

(** A link that is not an absolute URL is lost: nothing is requested
    for it, the fetch, the extraction and the turn each log their
    failure, and the list is returned as it was.  A link that can be
    requested but whose URL fails the URL validation of the record
    constructor is requested and gives no record either. *)
Theorem chinabank_skips_invalid_links :
  forall (X : externals) (id u : string) (promos : list BankPromo) (w : world),
    (sendable u = false ->
     chinabank_link X id (PStr u) promos w
     = (Ok promos,
        with_log
          (with_log
             (with_log w ERROR ("Request ID " ++ id ++ ": Failed to fetch HTML"))
             ERROR ("Request ID " ++ id ++ ": Error extracting hrefs from link"))
          WARNING ("[ChinaBank] Failed to extract promo content from " ++ u)))
    /\ (sendable u = true ->
        http_url_ok X u = false ->
        fst (chinabank_link X id (PStr u) promos w) = Ok promos
        /\ sent (snd (chinabank_link X id (PStr u) promos w))
           = sent w ++ [get_request u browser_headers]).
Proof.
  intros X id u promos w. split.
  - intros Hsend.
    unfold chinabank_link, try_except. unfold bind at 1. cbn [Py.str].
    rewrite get_html_content_refused by exact Hsend.
    reflexivity.
  - intros Hsend Hurl. split.
    + unfold chinabank_link, try_except. unfold bind at 1.
      destruct (get_html_content X (Py.str (PStr u)) id w) as [[html | e] w1];
        [| reflexivity].
      unfold bind at 1.
      destruct (extract_cbank_content X html id w1) as [[txt | e] w2]; [| reflexivity].
      unfold bind, lift, BankPromo_init. rewrite Hurl.
      destruct txt; reflexivity.
    + rewrite (chinabank_link_sent X id (PStr u) promos w).
      unfold page_fetch. cbn [Py.str]. rewrite Hsend. reflexivity.
Qed.

Lemma chinabank_skips_invalid_links_witness :
  chinabank_link Demo.chinabank "run-1" (PStr "/promo-2") [] empty_world
  = (Ok [],
     {| sent := [];
        logged := [{| level := ERROR;
                      message := "Request ID run-1: Failed to fetch HTML" |};
                   {| level := ERROR;
                      message := "Request ID run-1: Error extracting hrefs from link" |};
                   {| level := WARNING;
                      message := "[ChinaBank] Failed to extract promo content from /promo-2" |}]
     |}).
Proof.
  apply (proj1 (chinabank_skips_invalid_links
                  Demo.chinabank "run-1" "/promo-2" [] empty_world)).
  reflexivity.
Defined.

(** The sample category: the link outside the gallery is not followed,
    the relative link is not requested, one record is returned. *)
Example chinabank_category_run :
  map url (sent (snd (chinabank_category
                        Demo.chinabank "run-1"
                        "https://www.chinabank.ph/credit-card-promos-more" []
                        empty_world)))
  = ["https://www.chinabank.ph/credit-card-promos-more";
     "https://www.chinabank.ph/promo-1"]
  /\ fst (chinabank_category
            Demo.chinabank "run-1"
            "https://www.chinabank.ph/credit-card-promos-more" [] empty_world)
     = Ok [{| scrape_id := "run-1"; bank_name := "chinabank";
              promo_url := "https://www.chinabank.ph/promo-1";
              promo_content := "Zero interest"; scrape_date := "2025-06-30" |}].
Proof. split; vm_compute; reflexivity. Qed.

(** ** The requests a run sends *)

Ltac api_request_here :=
  apply adds_fetch_json_get; repeat split; reflexivity.

Ltac adds_step :=
  first
    [ api_request_here
    | apply adds_ret | apply adds_raise | apply adds_lift | apply adds_log
    | apply adds_bind; [| intros ?]
    | apply adds_try; [| intros ?]
    | apply adds_for_each; intros ? ?
    | match goal with
      | |- adds _ (match ?x with _ => _ end) => destruct x
      | |- adds _ (if ?b then _ else _) => destruct b
      | |- adds _ (let (_, _) := ?p in _) => destruct p
      end ].

Lemma adds_get_bdo_promo_items (X : externals) uid hdrs :
  adds (api_request hdrs) (get_bdo_promo_items X uid hdrs).
Proof.
  unfold get_bdo_promo_items, get_bdo_promo_categories, fetch_category_items,
    fetch_items_page.
  repeat adds_step.
Qed.

Lemma adds_get_bdo_campaign_details (X : externals) uid hdrs items :
  adds (api_request hdrs) (get_bdo_campaign_details X uid hdrs items).
Proof.
  unfold get_bdo_campaign_details, fetch_campaign. repeat adds_step.
Qed.

Lemma adds_get_bdo_reward_details (X : externals) uid hdrs items :
  adds (api_request hdrs) (get_bdo_reward_details X uid hdrs items).
Proof.
  unfold get_bdo_reward_details, fetch_reward. repeat adds_step.
Qed.

(** After the token request, every request of a BDO run is a GET to the
    PerxTech API that carries the headers built from the token reply,
    with ["Bearer "] and the token as [Authorization]. *)
Theorem bdo_requests_carry_the_bearer_headers :
  forall (X : externals) (id : string) (w : world) (reply : dict),
    let token_request := post_request token_url token_headers token_payload in
    let token := Dict.get "bearer_token" PNone reply in
    fetched_json (server X (sent w) token_request) = Some (PDict reply) ->
    exists s,
      sent (snd (scrape_bdo X id w)) = sent w ++ token_request :: s
      /\ Forall (api_request (bearer_headers token)) s
      /\ In ("Authorization", ("Bearer " ++ Py.str token)%string) (bearer_headers token).
Proof.
  intros X id w reply token_request token Hjson.
  unfold scrape_bdo. unfold bind at 1.
  rewrite get_bdo_bearer_header_run, fetch_json_post_run by reflexivity. cbv zeta.
  fold token_request. rewrite (fetched_json_no_failure _ _ Hjson), Hjson.
  fold token.
  assert (Hrest : adds (api_request (bearer_headers token))
    (items <- get_bdo_promo_items X id (bearer_headers token) ;;
     (let (campaigns, rewards) := items in
      campaign_data <- get_bdo_campaign_details X id (bearer_headers token) campaigns ;;
      reward_data <- get_bdo_reward_details X id (bearer_headers token) rewards ;;
      campaign_promos <- lift (parse_bdo_campaign_output X campaign_data id) ;;
      reward_promos <- lift (parse_bdo_reward_output X reward_data id) ;;
      ret (campaign_promos ++ reward_promos)))).
  { apply adds_bind; [apply adds_get_bdo_promo_items |].
    intros [campaigns rewards].
    apply adds_bind; [apply adds_get_bdo_campaign_details | intros cdata].
    apply adds_bind; [apply adds_get_bdo_reward_details | intros rdata].
    repeat adds_step. }
  destruct (Hrest (with_request w token_request)) as (s & l & Hs & HP & _).
  exists s. rewrite Hs. simpl. rewrite <- app_assoc.
  repeat split; [exact HP | simpl; auto].
Qed.

Lemma bdo_requests_carry_the_bearer_headers_witness :
  exists s,
    sent (snd (scrape_bdo Demo.bdo "run-1" empty_world))
    = sent empty_world ++ post_request token_url token_headers token_payload :: s
    /\ Forall (api_request (bearer_headers (PStr "tok"))) s
    /\ In ("Authorization", "Bearer tok") (bearer_headers (PStr "tok")).
Proof.
  apply (bdo_requests_carry_the_bearer_headers
           Demo.bdo "run-1" empty_world [("bearer_token", PStr "tok")]).
  reflexivity.
Defined.

(** A token reply that is JSON but not an object ends the BDO run with
    [AttributeError] right after the token request. *)
Theorem token_reply_that_is_no_object_aborts :
  forall (X : externals) (id : string) (w : world) (reply : pyval),
    let token_request := post_request token_url token_headers token_payload in
    fetched_json (server X (sent w) token_request) = Some reply ->
    Py.is_dict reply = false ->
    scrape_bdo X id w = (Raise AttributeError, with_request w token_request).
Proof.
  intros X id w reply token_request Hjson Hreply.
  unfold scrape_bdo. unfold bind at 1.
  rewrite get_bdo_bearer_header_run, fetch_json_post_run by reflexivity. cbv zeta.
  fold token_request. rewrite (fetched_json_no_failure _ _ Hjson), Hjson.
  destruct reply; try reflexivity. discriminate.
Qed.

Lemma token_reply_that_is_no_object_aborts_witness :
  scrape_bdo Demo.bdo_token_list "run-1" empty_world
  = (Raise AttributeError,
     with_request empty_world (post_request token_url token_headers token_payload)).
Proof.
  apply (token_reply_that_is_no_object_aborts
           Demo.bdo_token_list "run-1" empty_world (PList [PStr "tok"]));
    reflexivity.
Defined.

Lemma get_sitemap_urls_sent (X : externals) (u id : string) (w : world) :
  sendable u = true ->
  sent (snd (get_sitemap_urls X u id w)) = sent w ++ [get_request u browser_headers].
Proof.
  intros Hsend. rewrite get_sitemap_urls_run by exact Hsend. cbv zeta.
  destruct (transport_failure _); [reflexivity |].
  destruct (sitemap_locs _); reflexivity.
Qed.

Lemma get_ew_content_sent (X : externals) html id w :
  sent (snd (get_ew_content X html id w)) = sent w.
Proof.
  unfold get_ew_content, try_except, lift.
  destruct (soup <~ BeautifulSoup X html ;; found_text (Soup.find ew_main soup));
    reflexivity.
Qed.

Lemma get_bpi_content_sent (X : externals) html id w :
  sent (snd (get_bpi_content X html id w)) = sent w.
Proof.
  unfold get_bpi_content, try_except, lift.
  destruct (soup <~ BeautifulSoup X html ;; found_text (Soup.find bpi_main soup));
    reflexivity.
Qed.

Lemma ew_turn_sent (X : externals) id u promos w :
  sent (snd (ew_turn X id u promos w)) = sent w ++ page_fetch (Py.str u).
Proof.
  unfold ew_turn, try_except. unfold bind at 1.
  destruct (get_html_content_returns X (Py.str u) id w) as (v & w1 & -> & Hsent).
  unfold bind at 1.
  pose proof (get_ew_content_sent X v id w1) as Hextract.
  destruct (get_ew_content X v id w1) as [[txt | e] w2]; simpl in Hextract.
  - unfold bind, lift, ret.
    destruct (BankPromo_init X id "eastwest" u txt (today X)); simpl; congruence.
  - simpl. congruence.
Qed.

Lemma bpi_turn_sent (X : externals) id u vars w :
  sent (snd (bpi_turn X id u vars w)) = sent w ++ page_fetch (Py.str u).
Proof.
  destruct vars as [promos promo]. rewrite bpi_turn_run.
  assert (Htry : sent (snd (bpi_try X id u promos w))
                 = sent w ++ page_fetch (Py.str u)).
  { unfold bpi_try. unfold bind at 1.
    destruct (get_html_content_returns X (Py.str u) id w) as (v & w1 & -> & Hsent).
    unfold bind at 1.
    pose proof (get_bpi_content_sent X v id w1) as Hextract.
    destruct (get_bpi_content X v id w1) as [[txt | e] w2]; simpl in Hextract.
    - unfold bind, lift, ret.
      destruct (BankPromo_init X id "bpi" u txt (today X)); simpl; congruence.
    - simpl. congruence. }
  destruct (bpi_try X id u promos w) as [[[promos' [p |]] | e] w1];
    simpl in Htry |- *; try exact Htry.
  destruct promo; simpl; exact Htry.
Qed.

Lemma turns_send_one {A T} (body : A -> T -> M T) (req : A -> request) (xs : list A) :
  (forall x acc w, In x xs -> sent (snd (body x acc w)) = sent w ++ [req x]) ->
  forall acc w,
    exists k, sent (snd (for_each xs body acc w)) = sent w ++ map req (firstn k xs).
Proof.
  induction xs as [| x xs IH]; intros Hbody acc w; simpl.
  - exists 0. simpl. rewrite app_nil_r. reflexivity.
  - unfold bind. pose proof (Hbody x acc w (or_introl eq_refl)) as Hx.
    destruct (body x acc w) as [[acc1 | e] w1]; simpl in Hx.
    + destruct (IH (fun y a w0 Hy => Hbody y a w0 (or_intror Hy)) acc1 w1) as (k & Hk).
      exists (S k).
      rewrite Hk, Hx. simpl. rewrite <- app_assoc. reflexivity.
    + exists 1. simpl. exact Hx.
Qed.

Lemma page_fetch_of_kept (prefix : string) (urls : list pyval) (u : pyval) :
  sendable prefix = true ->
  (forall s, PyStr.startswith s prefix = true -> sendable s = true) ->
  Forall (fun v => exists s, v = PStr s /\ PyStr.startswith s prefix = true) urls ->
  In u urls ->
  page_fetch (Py.str u) = [get_request (Py.str u) browser_headers].
Proof.
  intros _ Hprefix Hurls Hin.
  rewrite Forall_forall in Hurls.
  destruct (Hurls u Hin) as (s & -> & Hs).
  unfold page_fetch. cbn [Py.str]. rewrite (Hprefix s Hs). reflexivity.
Qed.

Lemma page_requests_of (prefix : string) (urls : list pyval) (k : nat) :
  Forall (fun v => exists s, v = PStr s /\ PyStr.startswith s prefix = true) urls ->
  Forall (page_request prefix)
         (map (fun u => get_request (Py.str u) browser_headers) (firstn k urls)).
Proof.
  intros Hurls. apply Forall_map. apply Forall_forall. intros u Hin.
  rewrite Forall_forall in Hurls.
  destruct (Hurls u) as (s & -> & Hprefix).
  { apply in_firstn in Hin. exact Hin. }
  repeat split. exact Hprefix.
Qed.

(** Whatever happens, the two sitemap adapters request the sitemap
    first and after it nothing but promo pages: every further request
    is a GET with the browser headers for a URL that begins with the
    promo prefix of the bank.  EastWest sends at most three of them. *)
Theorem sitemap_adapters_request_only_promo_pages :
  forall (X : externals) (id : string) (w : world),
    (exists s,
        sent (snd (scrape_ew X id w))
        = sent w ++ get_request ew_sitemap browser_headers :: s
        /\ Forall (page_request ew_prefix) s
        /\ List.length s <= 3)
    /\ (exists s,
           sent (snd (scrape_bpi X id w))
           = sent w ++ get_request bpi_sitemap browser_headers :: s
           /\ Forall (page_request bpi_prefix) s).
Proof.
  intros X id w. split.
  - unfold scrape_ew. fold ew_sitemap. unfold bind at 1.
    pose proof (get_sitemap_urls_sent X ew_sitemap id w eq_refl) as Hmap.
    destruct (get_sitemap_urls X ew_sitemap id w) as [[urls | e] w1]; simpl in Hmap.
    + unfold bind at 1. unfold lift.
      destruct (urls_with_prefix ew_prefix urls) as [filtered | e] eqn:Hfilter.
      * apply urls_with_prefix_kept in Hfilter.
        assert (Hkept : Forall (fun v => exists s, v = PStr s
                                         /\ PyStr.startswith s ew_prefix = true)
                               (firstn 3 filtered)).
        { apply Forall_forall. intros u Hin.
          rewrite Forall_forall in Hfilter. apply Hfilter.
          apply in_firstn in Hin. exact Hin. }
        destruct (turns_send_one (ew_turn X id)
                    (fun u => get_request (Py.str u) browser_headers)
                    (firstn 3 filtered)) with (acc := @nil BankPromo) (w := w1)
          as (k & Hk).
        { intros u acc w0 Hin. rewrite ew_turn_sent.
          rewrite (page_fetch_of_kept ew_prefix (firstn 3 filtered) u eq_refl
                     sendable_ew_page Hkept Hin).
          reflexivity. }
        exists (map (fun u => get_request (Py.str u) browser_headers)
                    (firstn k (firstn 3 filtered))).
        rewrite Hk, Hmap, <- app_assoc.
        split; [reflexivity |]. split.
        -- apply page_requests_of. exact Hkept.
        -- rewrite length_map, !length_firstn. lia.
      * exists []. simpl. rewrite Hmap. repeat split; [constructor | lia].
    + exists []. simpl. rewrite Hmap. repeat split; [constructor | lia].
  - unfold scrape_bpi. fold bpi_sitemap. unfold bind at 1.
    pose proof (get_sitemap_urls_sent X bpi_sitemap id w eq_refl) as Hmap.
    destruct (get_sitemap_urls X bpi_sitemap id w) as [[urls | e] w1]; simpl in Hmap.
    + unfold bind at 1. unfold lift.
      destruct (urls_with_prefix bpi_prefix urls) as [filtered | e] eqn:Hfilter.
      * apply urls_with_prefix_kept in Hfilter.
        destruct (turns_send_one (bpi_turn X id)
                    (fun u => get_request (Py.str u) browser_headers)
                    filtered)
          with (acc := (@nil BankPromo, @None BankPromo)) (w := w1) as (k & Hk).
        { intros u acc w0 Hin. rewrite bpi_turn_sent.
          rewrite (page_fetch_of_kept bpi_prefix filtered u eq_refl
                     sendable_bpi_page Hfilter Hin).
          reflexivity. }
        exists (map (fun u => get_request (Py.str u) browser_headers)
                    (firstn k filtered)).
        unfold bind.
        destruct (for_each filtered (bpi_turn X id) ([], None) w1) as [[vars | e] w2];
          simpl in Hk |- *;
          (rewrite Hk, Hmap, <- app_assoc;
           split; [reflexivity |];
           apply page_requests_of; exact Hfilter).
      * exists []. simpl. rewrite Hmap. split; [reflexivity | constructor].
    + exists []. simpl. rewrite Hmap. split; [reflexivity | constructor].
Qed.

(** ** From a reply to a record *)

Lemma fetch_campaign_sent (X : externals) uid hdrs item acc w :
  sent (snd (fetch_campaign X uid hdrs item acc w))
  = sent w ++ [get_request (campaign_url (snd item)) hdrs].
Proof.
  rewrite fetch_campaign_run, fetch_json_get_run by reflexivity. cbv zeta.
  destruct (transport_failure _); [reflexivity |].
  destruct (fetched_json _) as [data |]; [| reflexivity].
  destruct (campaign_output (snd item) data); reflexivity.
Qed.

Lemma fetch_reward_sent (X : externals) uid hdrs item acc w :
  sent (snd (fetch_reward X uid hdrs item acc w))
  = sent w ++ [get_request (reward_url (snd item)) hdrs].
Proof.
  rewrite fetch_reward_run, fetch_json_get_run by reflexivity. cbv zeta.
  destruct (transport_failure _); [reflexivity |].
  destruct (fetched_json _) as [data |]; [| reflexivity].
  destruct (reward_output data); reflexivity.
Qed.

Lemma turns_send_one_ok {A T} (body : A -> T -> M T) (req : A -> request)
      (xs : list A) :
  (forall x acc w, sent (snd (body x acc w)) = sent w ++ [req x]) ->
  forall acc w acc' w',
    for_each xs body acc w = (Ok acc', w') -> sent w' = sent w ++ map req xs.
Proof.
  intros Hbody.
  induction xs as [| x xs IH]; intros acc w acc' w' H; simpl in H.
  - unfold ret in H. injection H as _ <-. simpl. rewrite app_nil_r. reflexivity.
  - apply bind_ok in H. destruct H as (acc1 & w1 & H1 & H2).
    specialize (Hbody x acc w). rewrite H1 in Hbody. simpl in Hbody.
    rewrite (IH _ _ _ _ H2), Hbody. simpl. rewrite <- app_assoc. reflexivity.
Qed.

(** A detail loop that returns has requested the details of every item
    exactly once, in the order of the list, failed fetches included:
    nothing is retried and nothing is requested twice. *)
Theorem details_are_requested_once_each :
  forall (X : externals) (uid : string) (hdrs : list (string * string))
         (items : list (pyval * pyval)) (w : world)
         (data_set : list dict) (w' : world),
    (get_bdo_campaign_details X uid hdrs items w = (Ok data_set, w') ->
     sent w' = sent w ++ map (fun item => get_request (campaign_url (snd item)) hdrs)
                             items)
    /\ (get_bdo_reward_details X uid hdrs items w = (Ok data_set, w') ->
        sent w' = sent w ++ map (fun item => get_request (reward_url (snd item)) hdrs)
                                items).
Proof.
  intros X uid hdrs items w data_set w'. split; intros H.
  - eapply (turns_send_one_ok (fetch_campaign X uid hdrs)
              (fun item => get_request (campaign_url (snd item)) hdrs));
      [| exact H].
    intros item acc w0. apply fetch_campaign_sent.
  - eapply (turns_send_one_ok (fetch_reward X uid hdrs)
              (fun item => get_request (reward_url (snd item)) hdrs));
      [| exact H].
    intros item acc w0. apply fetch_reward_sent.
Qed.

Lemma details_are_requested_once_each_witness :
  sent (snd (get_bdo_campaign_details
               Demo.bdo "run-1" []
               [(PStr "Campaign", PInt 11); (PStr "Campaign", PInt 12)] empty_world))
  = sent empty_world
      ++ map (fun item => get_request (campaign_url (snd item)) [])
             [(PStr "Campaign", PInt 11); (PStr "Campaign", PInt 12)].
Proof.
  apply (proj1 (details_are_requested_once_each
                  Demo.bdo "run-1" []
                  [(PStr "Campaign", PInt 11); (PStr "Campaign", PInt 12)] empty_world
                  (match fst (get_bdo_campaign_details
                                Demo.bdo "run-1" []
                                [(PStr "Campaign", PInt 11); (PStr "Campaign", PInt 12)]
                                empty_world) with
                   | Ok d => d
                   | Raise _ => []
                   end)
                  _)).
  vm_compute. reflexivity.
Defined.




